(** * BillBrain backend (backend/server.py): a shallow embedding.

    The FastAPI handlers of [server.py] are embedded as functions in a small
    state-and-error monad over the four MongoDB collections ([users],
    [user_sessions], [categories], [receipts]).  Python [str] is [string],
    the bytes of its UTF-8 encoding; Python [float] / BSON double is IEEE
    binary64 given by [spec_float]; Python [int] is [Z]; a field of a
    document that may hold null is an [option]; a Python [dict] whose keys
    matter is an association list, and the documents of a collection are
    kept in insertion order.

    What the handlers take from libraries whose text is not part of
    [server.py] is a parameter of the handlers that use it:
    [datetime.fromisoformat], [bcrypt], [str.lower], [str.title] and the
    regular expressions of the database server.  The instances in [Py],
    [Regex] and [Sample] serve the sample data. *)

From Stdlib Require Import ZArith List String Ascii Bool Lia Sorted Permutation.
From Stdlib Require Import Floats.SpecFloat.
Import ListNotations.

Local Open Scope string_scope.
Local Open Scope Z_scope.

(* ===================================================================== *)
(** ** Python strings *)
(* ===================================================================== *)

Module Py.

(** [s.startswith(p)] *)
Fixpoint startswith (p s : string) : bool :=
  match p, s with
  | EmptyString, _ => true
  | String a p', String b s' => Ascii.eqb a b && startswith p' s'
  | String _ _, EmptyString => false
  end.

Fixpoint rev_string (acc s : string) : string :=
  match s with
  | EmptyString => acc
  | String c s' => rev_string (String c acc) s'
  end.

(** [s.split(sep)] for a non-empty [sep]: the pieces between the
    non-overlapping occurrences of [sep], found left to right.  [skip]
    counts the characters of an occurrence still to be consumed and [cur]
    is the current piece, reversed. *)
Fixpoint split_aux (sep : string) (skip : nat) (cur s : string) : list string :=
  match s with
  | EmptyString => [rev_string "" cur]
  | String c s' =>
      match skip with
      | S k => split_aux sep k cur s'
      | O =>
          if startswith sep s
          then rev_string "" cur :: split_aux sep (Nat.pred (String.length sep)) "" s'
          else split_aux sep O (String c cur) s'
      end
  end.

Definition split (s sep : string) : list string := split_aux sep O "" s.

Definition is_upper (c : ascii) : bool :=
  let n := nat_of_ascii c in (65 <=? n)%nat && (n <=? 90)%nat.
Definition is_lower (c : ascii) : bool :=
  let n := nat_of_ascii c in (97 <=? n)%nat && (n <=? 122)%nat.
Definition is_cased (c : ascii) : bool := is_upper c || is_lower c.

Definition lower_char (c : ascii) : ascii :=
  if is_upper c then ascii_of_nat (nat_of_ascii c + 32) else c.
Definition upper_char (c : ascii) : ascii :=
  if is_lower c then ascii_of_nat (nat_of_ascii c - 32) else c.

(** [s.lower()] and [s.title()] follow the Unicode character database,
    which is not part of this development: the handlers below take them as
    parameters.  What follows is what the two methods do on a string of
    ASCII characters, for use on sample data. *)
Fixpoint lower (s : string) : string :=
  match s with
  | EmptyString => EmptyString
  | String c s' => String (lower_char c) (lower s')
  end.

(** A cased character is upper-cased when the character before it is
    uncased (or there is none), lower-cased otherwise. *)
Fixpoint title_aux (previous_is_cased : bool) (s : string) : string :=
  match s with
  | EmptyString => EmptyString
  | String c s' =>
      String (if previous_is_cased then lower_char c else upper_char c)
             (title_aux (is_cased c) s')
  end.

Definition title (s : string) : string := title_aux false s.

(** [c in s] for a character [c]. *)
Fixpoint contains_char (c : ascii) (s : string) : bool :=
  match s with
  | EmptyString => false
  | String x s' => Ascii.eqb c x || contains_char c s'
  end.

(** Truth value of a [str]: the empty string is falsy. *)
Definition truthy (s : string) : bool :=
  match s with EmptyString => false | String _ _ => true end.

(** Truth value of an [Optional[str]]. *)
Definition truthy_opt (o : option string) : bool :=
  match o with None => false | Some s => truthy s end.

End Py.

(* ===================================================================== *)
(** ** Python [datetime] *)
(* ===================================================================== *)

(** A [datetime] object: its calendar fields and its [tzinfo], [None] for a
    naive value and otherwise the UTC offset of the zone in microseconds. *)
Record datetime : Type := mk_datetime {
  year : Z; month : Z; day : Z;
  hour : Z; minute : Z; second : Z; microsecond : Z;
  tzinfo : option Z
}.

Definition timezone_utc : Z := 0.

Definition replace_tzinfo (d : datetime) (tz : option Z) : datetime :=
  mk_datetime (year d) (month d) (day d) (hour d) (minute d) (second d)
              (microsecond d) tz.

Definition replace_day (d : datetime) (dd : Z) : datetime :=
  mk_datetime (year d) (month d) dd (hour d) (minute d) (second d)
              (microsecond d) (tzinfo d).

Definition replace_month_day (d : datetime) (mm dd : Z) : datetime :=
  mk_datetime (year d) mm dd (hour d) (minute d) (second d)
              (microsecond d) (tzinfo d).

Definition is_leap (y : Z) : bool :=
  (y mod 4 =? 0) && (negb (y mod 100 =? 0) || (y mod 400 =? 0)).

Definition days_before_year (y : Z) : Z :=
  let y1 := y - 1 in y1 * 365 + y1 / 4 - y1 / 100 + y1 / 400.

Definition days_in_month (y m : Z) : Z :=
  if m =? 2 then (if is_leap y then 29 else 28)
  else if (m =? 4) || (m =? 6) || (m =? 9) || (m =? 11) then 30 else 31.

Fixpoint days_before_month_aux (y : Z) (k : nat) : Z :=
  match k with
  | O => 0
  | S k' => days_before_month_aux y k' + days_in_month y (Z.of_nat k)
  end.

Definition days_before_month (y m : Z) : Z :=
  days_before_month_aux y (Z.to_nat (m - 1)).

(** Proleptic Gregorian ordinal of the date fields ([toordinal]). *)
Definition toordinal (d : datetime) : Z :=
  days_before_year (year d) + days_before_month (year d) (month d) + day d.

(** Microseconds of the wall-clock fields since ordinal 0. *)
Definition wall_micros (d : datetime) : Z :=
  (((toordinal d * 24 + hour d) * 60 + minute d) * 60 + second d) * 1000000
  + microsecond d.

(** [a < b] on datetimes.  Two aware values are compared as instants
    (the UTC offsets are subtracted), two naive ones by their fields;
    mixing a naive and an aware value raises [TypeError] ([None]). *)
Definition datetime_lt (a b : datetime) : option bool :=
  match tzinfo a, tzinfo b with
  | Some oa, Some ob => Some (wall_micros a - oa <? wall_micros b - ob)
  | None, None => Some (wall_micros a <? wall_micros b)
  | _, _ => None
  end.

(** The instant an aware datetime denotes; a naive one is read as UTC. *)
Definition instant (d : datetime) : Z :=
  wall_micros d - match tzinfo d with Some o => o | None => 0 end.

(** [datetime.now(timezone.utc)], from the reading [clock] of the UTC
    wall clock. *)
Definition datetime_now_utc (clock : datetime) : datetime :=
  replace_tzinfo clock (Some timezone_utc).

(* ===================================================================== *)
(** ** Numbers *)
(* ===================================================================== *)

(** Python [float] and BSON double: IEEE 754 binary64. *)
Definition float : Type := spec_float.
Definition prec : Z := 53.
Definition emax : Z := 1024.

Definition fadd (x y : float) : float := SFadd prec emax x y.
Definition fzero : float := S754_zero false.

(** A Python number as the handlers see it: [int] or [float]. *)
Inductive num : Type :=
| NInt (z : Z)
| NFloat (f : float).

(** [float(z)]: the binary64 nearest to the integer. *)
Definition float_of_int (z : Z) : float := binary_normalize prec emax z 0 false.

(** Python [a + b]. *)
Definition py_add (a b : num) : num :=
  match a, b with
  | NInt x, NInt y => NInt (x + y)
  | NInt x, NFloat g => NFloat (fadd (float_of_int x) g)
  | NFloat f, NInt y => NFloat (fadd f (float_of_int y))
  | NFloat f, NFloat g => NFloat (fadd f g)
  end.

(** The double that a number denotes. *)
Definition to_float (n : num) : float :=
  match n with
  | NInt z => float_of_int z
  | NFloat f => f
  end.

(** Order of two doubles in a MongoDB sort: NaN sorts before every other
    number, otherwise the numeric order (the two zeros are equal). *)
Definition is_nan (f : float) : bool :=
  match f with S754_nan => true | _ => false end.

Definition sort_leb (x y : float) : bool :=
  match SFcompare x y with
  | Some Gt => false
  | Some _ => true
  | None => is_nan x
  end.

(** The query operators [$gte] and [$lte] on two doubles: NaN equals NaN
    and otherwise never compares. *)
Definition query_gte (x bound : float) : bool :=
  match SFcompare x bound with
  | Some Lt => false
  | Some _ => true
  | None => is_nan x && is_nan bound
  end.

Definition query_lte (x bound : float) : bool :=
  match SFcompare x bound with
  | Some Gt => false
  | Some _ => true
  | None => is_nan x && is_nan bound
  end.

(* ===================================================================== *)
(** ** Characters *)
(* ===================================================================== *)

(** A [str] is kept as the bytes of its UTF-8 encoding.  Where the code
    works on characters, the string is cut into the encodings of its
    characters. *)
Module Utf8.

(** The number of bytes in the encoding of a character, read off the
    first byte; a byte that cannot start a character is taken alone. *)
Definition width (c : ascii) : nat :=
  let n := nat_of_ascii c in
  if (n <? 192)%nat then 1%nat
  else if (n <? 224)%nat then 2%nat
  else if (n <? 240)%nat then 3%nat
  else if (n <? 248)%nat then 4%nat
  else 1%nat.

(** [more] counts the bytes of the current character still to come and
    [cur] holds its bytes so far, reversed. *)
Fixpoint chars_aux (more : nat) (cur s : string) : list string :=
  match s with
  | EmptyString =>
      match cur with
      | EmptyString => []
      | String _ _ => [Py.rev_string "" cur]
      end
  | String c s' =>
      match more with
      | S O => Py.rev_string "" (String c cur) :: chars_aux O "" s'
      | S k => chars_aux k (String c cur) s'
      | O =>
          match width c with
          | S (S k) => chars_aux (S k) (String c "") s'
          | _ => String c "" :: chars_aux O "" s'
          end
      end
  end.

(** The characters of a string, in order. *)
Definition chars (s : string) : list string := chars_aux O "" s.

End Utf8.

(* ===================================================================== *)
(** ** Regular expressions of the [$regex] operator *)
(* ===================================================================== *)

(** The server evaluates [$regex] with its own regular-expression library.
    The handlers take that library as a parameter, an [engine]: for a
    pattern and its [$options] it gives the test that the pattern makes on
    a string, or [None] when the server rejects the pattern.

    A fragment of the pattern language is spelled out below, for the
    properties that depend on what a pattern means: a sequence of atoms,
    each a literal character (possibly escaped with a backslash) or [.],
    and each optionally followed by one of the quantifiers [*], [+], [?].
    Patterns and strings are matched character by character.  Which
    characters option [i] takes for the same letter is a parameter as well,
    [caseless]. *)
Module Regex.

(** A character, as its encoding. *)
Definition char : Type := string.

Definition engine : Type := string -> string -> option (string -> bool).

Inductive atom : Type :=
| Lit (c : char)
| AnyChar.

Inductive quant : Type := One | Star | Plus | Opt.

Definition regex : Type := list (atom * quant).

Inductive token : Type :=
| TAtom (a : atom)
| TQuant (q : quant).

Definition is_digit (c : ascii) : bool :=
  let n := nat_of_ascii c in (48 <=? n)%nat && (n <=? 57)%nat.

(** The characters with a meaning of their own in a pattern. *)
Definition is_meta (c : ascii) : bool :=
  existsb (Ascii.eqb c)
    ["\"; "^"; "$"; "."; "["; "]"; "|"; "("; ")"; "?"; "*"; "+"; "{"; "}"]%char.

Definition is_meta_char (c : char) : bool :=
  match c with
  | String a EmptyString => is_meta a
  | _ => false
  end.

(** The character is the ASCII character [a]. *)
Definition is_char (a : ascii) (c : char) : bool := String.eqb c (String a "").

(** After a backslash an ASCII punctuation character stands for itself;
    a letter or digit would start a class or an assertion. *)
Definition escapable (c : char) : bool :=
  match c with
  | String a EmptyString =>
      negb (Py.is_cased a) && negb (is_digit a) && (nat_of_ascii a <? 128)%nat
  | _ => false
  end.

Fixpoint lex (escaped : bool) (p : list char) : option (list token) :=
  match p with
  | [] => if escaped then None else Some []
  | c :: p' =>
      if escaped then
        if escapable c
        then option_map (cons (TAtom (Lit c))) (lex false p')
        else None
      else if is_char "\" c then lex true p'
      else if is_char "." c then option_map (cons (TAtom AnyChar)) (lex false p')
      else if is_char "*" c then option_map (cons (TQuant Star)) (lex false p')
      else if is_char "+" c then option_map (cons (TQuant Plus)) (lex false p')
      else if is_char "?" c then option_map (cons (TQuant Opt)) (lex false p')
      else if is_meta_char c then None
      else option_map (cons (TAtom (Lit c))) (lex false p')
  end.

Fixpoint build (ts : list token) : option regex :=
  match ts with
  | [] => Some []
  | TQuant _ :: _ => None
  | TAtom a :: rest =>
      match rest with
      | TQuant q :: rest' =>
          match rest' with
          | TQuant _ :: _ => None
          | _ => option_map (cons (a, q)) (build rest')
          end
      | _ => option_map (cons (a, One)) (build rest)
      end
  end.

(** The pattern, when it is in the fragment. *)
Definition compile (p : string) : option regex :=
  match lex false (Utf8.chars p) with
  | Some ts => build ts
  | None => None
  end.

Definition newline : ascii := "010"%char.

Section Matching.

(** [caseless x c]: with option [i], the character [c] of a string
    matches the literal [x] of a pattern although it is another
    character. *)
Variable caseless : char -> char -> bool.

(** One character against one atom; [ci] is option [i]. *)
Definition atom_ok (ci : bool) (a : atom) (c : char) : bool :=
  match a with
  | Lit x => String.eqb x c || (ci && caseless x c)
  | AnyChar => negb (is_char newline c)
  end.

(** Any number of characters matching [a], then [k] on what is left. *)
Fixpoint match_star (ci : bool) (a : atom) (k : list char -> bool) (s : list char)
  : bool :=
  k s ||
  match s with
  | c :: s' => atom_ok ci a c && match_star ci a k s'
  | [] => false
  end.

(** The pattern matches a prefix of [s]. *)
Fixpoint match_here (ci : bool) (r : regex) (s : list char) : bool :=
  match r with
  | [] => true
  | (a, q) :: r' =>
      match q with
      | One =>
          match s with
          | c :: s' => atom_ok ci a c && match_here ci r' s'
          | [] => false
          end
      | Star => match_star ci a (match_here ci r') s
      | Plus =>
          match s with
          | c :: s' => atom_ok ci a c && match_star ci a (match_here ci r') s'
          | [] => false
          end
      | Opt =>
          match_here ci r' s ||
          match s with
          | c :: s' => atom_ok ci a c && match_here ci r' s'
          | [] => false
          end
      end
  end.

(** The pattern matches somewhere in [s] (patterns are not anchored). *)
Fixpoint search (ci : bool) (r : regex) (s : list char) : bool :=
  match_here ci r s ||
  match s with
  | _ :: s' => search ci r s'
  | [] => false
  end.

(** The test that a pattern of the fragment makes on a string, under the
    options [o]. *)
Definition test (o : string) (r : regex) (s : string) : bool :=
  search (Py.contains_char "i" o) r (Utf8.chars s).

(** An engine that knows the fragment and nothing else. *)
Definition fragment : engine :=
  fun p o => option_map (test o) (compile p).

End Matching.

(** The letters that option [i] identifies on ASCII text. *)
Definition ascii_caseless (x c : char) : bool := String.eqb (Py.lower x) (Py.lower c).

End Regex.

(* ===================================================================== *)
(** ** Documents and collections *)
(* ===================================================================== *)

(** Values held by the keys of a document. *)
Inductive value : Type :=
| VNull
| VStr (s : string)
| VNum (f : float)
| VBool (b : bool).

(** A Python [dict] with string keys, in insertion order. *)
Definition pydict (V : Type) : Type := list (string * V).

Fixpoint dict_get {V} (d : pydict V) (k : string) : option V :=
  match d with
  | [] => None
  | (k', v) :: d' => if String.eqb k' k then Some v else dict_get d' k
  end.

(** [d.get(k, default)] *)
Definition dict_get_default {V} (d : pydict V) (k : string) (default : V) : V :=
  match dict_get d k with Some v => v | None => default end.

Definition dict_keys {V} (d : pydict V) : list string := map fst d.

(** [{k: v for k, v in d.items() if k != key}], also the effect of the
    projection [{key: 0}] on a document. *)
Definition dict_without {V} (key : string) (d : pydict V) : pydict V :=
  filter (fun kv => negb (String.eqb (fst kv) key)) d.

(** [d[k] = v], and the effect of [$set] on one key: an existing key keeps
    its position, a new one is appended. *)
Fixpoint dict_set {V} (d : pydict V) (k : string) (v : V) : pydict V :=
  match d with
  | [] => [(k, v)]
  | (k', v') :: d' =>
      if String.eqb k' k then (k', v) :: d' else (k', v') :: dict_set d' k v
  end.

(** The value of [expires_at] as it comes back from the store. *)
Inductive stored_time : Type :=
| TStr (s : string)
| TDatetime (d : datetime).

Module Session.
Record t : Type := mk {
  session_token : string;
  user_id : string;
  expires_at : stored_time;
  created_at : datetime
}.
End Session.

Module Category.
Record t : Type := mk {
  category_id : string;
  user_id : string;
  name : string;
  section : string;
  is_default : bool;
  created_at : string
}.

(** The keys of a category document. *)
Definition field (c : t) (k : string) : option value :=
  if String.eqb k "category_id" then Some (VStr (category_id c))
  else if String.eqb k "user_id" then Some (VStr (user_id c))
  else if String.eqb k "name" then Some (VStr (name c))
  else if String.eqb k "section" then Some (VStr (section c))
  else if String.eqb k "is_default" then Some (VBool (is_default c))
  else if String.eqb k "created_at" then Some (VStr (created_at c))
  else None.
End Category.

(** A receipt document.  [create_receipt] writes every key; the keys that
    [ReceiptUpdate] carries are [Optional] there, and [update_receipt] may
    have set any of them to null ([None]).  [image_base64] is [None] once a
    projection has removed the key.  The line items, which no handler below
    reads, are left out. *)
Module Receipt.
Record t : Type := mk {
  receipt_id : string;
  user_id : string;
  merchant_name : option string;
  date : option string;
  total : option float;
  tax : option float;
  payment_method : option string;
  section : option string;
  category_id : option string;
  notes : option string;
  image_base64 : option string;
  created_at : string
}.

Definition nullable (o : option string) : value :=
  match o with Some s => VStr s | None => VNull end.

Definition number (o : option float) : value :=
  match o with Some x => VNum x | None => VNull end.

(** The keys of a receipt document. *)
Definition field (r : t) (k : string) : option value :=
  if String.eqb k "receipt_id" then Some (VStr (receipt_id r))
  else if String.eqb k "user_id" then Some (VStr (user_id r))
  else if String.eqb k "merchant_name" then Some (nullable (merchant_name r))
  else if String.eqb k "date" then Some (nullable (date r))
  else if String.eqb k "total" then Some (number (total r))
  else if String.eqb k "tax" then Some (number (tax r))
  else if String.eqb k "payment_method" then Some (nullable (payment_method r))
  else if String.eqb k "section" then Some (nullable (section r))
  else if String.eqb k "category_id" then Some (nullable (category_id r))
  else if String.eqb k "notes" then Some (nullable (notes r))
  else if String.eqb k "image_base64" then option_map VStr (image_base64 r)
  else if String.eqb k "created_at" then Some (VStr (created_at r))
  else None.

(** The projection [{"_id": 0, "image_base64": 0}]: the document without
    its image. *)
Definition without_image (r : t) : t :=
  mk (receipt_id r) (user_id r) (merchant_name r) (date r) (total r) (tax r)
     (payment_method r) (section r) (category_id r) (notes r) None (created_at r).
End Receipt.

(** The store: the four collections, each in insertion order. *)
Module Db.
Record t : Type := mk {
  users : list (pydict value);
  user_sessions : list Session.t;
  categories : list Category.t;
  receipts : list Receipt.t
}.
End Db.

(** How a handler ends when it does not return: an [HTTPException] it
    raised, or another exception, named by its class, which the framework
    turns into a 500 response.  [Unmodelled] ends a run that leaves the
    model: a query that no handler builds, or a document that no handler
    writes. *)
Inductive error : Type :=
| HTTPException (status_code : Z) (detail : string)
| PyException (name : string)
| Unmodelled.

(* ===================================================================== *)
(** ** MongoDB queries, cursors and aggregation stages *)
(* ===================================================================== *)

Module Mongo.

(** The argument of a query operator: a value, or a list for [$in]. *)
Inductive arg : Type :=
| AVal (v : value)
| AList (l : list value).

(** What a query asks of one field: equality with a value, or a
    document of operators such as [{"$gte": a, "$lte": b}]. *)
Inductive cond : Type :=
| Is (v : value)
| Ops (ops : pydict arg).

Definition query : Type := pydict cond.

(** [query.setdefault(field, {})[op] = a] *)
Definition set_op (q : query) (field op : string) (a : arg) : query :=
  match dict_get q field with
  | Some (Ops ops) => dict_set q field (Ops (dict_set ops op a))
  | Some (Is _) => q
  | None => dict_set q field (Ops [(op, a)])
  end.

(** Equality of a stored value with a query value. *)
Definition value_eqb (a b : value) : bool :=
  match a, b with
  | VNull, VNull => true
  | VStr x, VStr y => String.eqb x y
  | VNum x, VNum y => query_gte x y && query_lte x y
  | VBool x, VBool y => Bool.eqb x y
  | _, _ => false
  end.

(** [$gte] and [$lte] compare values of one type only. *)
Definition value_gte (v bound : value) : bool :=
  match v, bound with
  | VStr x, VStr y => String.leb y x
  | VNum x, VNum y => query_gte x y
  | VNull, VNull => true
  | VBool x, VBool y => implb y x
  | _, _ => false
  end.

Definition value_lte (v bound : value) : bool :=
  match v, bound with
  | VStr x, VStr y => String.leb x y
  | VNum x, VNum y => query_lte x y
  | VNull, VNull => true
  | VBool x, VBool y => implb x y
  | _, _ => false
  end.

Section Server.

(** The regular-expression library of the server. *)
Variable regex : Regex.engine.

(** The [$options] that accompany a [$regex]; none when the key is
    missing. *)
Definition regex_options (ops : pydict arg) : option string :=
  match dict_get ops "$options" with
  | Some (AVal (VStr o)) => Some o
  | Some _ => None
  | None => Some ""
  end.

(** One operator of an operator document, as a test on the field's value
    ([None] when the field is missing).  The server refuses a pattern that
    its library rejects, [$options] without a [$regex] and [$in] without a
    list: the driver raises [OperationFailure].  The other operators and
    arguments are not modelled. *)
Definition compile_op (ops : pydict arg) (op : string) (a : arg)
  : error + (option value -> bool) :=
  if String.eqb op "$gte" then
    match a with
    | AVal b => inr (fun v => match v with Some x => value_gte x b | None => false end)
    | AList _ => inl Unmodelled
    end
  else if String.eqb op "$lte" then
    match a with
    | AVal b => inr (fun v => match v with Some x => value_lte x b | None => false end)
    | AList _ => inl Unmodelled
    end
  else if String.eqb op "$in" then
    match a with
    | AList l => inr (fun v => match v with
                               | Some x => existsb (value_eqb x) l
                               | None => existsb (value_eqb VNull) l
                               end)
    | AVal _ => inl (PyException "OperationFailure")
    end
  else if String.eqb op "$regex" then
    match a, regex_options ops with
    | AVal (VStr p), Some o =>
        match regex p o with
        | Some test => inr (fun v => match v with
                                     | Some (VStr s) => test s
                                     | _ => false
                                     end)
        | None => inl (PyException "OperationFailure")
        end
    | _, _ => inl Unmodelled
    end
  else if String.eqb op "$options" then
    match dict_get ops "$regex" with
    | Some _ => inr (fun _ => true)
    | None => inl (PyException "OperationFailure")
    end
  else inl Unmodelled.

Fixpoint compile_ops (all ops : pydict arg) : error + (option value -> bool) :=
  match ops with
  | [] => inr (fun _ => true)
  | (op, a) :: ops' =>
      match compile_op all op a with
      | inl e => inl e
      | inr f =>
          match compile_ops all ops' with
          | inl e => inl e
          | inr g => inr (fun v => f v && g v)
          end
      end
  end.

Definition compile_cond (c : cond) : error + (option value -> bool) :=
  match c with
  | Is b => inr (fun v => match v with
                          | Some x => value_eqb x b
                          | None => value_eqb VNull b
                          end)
  | Ops ops => compile_ops ops ops
  end.

Section Collection.
Context {D : Type}.
(** The keys of a document of the collection. *)
Variable field : D -> string -> option value.

(** The filter a query denotes: every field condition holds. *)
Fixpoint compile (q : query) : error + (D -> bool) :=
  match q with
  | [] => inr (fun _ => true)
  | (k, c) :: q' =>
      match compile_cond c with
      | inl e => inl e
      | inr f =>
          match compile q' with
          | inl e => inl e
          | inr g => inr (fun d => f (field d k) && g d)
          end
      end
  end.
End Collection.

End Server.

(** Sort order of two values: null, then numbers, then strings, then
    booleans; a missing sort key counts as null. *)
Definition type_rank (v : value) : Z :=
  match v with VNull => 1 | VNum _ => 2 | VStr _ => 3 | VBool _ => 4 end.

Definition value_leb (a b : value) : bool :=
  match a, b with
  | VNum x, VNum y => sort_leb x y
  | VStr x, VStr y => String.leb x y
  | VBool x, VBool y => implb x y
  | _, _ => type_rank a <=? type_rank b
  end.

(** A sort specification: keys with direction [1] or [-1]. *)
Definition sort_spec : Type := list (string * Z).

Section Sorting.
Context {D : Type}.
Variable field : D -> string -> option value.

Definition sort_key (d : D) (k : string) : value :=
  match field d k with Some v => v | None => VNull end.

(** [a] may come before [b]: on the first key where they differ [a]
    is on the right side for the key's direction. *)
Fixpoint before (spec : sort_spec) (a b : D) : bool :=
  match spec with
  | [] => true
  | (k, direction) :: spec' =>
      let x := if direction <? 0 then sort_key b k else sort_key a k in
      let y := if direction <? 0 then sort_key a k else sort_key b k in
      if value_leb x y
      then (if value_leb y x then before spec' a b else true)
      else false
  end.

Fixpoint insert (spec : sort_spec) (x : D) (l : list D) : list D :=
  match l with
  | [] => [x]
  | y :: l' => if before spec x y then x :: y :: l' else y :: insert spec x l'
  end.

(** The sort stage.  Documents with equal keys keep the order they
    arrive in, one of the orders the server may produce. *)
Fixpoint sort_by (spec : sort_spec) (l : list D) : list D :=
  match l with
  | [] => []
  | x :: l' => insert spec x (sort_by spec l')
  end.
End Sorting.

(** A cursor: the query with the options set on it so far. *)
Record cursor (D P : Type) : Type := mk_cursor {
  c_filter : query;
  c_projection : D -> P;
  c_sort : sort_spec;
  c_skip : Z;
  c_limit : Z
}.
Arguments mk_cursor {D P}.
Arguments c_filter {D P}.
Arguments c_projection {D P}.
Arguments c_sort {D P}.
Arguments c_skip {D P}.
Arguments c_limit {D P}.

(** The greatest [int] that BSON holds: eight bytes, signed. *)
Definition max_int64 : Z := 2 ^ 63 - 1.

Section Cursor.
Context {D P : Type}.
Variable regex : Regex.engine.
Variable field : D -> string -> option value.

(** [collection.find(query, projection)] *)
Definition find (q : query) (projection : D -> P) : cursor D P :=
  mk_cursor q projection [] 0 0.

(** [cursor.sort(key, direction)] *)
Definition sort (c : cursor D P) (key : string) (direction : Z) : cursor D P :=
  mk_cursor (c_filter c) (c_projection c) [(key, direction)] (c_skip c) (c_limit c).

(** [cursor.skip(n)]: a negative [n] raises [ValueError]. *)
Definition skip (c : cursor D P) (n : Z) : error + cursor D P :=
  if n <? 0 then inl (PyException "ValueError")
  else inr (mk_cursor (c_filter c) (c_projection c) (c_sort c) n (c_limit c)).

(** [cursor.limit(n)] *)
Definition limit (c : cursor D P) (n : Z) : cursor D P :=
  mk_cursor (c_filter c) (c_projection c) (c_sort c) (c_skip c) n.

(** The documents the server delivers for the cursor: a limit of [0]
    is no limit, a negative one limits to its absolute value.  The driver
    raises [OverflowError] when it encodes a [skip] or a [limit] that BSON
    cannot hold, before the server sees the query. *)
Definition run (coll : list D) (c : cursor D P) : error + list P :=
  if (max_int64 <? c_skip c) || (max_int64 <? Z.abs (c_limit c))
  then inl (PyException "OverflowError")
  else
    match compile regex field (c_filter c) with
    | inl e => inl e
    | inr f =>
        let docs := filter f coll in
        let docs := sort_by field (c_sort c) docs in
        let docs := skipn (Z.to_nat (c_skip c)) docs in
        let docs := if c_limit c =? 0 then docs
                    else firstn (Z.to_nat (Z.abs (c_limit c))) docs in
        inr (map (c_projection c) docs)
    end.

(** [await cursor.to_list(length)]: at most [length] documents; a
    negative [length] raises [ValueError]. *)
Definition to_list (coll : list D) (c : cursor D P) (length : Z) : error + list P :=
  if length <? 0 then inl (PyException "ValueError")
  else match run coll c with
       | inl e => inl e
       | inr docs => inr (firstn (Z.to_nat length) docs)
       end.

(** [await collection.count_documents(query)] *)
Definition count_documents (coll : list D) (q : query) : error + Z :=
  match compile regex field q with
  | inl e => inl e
  | inr f => inr (Z.of_nat (List.length (filter f coll)))
  end.
End Cursor.

(** *** Aggregation stages *)

(** The distinct elements of a list, at their first occurrence. *)
Fixpoint distinct {K} (eqb : K -> K -> bool) (l : list K) : list K :=
  match l with
  | [] => []
  | k :: l' => k :: filter (fun k' => negb (eqb k k')) (distinct eqb l')
  end.

(** The [$group] stage: one bucket per distinct value of the group key,
    holding the documents with that key in arrival order. *)
Definition group {D K} (eqb : K -> K -> bool) (key : D -> K) (docs : list D)
  : list (K * list D) :=
  map (fun k => (k, filter (fun d => eqb (key d) k) docs))
      (distinct eqb (map key docs)).

(** The [$match] stage. *)
Definition match_stage {D} (regex : Regex.engine) (field : D -> string -> option value)
    (q : query) (docs : list D) : error + list D :=
  match compile regex field q with
  | inl e => inl e
  | inr f => inr (filter f docs)
  end.

(** The [$limit] stage. *)
Definition limit_stage {R} (n : Z) (rows : list R) : list R :=
  firstn (Z.to_nat n) rows.

(** The accumulator [{"$sum": "$field"}] over the values of a bucket: the
    doubles are added in arrival order, a null is passed over, and the sum
    of no double at all is the integer 0. *)
Definition sum (l : list (option float)) : num :=
  fold_left (fun acc o => match o with
                          | Some x => py_add acc (NFloat x)
                          | None => acc
                          end) l (NInt 0).

(** The accumulator [{"$sum": 1}]. *)
Definition count {D} (l : list D) : Z := Z.of_nat (List.length l).

(** [await cursor.to_list(length)] on the output of a pipeline. *)
Definition rows_to_list {R} (rows : list R) (length : Z) : list R :=
  firstn (Z.to_nat length) rows.

End Mongo.

(* ===================================================================== *)
(** ** Formatting *)
(* ===================================================================== *)

Module Format.

Definition digit_char (d : Z) : ascii := ascii_of_nat (48 + Z.to_nat d).

Fixpoint decimal_aux (fuel : nat) (n : Z) (acc : string) : string :=
  match fuel with
  | O => acc
  | S fuel' =>
      let acc' := String (digit_char (n mod 10)) acc in
      if n / 10 =? 0 then acc' else decimal_aux fuel' (n / 10) acc'
  end.

(** The decimal digits of a natural number. *)
Definition decimal (n : Z) : string :=
  decimal_aux (S (Z.to_nat (Z.log2 n))) n "".

Fixpoint zeros (k : nat) (s : string) : string :=
  match k with
  | O => s
  | S k' => String "0" (zeros k' s)
  end.

(** [s.zfill(width)] on a string of digits. *)
Definition zfill (width : nat) (s : string) : string :=
  zeros (width - String.length s) s.

(** [d.strftime("%Y-%m-%d")] *)
Definition strftime_Ymd (d : datetime) : string :=
  zfill 4 (decimal (year d)) ++ "-" ++ zfill 2 (decimal (month d)) ++ "-"
  ++ zfill 2 (decimal (day d)).

(** The integer nearest to [m * 2^e], ties to even. *)
Definition round_half_even (m e : Z) : Z :=
  if 0 <=? e then m * 2 ^ e
  else
    let d := 2 ^ (- e) in
    let q := m / d in
    let r := m mod d in
    if 2 * r <? d then q
    else if d <? 2 * r then q + 1
    else if Z.even q then q else q + 1.

(** [f"{x:.2f}"] for a float [x]: the exact value of the double rounded
    to hundredths, ties to even, with two digits after the point. *)
Definition format_2f (x : float) : string :=
  match x with
  | S754_nan => "nan"
  | S754_infinity s => if s then "-inf" else "inf"
  | S754_zero s => if s then "-0.00" else "0.00"
  | S754_finite s m e =>
      let hundredths := round_half_even (Zpos m * 100) e in
      (if s then "-" else "")
      ++ decimal (hundredths / 100) ++ "." ++ zfill 2 (decimal (hundredths mod 100))
  end.

End Format.

(* ===================================================================== *)
(** ** Handlers as computations over the store *)
(* ===================================================================== *)

Definition App (A : Type) : Type := Db.t -> (error + A) * Db.t.

Definition ret {A} (a : A) : App A := fun db => (inr a, db).
Definition raise {A} (e : error) : App A := fun db => (inl e, db).
Definition bind {A B} (m : App A) (k : A -> App B) : App B :=
  fun db =>
    match m db with
    | (inl e, db') => (inl e, db')
    | (inr a, db') => k a db'
    end.
(** A read of the store, which may fail. *)
Definition query_db {A} (f : Db.t -> error + A) : App A := fun db => (f db, db).
Definition read {A} (f : Db.t -> A) : App A := fun db => (inr (f db), db).
Definition write (f : Db.t -> Db.t) : App unit := fun db => (inr tt, f db).
Definition lift {A} (r : error + A) : App A := fun db => (r, db).

Declare Scope app_scope.
Delimit Scope app_scope with app.
Notation "x <- m ;; k" := (bind m (fun x => k))
  (at level 61, m at next level, right associativity) : app_scope.
Local Open Scope app_scope.

(** The request, as far as the handlers read it: the [Authorization]
    header. *)
Record Request : Type := mk_request { authorization : option string }.

(** [l[1]] *)
Definition index1 (l : list string) : App string :=
  match nth_error l 1 with
  | Some x => ret x
  | None => raise (PyException "IndexError")
  end.

(** [d[k]] *)
Definition dict_index {V} (d : pydict V) (k : string) : App V :=
  match dict_get d k with
  | Some v => ret v
  | None => raise (PyException "KeyError")
  end.

(** [db.user_sessions.find_one({"session_token": token}, {"_id": 0})] *)
Definition find_one_session (token : string) : App (option Session.t) :=
  read (fun db =>
    find (fun s => String.eqb (Session.session_token s) token) (Db.user_sessions db)).

(** The filter [{"user_id": v}] on a user document. *)
Definition user_matches (v : value) (u : pydict value) : bool :=
  match dict_get u "user_id" with
  | Some x => Mongo.value_eqb x v
  | None => Mongo.value_eqb VNull v
  end.

(** [db.users.find_one({"user_id": v}, {"_id": 0})] *)
Definition find_one_user (v : value) : App (option (pydict value)) :=
  read (fun db => find (user_matches v) (Db.users db)).

(** [$set] of the keys of [update] on the first document that [f] selects. *)
Fixpoint update_first (f : pydict value -> bool) (update : pydict value)
    (coll : list (pydict value)) : list (pydict value) :=
  match coll with
  | [] => []
  | u :: coll' =>
      if f u
      then fold_left (fun d kv => dict_set d (fst kv) (snd kv)) update u :: coll'
      else u :: update_first f update coll'
  end.

(** [db.users.update_one({"user_id": v}, {"$set": update})] *)
Definition update_one_user (v : value) (update : pydict value) : App unit :=
  write (fun db =>
    Db.mk (update_first (user_matches v) update (Db.users db))
          (Db.user_sessions db) (Db.categories db) (Db.receipts db)).

Record UserSettingsUpdate : Type := mk_settings {
  currency : option string;
  theme : option string
}.

(** The optional parameters of the receipt listing; [None] is a parameter
    the request does not carry. *)
Record ListParams : Type := mk_list_params {
  section : option string;
  category_id : option string;
  search : option string;
  date_from : option string;
  date_to : option string;
  amount_min : option float;
  amount_max : option float;
  skip : option Z;
  limit : option Z
}.

(** The response of the receipt listing. *)
Record Listing : Type := mk_listing {
  listing_receipts : list Receipt.t;
  listing_total : Z
}.

(** The query that the listing and the reports build from their filters. *)
Definition with_section (section : option string) (query : Mongo.query) : Mongo.query :=
  match section with
  | Some s => if Py.truthy s then dict_set query "section" (Mongo.Is (VStr s)) else query
  | None => query
  end.

Definition with_date_range (date_from date_to : option string) (query : Mongo.query)
  : Mongo.query :=
  let query :=
    match date_from with
    | Some d => if Py.truthy d then Mongo.set_op query "date" "$gte" (Mongo.AVal (VStr d))
                else query
    | None => query
    end in
  match date_to with
  | Some d => if Py.truthy d then Mongo.set_op query "date" "$lte" (Mongo.AVal (VStr d))
              else query
  | None => query
  end.

(** The query of [get_receipts]: the owner, then one condition per filter
    parameter that is given and truthy. *)
Definition listing_query (user_id : value) (p : ListParams) : Mongo.query :=
  let query := [("user_id", Mongo.Is user_id)] in
  let query := with_section (section p) query in
  let query :=
    match category_id p with
    | Some c => if Py.truthy c then dict_set query "category_id" (Mongo.Is (VStr c))
                else query
    | None => query
    end in
  let query :=
    match search p with
    | Some s =>
        if Py.truthy s
        then dict_set query "merchant_name"
               (Mongo.Ops [("$regex", Mongo.AVal (VStr s));
                           ("$options", Mongo.AVal (VStr "i"))])
        else query
    | None => query
    end in
  let query := with_date_range (date_from p) (date_to p) query in
  let query :=
    match amount_min p with
    | Some a => Mongo.set_op query "total" "$gte" (Mongo.AVal (VNum a))
    | None => query
    end in
  match amount_max p with
  | Some a => Mongo.set_op query "total" "$lte" (Mongo.AVal (VNum a))
  | None => query
  end.

(** *** Rows of the aggregation pipelines and response payloads *)

(** A row of a [$group] stage that sums [total] and counts. *)
Module GroupRow.
Record t (K : Type) : Type := mk { _id : K; total : num; count : Z }.
Arguments mk {K}.
Arguments _id {K}.
Arguments total {K}.
Arguments count {K}.

Definition field {K} (id_field : K -> string -> option value) (r : t K) (k : string)
  : option value :=
  if String.eqb k "total" then Some (VNum (to_float (total r)))
  else if String.eqb k "count" then Some (VNum (float_of_int (count r)))
  else id_field (_id r) k.
End GroupRow.

(** A row of a [$group] stage that sums [total] and [tax] and counts. *)
Module TaxRow.
Record t (K : Type) : Type := mk { _id : K; total : num; tax : num; count : Z }.
Arguments mk {K}.
Arguments _id {K}.
Arguments total {K}.
Arguments tax {K}.
Arguments count {K}.

Definition field {K} (id_field : K -> string -> option value) (r : t K) (k : string)
  : option value :=
  if String.eqb k "total" then Some (VNum (to_float (total r)))
  else if String.eqb k "tax" then Some (VNum (to_float (tax r)))
  else if String.eqb k "count" then Some (VNum (float_of_int (count r)))
  else id_field (_id r) k.
End TaxRow.

(** [{"total": .., "tax": .., "count": ..}] *)
Module Totals.
Record t : Type := mk { total : num; tax : num; count : Z }.
End Totals.

(** An entry of the dashboard's category breakdown. *)
Module CategoryEntry.
Record t : Type := mk { category_id : string; name : string; total : num; count : Z }.
End CategoryEntry.

(** An entry of a section's list in the tax summary. *)
Module SummaryEntry.
Record t : Type := mk {
  category_id : option string;
  category_name : string;
  total : num;
  tax : num;
  count : Z
}.
End SummaryEntry.

Module Dashboard.
Record t : Type := mk {
  monthly : Totals.t;
  yearly : Totals.t;
  sections : pydict (num * Z);
  categories : list CategoryEntry.t;
  (** each receipt with its [category_name], when the key was added *)
  recent_receipts : list (Receipt.t * option string)
}.
End Dashboard.

Module TaxSummary.
Record t : Type := mk {
  summary : pydict (list SummaryEntry.t);
  totals : pydict Totals.t
}.
End TaxSummary.

Definition option_string_eqb (a b : option string) : bool :=
  match a, b with
  | Some x, Some y => String.eqb x y
  | None, None => true
  | _, _ => false
  end.

(** The pipeline [ {"$match": {"user_id": .., "date": {"$gte": from, "$lte": to}}},
    {"$group": {"_id": None, total, tax, count}} ]: one row when a receipt
    matches, none otherwise. *)
Definition window_pipeline (regex : Regex.engine) (user_id : value)
    (date_from date_to : string) (coll : list Receipt.t) : error + list (TaxRow.t unit) :=
  match Mongo.match_stage regex Receipt.field
          [("user_id", Mongo.Is user_id);
           ("date", Mongo.Ops [("$gte", Mongo.AVal (VStr date_from));
                               ("$lte", Mongo.AVal (VStr date_to))])] coll with
  | inl e => inl e
  | inr docs =>
      inr (map (fun b => TaxRow.mk (fst b)
                           (Mongo.sum (map Receipt.total (snd b)))
                           (Mongo.sum (map Receipt.tax (snd b)))
                           (Mongo.count (snd b)))
               (Mongo.group (fun _ _ => true) (fun _ => tt) docs))
  end.

(** [rows[0] if rows else {"total": 0, "tax": 0, "count": 0}], read with
    [.get("total", 0)] and so on. *)
Definition window_data (rows : list (TaxRow.t unit)) : Totals.t :=
  match rows with
  | row :: _ => Totals.mk (TaxRow.total row) (TaxRow.tax row) (TaxRow.count row)
  | [] => Totals.mk (NInt 0) (NInt 0) 0
  end.

(** The pipeline [ $match the window, $group by [key] with total and count ]. *)
Definition grouped_pipeline {K} (regex : Regex.engine) (eqb : K -> K -> bool)
    (key : Receipt.t -> K) (user_id : value) (date_from date_to : string) (coll : list Receipt.t)
  : error + list (GroupRow.t K) :=
  match Mongo.match_stage regex Receipt.field
          [("user_id", Mongo.Is user_id);
           ("date", Mongo.Ops [("$gte", Mongo.AVal (VStr date_from));
                               ("$lte", Mongo.AVal (VStr date_to))])] coll with
  | inl e => inl e
  | inr docs =>
      inr (map (fun b => GroupRow.mk (fst b)
                           (Mongo.sum (map Receipt.total (snd b)))
                           (Mongo.count (snd b)))
               (Mongo.group eqb key docs))
  end.

(** [db.categories.find({"category_id": {"$in": ids}},
    {"_id": 0, "category_id": 1, "name": 1}).to_list(length)] followed by
    [{c["category_id"]: c["name"] for c in cat_docs}]. *)
Definition resolve_names (regex : Regex.engine) (ids : list string) (length : Z)
    (coll : list Category.t)
  : error + pydict string :=
  match Mongo.to_list regex Category.field coll
          (Mongo.find [("category_id", Mongo.Ops [("$in", Mongo.AList (map VStr ids))])]
                      (fun c => (Category.category_id c, Category.name c)))
          length with
  | inl e => inl e
  | inr cat_docs => inr (fold_left (fun m c => dict_set m (fst c) (snd c)) cat_docs [])
  end.

(** The identifiers among [ids] that are truthy: neither null nor empty. *)
Definition truthy_ids (ids : list (option string)) : list string :=
  flat_map (fun o => match o with
                     | Some s => if Py.truthy s then [s] else []
                     | None => []
                     end) ids.

(** The entry [{"category_id": .., "name": .., "total": .., "count": ..}]
    of a row [c] of the category breakdown, kept [if c["_id"]]. *)
Definition category_entry (cat_map : pydict string) (c : GroupRow.t (option string))
  : list CategoryEntry.t :=
  match GroupRow._id c with
  | Some k =>
      if Py.truthy k
      then [CategoryEntry.mk k (dict_get_default cat_map k "Unknown")
              (GroupRow.total c) (GroupRow.count c)]
      else []
  | None => []
  end.

(** The entry appended to [summary[sec]] for a row [r] of the tax report. *)
Definition summary_entry (cat_map : pydict string)
    (r : TaxRow.t (option string * option string)) : SummaryEntry.t :=
  SummaryEntry.mk (snd (TaxRow._id r))
    (match snd (TaxRow._id r) with
     | Some k => dict_get_default cat_map k "Unknown"
     | None => "Unknown"
     end)
    (TaxRow.total r) (TaxRow.tax r) (TaxRow.count r).

(** [totals[sec]["total"] += r["total"]] and so on. *)
Definition add_row (t : Totals.t) (r : TaxRow.t (option string * option string))
  : Totals.t :=
  Totals.mk (py_add (Totals.total t) (TaxRow.total r))
            (py_add (Totals.tax t) (TaxRow.tax r))
            (Totals.count t + TaxRow.count r).

Section Handlers.

(** The regular-expression library of the database server. *)
Variable regex : Regex.engine.

(** [datetime.fromisoformat]; [None] when it raises [ValueError]. *)
Variable fromisoformat : string -> option datetime.

(** [str.title]. *)
Variable title : string -> string.

Definition get_current_user (request : Request) (clock : datetime)
  : App (pydict value) :=
  let auth_header := authorization request in
  match auth_header with
  | None => raise (HTTPException 401 "Not authenticated")
  | Some auth_header =>
    if negb (Py.truthy auth_header) || negb (Py.startswith "Bearer " auth_header)
    then raise (HTTPException 401 "Not authenticated")
    else
      token <- index1 (Py.split auth_header "Bearer ") ;;
      session <- find_one_session token ;;
      match session with
      | None => raise (HTTPException 401 "Invalid session")
      | Some session =>
        expires_at <-
          match Session.expires_at session with
          | TStr s =>
              match fromisoformat s with
              | Some d => ret d
              | None => raise (PyException "ValueError")
              end
          | TDatetime d => ret d
          end ;;
        let expires_at :=
          match tzinfo expires_at with
          | None => replace_tzinfo expires_at (Some timezone_utc)
          | Some _ => expires_at
          end in
        match datetime_lt expires_at (datetime_now_utc clock) with
        | None => raise (PyException "TypeError")
        | Some true => raise (HTTPException 401 "Session expired")
        | Some false =>
          user <- find_one_user (VStr (Session.user_id session)) ;;
          match user with
          | None | Some [] => raise (HTTPException 401 "User not found")
          | Some user =>
            let safe_user := dict_without "password_hash" user in
            ret safe_user
          end
        end
      end
  end.

(** [GET /auth/me] *)
Definition get_me (request : Request) (clock : datetime) : App (pydict value) :=
  user <- get_current_user request clock ;;
  ret user.

(** [PUT /settings] *)
Definition update_settings (data : UserSettingsUpdate) (request : Request)
    (clock : datetime) : App (option (pydict value)) :=
  user <- get_current_user request clock ;;
  let update_data : pydict value :=
    List.app
      (match currency data with Some v => [("currency", VStr v)] | None => [] end)
      (match theme data with Some v => [("theme", VStr v)] | None => [] end) in
  _ <- match update_data with
       | [] => ret tt
       | _ :: _ =>
           user_id <- dict_index user "user_id" ;;
           update_one_user user_id update_data
       end ;;
  user_id <- dict_index user "user_id" ;;
  updated <- find_one_user user_id ;;
  ret (option_map (dict_without "password_hash") updated).

(** [GET /receipts] *)
Definition get_receipts (request : Request) (clock : datetime) (p : ListParams)
  : App Listing :=
  let skip := match skip p with Some n => n | None => 0 end in
  let limit := match limit p with Some n => n | None => 50 end in
  user <- get_current_user request clock ;;
  user_id <- dict_index user "user_id" ;;
  let query := listing_query user_id p in
  (* Exclude image_base64 from list view for performance *)
  cursor <- lift (Mongo.skip
                    (Mongo.sort (Mongo.find query Receipt.without_image) "date" (-1))
                    skip) ;;
  receipts <- query_db (fun db =>
                Mongo.to_list regex Receipt.field (Db.receipts db)
                  (Mongo.limit cursor limit) limit) ;;
  total_count <- query_db (fun db =>
                   Mongo.count_documents regex Receipt.field (Db.receipts db) query) ;;
  ret (mk_listing receipts total_count).

(** [GET /dashboard/summary]; [clock] is the reading of the clock at
    [now = datetime.now(timezone.utc)]. *)
Definition get_dashboard_summary (request : Request) (auth_clock clock : datetime)
  : App Dashboard.t :=
  user <- get_current_user request auth_clock ;;
  user_id <- dict_index user "user_id" ;;
  let now := datetime_now_utc clock in
  let month_start := Format.strftime_Ymd (replace_day now 1) in
  let year_start := Format.strftime_Ymd (replace_month_day now 1 1) in
  let today := Format.strftime_Ymd now in
  (* Monthly total *)
  monthly <- query_db (fun db =>
               window_pipeline regex user_id month_start today (Db.receipts db)) ;;
  let monthly := Mongo.rows_to_list monthly 1 in
  let monthly_data := window_data monthly in
  (* Yearly total *)
  yearly <- query_db (fun db =>
              window_pipeline regex user_id year_start today (Db.receipts db)) ;;
  let yearly := Mongo.rows_to_list yearly 1 in
  let yearly_data := window_data yearly in
  (* Section breakdown *)
  sections <- query_db (fun db =>
                grouped_pipeline regex option_string_eqb Receipt.section
                  user_id year_start today (Db.receipts db)) ;;
  let sections := Mongo.rows_to_list sections 10 in
  let section_data :=
    fold_left
      (fun d s =>
         match GroupRow._id s with
         | Some k => if Py.truthy k
                     then dict_set d k (GroupRow.total s, GroupRow.count s)
                     else d
         | None => d
         end)
      sections [] in
  (* Category breakdown (top 10) *)
  categories <- query_db (fun db =>
                  match grouped_pipeline regex option_string_eqb Receipt.category_id
                          user_id year_start today (Db.receipts db) with
                  | inl e => inl e
                  | inr rows =>
                      inr (Mongo.limit_stage 10
                             (Mongo.sort_by
                                (GroupRow.field (fun _ _ => None))
                                [("total", -1)] rows))
                  end) ;;
  let categories := Mongo.rows_to_list categories 10 in
  (* Resolve category names *)
  let cat_ids := truthy_ids (map GroupRow._id categories) in
  cat_map <- query_db (fun db => resolve_names regex cat_ids 100 (Db.categories db)) ;;
  let category_data := flat_map (category_entry cat_map) categories in
  (* Recent receipts *)
  recent <- query_db (fun db =>
              Mongo.to_list regex Receipt.field (Db.receipts db)
                (Mongo.limit
                   (Mongo.sort (Mongo.find [("user_id", Mongo.Is user_id)]
                                           Receipt.without_image)
                               "created_at" (-1))
                   10)
                10) ;;
  (* Resolve category names for recent *)
  let recent_cat_ids :=
    Mongo.distinct String.eqb (truthy_ids (map Receipt.category_id recent)) in
  recent <-
    match recent_cat_ids with
    | [] => ret (map (fun r => (r, None)) recent)
    | _ :: _ =>
        recent_cat_map <- query_db (fun db =>
                            resolve_names regex recent_cat_ids 100 (Db.categories db)) ;;
        ret (map (fun r =>
                    (r, Some match Receipt.category_id r with
                             | Some k => dict_get_default recent_cat_map k ""
                             | None => ""
                             end))
                 recent)
    end ;;
  ret (Dashboard.mk monthly_data yearly_data section_data category_data recent).

(** The query of the two reports. *)
Definition report_query (user_id : value) (date_from date_to section : option string)
  : Mongo.query :=
  let query := [("user_id", Mongo.Is user_id)] in
  let query := with_date_range date_from date_to query in
  with_section section query.

(** The key [{"section": "$section", "category_id": "$category_id"}]. *)
Definition section_category (r : Receipt.t) : option string * option string :=
  (Receipt.section r, Receipt.category_id r).

Definition section_category_eqb (a b : option string * option string) : bool :=
  option_string_eqb (fst a) (fst b) && option_string_eqb (snd a) (snd b).

(** The keys [_id.section] and [_id.category_id] of a row. *)
Definition section_category_field (k : option string * option string) (name : string)
  : option value :=
  if String.eqb name "_id.section" then Some (Receipt.nullable (fst k))
  else if String.eqb name "_id.category_id" then Some (Receipt.nullable (snd k))
  else None.

(** The body of the loop [for r in results] of the tax summary. *)
Definition tax_summary_step (cat_map : pydict string)
    (acc : pydict (list SummaryEntry.t) * pydict Totals.t)
    (r : TaxRow.t (option string * option string))
  : pydict (list SummaryEntry.t) * pydict Totals.t :=
  let (summary, totals) := acc in
  let sec := fst (TaxRow._id r) in
  match sec with
  | None => acc
  | Some sec =>
      match dict_get summary sec, dict_get totals sec with
      | Some entries, Some t =>
          (dict_set summary sec (entries ++ [summary_entry cat_map r])%list,
           dict_set totals sec (add_row t r))
      | _, _ => acc
      end
  end.

(** [GET /reports/tax-summary] *)
Definition get_tax_summary (request : Request) (clock : datetime)
    (date_from date_to section : option string) : App TaxSummary.t :=
  user <- get_current_user request clock ;;
  user_id <- dict_index user "user_id" ;;
  let query := report_query user_id date_from date_to section in
  (* By section and category *)
  results <- query_db (fun db =>
               match Mongo.match_stage regex Receipt.field query (Db.receipts db) with
               | inl e => inl e
               | inr docs =>
                   let rows :=
                     map (fun b => TaxRow.mk (fst b)
                                     (Mongo.sum (map Receipt.total (snd b)))
                                     (Mongo.sum (map Receipt.tax (snd b)))
                                     (Mongo.count (snd b)))
                         (Mongo.group section_category_eqb section_category docs) in
                   inr (Mongo.sort_by (TaxRow.field section_category_field)
                          [("_id.section", 1); ("total", -1)] rows)
               end) ;;
  let results := Mongo.rows_to_list results 200 in
  (* Resolve category names *)
  let cat_ids :=
    Mongo.distinct String.eqb
      (truthy_ids (map (fun r => snd (TaxRow._id r)) results)) in
  cat_map <- query_db (fun db => resolve_names regex cat_ids 200 (Db.categories db)) ;;
  let summary := [("personal", []); ("business", [])] in
  let totals := [("personal", Totals.mk (NInt 0) (NInt 0) 0);
                 ("business", Totals.mk (NInt 0) (NInt 0) 0)] in
  let (summary, totals) :=
    fold_left (tax_summary_step cat_map) results (summary, totals) in
  ret (TaxSummary.mk summary totals).

(** The header row of the export. *)
Definition csv_header : list string :=
  ["Date"; "Merchant"; "Section"; "Category"; "Total (CAD)"; "Tax (CAD)";
   "Payment Method"; "Notes"].

(** The text that the CSV writer puts for a field: nothing for [None]. *)
Definition csv_text (o : option string) : string :=
  match o with Some s => s | None => "" end.

(** The fields of the row written for one receipt.  Building the row
    raises [AttributeError] on a null [section], which has no [title], and
    [TypeError] on a null [total] or [tax], which has no format [.2f]. *)
Definition csv_row (cat_map : pydict string) (r : Receipt.t) : error + list string :=
  match Receipt.section r with
  | None => inl (PyException "AttributeError")
  | Some section =>
      match Receipt.total r with
      | None => inl (PyException "TypeError")
      | Some total =>
          match Receipt.tax r with
          | None => inl (PyException "TypeError")
          | Some tax =>
              inr [csv_text (Receipt.date r); csv_text (Receipt.merchant_name r);
                   title section;
                   match Receipt.category_id r with
                   | Some k => dict_get_default cat_map k ""
                   | None => ""
                   end;
                   Format.format_2f total; Format.format_2f tax;
                   csv_text (Receipt.payment_method r); csv_text (Receipt.notes r)]
          end
      end
  end.

(** [for r in receipts: writer.writerow(..)]: the rows written, unless
    building one of them raises. *)
Fixpoint write_rows (cat_map : pydict string) (receipts : list Receipt.t)
  : error + list (list string) :=
  match receipts with
  | [] => inr []
  | r :: receipts' =>
      match csv_row cat_map r with
      | inl e => inl e
      | inr row =>
          match write_rows cat_map receipts' with
          | inl e => inl e
          | inr rows => inr (row :: rows)
          end
      end
  end.

(** [GET /reports/export-csv]: the rows handed to the CSV writer.  (The
    projection of the source also drops [user_id], which no row reads.) *)
Definition export_csv (request : Request) (clock : datetime)
    (date_from date_to section : option string) : App (list (list string)) :=
  user <- get_current_user request clock ;;
  user_id <- dict_index user "user_id" ;;
  let query := report_query user_id date_from date_to section in
  receipts <- query_db (fun db =>
                Mongo.to_list regex Receipt.field (Db.receipts db)
                  (Mongo.sort (Mongo.find query Receipt.without_image) "date" (-1))
                  10000) ;;
  (* Resolve categories *)
  let cat_ids :=
    Mongo.distinct String.eqb (truthy_ids (map Receipt.category_id receipts)) in
  cat_map <- query_db (fun db => resolve_names regex cat_ids 500 (Db.categories db)) ;;
  rows <- lift (write_rows cat_map receipts) ;;
  ret (csv_header :: rows).

End Handlers.

(* ===================================================================== *)
(** ** More of Python's [datetime] *)
(* ===================================================================== *)

(** The tables [_DAYS_IN_MONTH] and [_DAYS_BEFORE_MONTH] of the
    [datetime] module; index 0 is a placeholder. *)
Definition DAYS_IN_MONTH : list Z := [-1; 31; 28; 31; 30; 31; 30; 31; 31; 30; 31; 30; 31].
Definition DAYS_BEFORE_MONTH : list Z :=
  [-1; 0; 31; 59; 90; 120; 151; 181; 212; 243; 273; 304; 334].

Definition DI400Y : Z := 146097.
Definition DI100Y : Z := 36524.
Definition DI4Y : Z := 1461.
Definition MAXORDINAL : Z := 3652059.

Definition int_of_bool (b : bool) : Z := if b then 1 else 0.

(** [_ord2ymd]: the year, month and day of a proleptic Gregorian
    ordinal, where 1 is 1 January of year 1. *)
Definition ord2ymd (n : Z) : Z * Z * Z :=
  let n := n - 1 in
  let n400 := n / DI400Y in
  let n := n mod DI400Y in
  let year := n400 * 400 + 1 in
  let n100 := n / DI100Y in
  let n := n mod DI100Y in
  let n4 := n / DI4Y in
  let n := n mod DI4Y in
  let n1 := n / 365 in
  let n := n mod 365 in
  let year := year + n100 * 100 + n4 * 4 + n1 in
  if (n1 =? 4) || (n100 =? 4) then (year - 1, 12, 31)
  else
    let leapyear := (n1 =? 3) && (negb (n4 =? 24) || (n100 =? 3)) in
    let month := Z.shiftr (n + 50) 5 in
    let preceding := nth (Z.to_nat month) DAYS_BEFORE_MONTH 0
                     + int_of_bool ((2 <? month) && leapyear) in
    if n <? preceding
    then
      let month := month - 1 in
      let preceding := preceding
                       - (nth (Z.to_nat month) DAYS_IN_MONTH 0
                          + int_of_bool ((month =? 2) && leapyear)) in
      (year, month, n - preceding + 1)
    else (year, month, n - preceding + 1).

Definition day_micros : Z := 86400000000.

(** The datetime whose wall-clock fields are [t] microseconds after
    ordinal 0, in zone [tz]. *)
Definition of_wall_micros (t : Z) (tz : option Z) : datetime :=
  let '(y, m, d) := ord2ymd (t / day_micros) in
  let r := t mod day_micros in
  mk_datetime y m d (r / 3600000000) (r / 60000000 mod 60) (r / 1000000 mod 60)
              (r mod 1000000) tz.

(** [d + timedelta(days=n)]: [None] is the [OverflowError] of a result
    outside the years 1 to 9999. *)
Definition add_days (d : datetime) (n : Z) : option datetime :=
  let t := wall_micros d + n * day_micros in
  let days := t / day_micros in
  if (0 <? days) && (days <=? MAXORDINAL) then Some (of_wall_micros t (tzinfo d)) else None.

(** A datetime as it comes back from the store: BSON keeps the instant in
    whole milliseconds, and the driver decodes it to a naive datetime in
    UTC (a naive value is taken as UTC when it is stored). *)
Definition bson_datetime (d : datetime) : datetime :=
  of_wall_micros (instant d / 1000 * 1000) None.

Definition pad (width : nat) (n : Z) : string := Format.zfill width (Format.decimal n).

(** [_format_offset]: the UTC offset as [+HH:MM], with seconds and
    microseconds when it has any. *)
Definition format_offset (off : Z) : string :=
  let sign := if off <? 0 then "-" else "+" in
  let off := Z.abs off in
  let hh := off / 3600000000 in
  let mm := off mod 3600000000 / 60000000 in
  let ss := off mod 60000000 in
  sign ++ pad 2 hh ++ ":" ++ pad 2 mm
  ++ (if ss =? 0 then "" else ":" ++ pad 2 (ss / 1000000))
  ++ (if ss mod 1000000 =? 0 then "" else "." ++ pad 6 (ss mod 1000000)).

(** [d.isoformat()] *)
Definition isoformat (d : datetime) : string :=
  pad 4 (year d) ++ "-" ++ pad 2 (month d) ++ "-" ++ pad 2 (day d) ++ "T"
  ++ pad 2 (hour d) ++ ":" ++ pad 2 (minute d) ++ ":" ++ pad 2 (second d)
  ++ (if microsecond d =? 0 then "" else "." ++ pad 6 (microsecond d))
  ++ match tzinfo d with Some off => format_offset off | None => "" end.

(* ===================================================================== *)
(** ** More of Python's [str] *)
(* ===================================================================== *)

Module Str.

(** [s[:n]] *)
Fixpoint take (n : nat) (s : string) : string :=
  match n, s with
  | S n', String c s' => String c (take n' s')
  | _, _ => EmptyString
  end.

(** [s[n:]] *)
Fixpoint drop (n : nat) (s : string) : string :=
  match n, s with
  | S n', String _ s' => drop n' s'
  | _, _ => s
  end.

(** [s[:-n]] for a positive [n] *)
Definition drop_last (n : nat) (s : string) : string :=
  take (String.length s - n) s.

Definition reverse (s : string) : string := Py.rev_string "" s.

(** [s.endswith(p)] *)
Definition endswith (p s : string) : bool := Py.startswith (reverse p) (reverse s).

(** The characters that [str.strip] takes for white space, by their
    UTF-8 encodings.  One byte: U+0009 to U+000D, U+001C to U+0020. *)
Definition is_space (c : ascii) : bool :=
  let n := nat_of_ascii c in
  ((9 <=? n)%nat && (n <=? 13)%nat) || ((28 <=? n)%nat && (n <=? 32)%nat).

(** Two bytes: U+0085 and U+00A0. *)
Definition is_space2 (a b : ascii) : bool :=
  Ascii.eqb a "194" && (Ascii.eqb b "133" || Ascii.eqb b "160").

(** Three bytes: U+1680, U+2000 to U+200A, U+2028, U+2029, U+202F, U+205F
    and U+3000. *)
Definition is_space3 (a b c : ascii) : bool :=
  let n := nat_of_ascii c in
  (Ascii.eqb a "225" && Ascii.eqb b "154" && Ascii.eqb c "128")
  || (Ascii.eqb a "226" && Ascii.eqb b "128"
      && (((128 <=? n)%nat && (n <=? 138)%nat)
          || Ascii.eqb c "168" || Ascii.eqb c "169" || Ascii.eqb c "175"))
  || (Ascii.eqb a "226" && Ascii.eqb b "129" && Ascii.eqb c "159")
  || (Ascii.eqb a "227" && Ascii.eqb b "128" && Ascii.eqb c "128").

(** The string without the white space it starts with.  [two] and [three]
    tell the encodings of two and three bytes, in the order the bytes are
    met. *)
Fixpoint lstrip_by (two : ascii -> ascii -> bool) (three : ascii -> ascii -> ascii -> bool)
    (s : string) : string :=
  match s with
  | EmptyString => EmptyString
  | String a s1 =>
      if is_space a then lstrip_by two three s1
      else
        match s1 with
        | EmptyString => s
        | String b s2 =>
            if two a b then lstrip_by two three s2
            else
              match s2 with
              | EmptyString => s
              | String c s3 => if three a b c then lstrip_by two three s3 else s
              end
        end
  end.

Definition lstrip (s : string) : string := lstrip_by is_space2 is_space3 s.

(** From the end the bytes of a character are met last byte first. *)
Definition rstrip (s : string) : string :=
  reverse (lstrip_by (fun b a => is_space2 a b) (fun c b a => is_space3 a b c)
             (reverse s)).

(** [s.strip()] *)
Definition strip (s : string) : string := rstrip (lstrip s).

(** [s.split(c, 1)] for a one-character separator: the text before the
    first [c] and the text after it, or [s] alone when [c] is not in it. *)
Fixpoint split_once_aux (c : ascii) (cur s : string) : list string :=
  match s with
  | EmptyString => [reverse cur]
  | String x s' => if Ascii.eqb x c then [reverse cur; s'] else split_once_aux c (String x cur) s'
  end.

Definition split_once (s : string) (c : ascii) : list string := split_once_aux c "" s.

Definition is_hex_digit (c : ascii) : bool :=
  let n := nat_of_ascii c in
  ((48 <=? n)%nat && (n <=? 57)%nat) || ((97 <=? n)%nat && (n <=? 102)%nat).

(** The string is made of the digits [0-9a-f], as [uuid4().hex] is. *)
Fixpoint is_hex (s : string) : bool :=
  match s with
  | EmptyString => true
  | String c s' => is_hex_digit c && is_hex s'
  end.

End Str.

(** Truth value of a stored value: null, the empty string, zero and
    [False] are falsy. *)
Definition value_truthy (v : value) : bool :=
  match v with
  | VNull => false
  | VStr s => Py.truthy s
  | VNum (S754_zero _) => false
  | VNum _ => true
  | VBool b => b
  end.

(* ===================================================================== *)
(** ** Reads and writes of one document *)
(* ===================================================================== *)

Module Store.

Section Operations.
Context {D : Type}.
Variable regex : Regex.engine.
Variable field : D -> string -> option value.

(** [set] applied to the first document that [f] selects. *)
Fixpoint replace_first (f : D -> bool) (set : D -> D) (coll : list D) : list D :=
  match coll with
  | [] => []
  | d :: coll' => if f d then set d :: coll' else d :: replace_first f set coll'
  end.

(** The collection without the first document that [f] selects. *)
Fixpoint delete_first (f : D -> bool) (coll : list D) : list D :=
  match coll with
  | [] => []
  | d :: coll' => if f d then coll' else d :: delete_first f coll'
  end.

(** [await collection.find_one(query)]: the first document, in the
    order of the collection, that the query selects. *)
Definition find_one (coll : list D) (q : Mongo.query) : error + option D :=
  match Mongo.compile regex field q with
  | inl e => inl e
  | inr f => inr (find f coll)
  end.

(** [await collection.update_one(query, {"$set": ..})]: the collection
    afterwards and [matched_count]. *)
Definition update_one (coll : list D) (q : Mongo.query) (set : D -> D)
  : error + list D * Z :=
  match Mongo.compile regex field q with
  | inl e => inl e
  | inr f => inr (replace_first f set coll, if existsb f coll then 1 else 0)
  end.

(** [await collection.delete_one(query)]: the collection afterwards and
    [deleted_count]. *)
Definition delete_one (coll : list D) (q : Mongo.query) : error + list D * Z :=
  match Mongo.compile regex field q with
  | inl e => inl e
  | inr f => inr (delete_first f coll, if existsb f coll then 1 else 0)
  end.
End Operations.

End Store.

(** The store with one collection replaced. *)
Definition with_users (db : Db.t) (users : list (pydict value)) : Db.t :=
  Db.mk users (Db.user_sessions db) (Db.categories db) (Db.receipts db).
Definition with_sessions (db : Db.t) (sessions : list Session.t) : Db.t :=
  Db.mk (Db.users db) sessions (Db.categories db) (Db.receipts db).
Definition with_categories (db : Db.t) (categories : list Category.t) : Db.t :=
  Db.mk (Db.users db) (Db.user_sessions db) categories (Db.receipts db).
Definition with_receipts (db : Db.t) (receipts : list Receipt.t) : Db.t :=
  Db.mk (Db.users db) (Db.user_sessions db) (Db.categories db) receipts.

(** A read of the store followed by a write of one collection. *)
Definition modify {A} (f : Db.t -> error + Db.t * A) : App A :=
  fun db =>
    match f db with
    | inl e => (inl e, db)
    | inr (db', a) => (inr a, db')
    end.

(* ===================================================================== *)
(** ** Sessions and accounts *)
(* ===================================================================== *)

Definition DEFAULT_CATEGORIES : list string :=
  ["Food & Dining"; "Transportation"; "Entertainment"; "Shopping";
   "Health & Medical"; "Utilities & Bills"; "Education"; "Travel";
   "Home & Rent"; "Office Supplies"; "Subscriptions & Memberships";
   "Gifts & Donations"; "Insurance"; "Miscellaneous"].

Module UserRegister.
Record t : Type := mk { email : string; password : string; name : string }.
End UserRegister.

Module UserLogin.
Record t : Type := mk { email : string; password : string }.
End UserLogin.

(** [{"token": .., "user": {..}}] *)
Module AuthResponse.
Record t : Type := mk { token : string; user : pydict value }.
End AuthResponse.

(** What [create_session] draws from its environment: the digits of
    [uuid.uuid4().hex] and its two readings of the clock. *)
Module SessionDraw.
Record t : Type := mk {
  hex : string;
  expiry_clock : datetime;
  created_clock : datetime
}.
End SessionDraw.

(** What [register] draws: the salt of [bcrypt.gensalt()], the digits and
    the clock reading for the user document, those of the [k]-th default
    category, and the draws of [create_session]. *)
Module RegisterDraw.
Record t : Type := mk {
  salt : string;
  user_hex : string;
  user_clock : datetime;
  category_hex : nat -> string;
  category_clock : nat -> datetime;
  session : SessionDraw.t
}.
End RegisterDraw.

(** The filter [{key: v}] on a user document. *)
Definition field_matches (key : string) (v : value) (u : pydict value) : bool :=
  match dict_get u key with
  | Some x => Mongo.value_eqb x v
  | None => Mongo.value_eqb VNull v
  end.

(** [db.users.find_one({key: v}, {"_id": 0})] *)
Definition find_one_user_by (key : string) (v : value) : App (option (pydict value)) :=
  read (fun db => find (field_matches key v) (Db.users db)).

(** [async def create_session(user_id)] *)
Definition create_session (user_id : string) (draw : SessionDraw.t) : App string :=
  let token := "sess_" ++ SessionDraw.hex draw in
  expires_at <-
    match add_days (datetime_now_utc (SessionDraw.expiry_clock draw)) 7 with
    | Some d => ret d
    | None => raise (PyException "OverflowError")
    end ;;
  let created_at := datetime_now_utc (SessionDraw.created_clock draw) in
  _ <- write (fun db =>
         with_sessions db
           (Db.user_sessions db
            ++ [Session.mk token user_id (TDatetime (bson_datetime expires_at))
                           (bson_datetime created_at)])) ;;
  ret token.

(** [create_session(user["user_id"])] on a value read from a document;
    the sessions of the model hold string identifiers. *)
Definition create_session_for (user_id : value) (draw : SessionDraw.t) : App string :=
  match user_id with
  | VStr s => create_session s draw
  | _ => raise Unmodelled
  end.

(** The categories that [seed_default_categories] builds, in the order
    of its two loops; [k] counts the categories built so far. *)
Fixpoint seed_names (user_id section : string) (names : list string)
    (hex : nat -> string) (clock : nat -> datetime) (k : nat) : list Category.t :=
  match names with
  | [] => []
  | name :: names' =>
      Category.mk ("cat_" ++ Str.take 12 (hex k)) user_id name section true
                  (isoformat (datetime_now_utc (clock k)))
      :: seed_names user_id section names' hex clock (S k)
  end.

Fixpoint seed_sections (user_id : string) (sections : list string)
    (hex : nat -> string) (clock : nat -> datetime) (k : nat) : list Category.t :=
  match sections with
  | [] => []
  | section :: sections' =>
      seed_names user_id section DEFAULT_CATEGORIES hex clock k
      ++ seed_sections user_id sections' hex clock (k + List.length DEFAULT_CATEGORIES)
  end.

(** [async def seed_default_categories(user_id)] *)
Definition seed_default_categories (user_id : string)
    (hex : nat -> string) (clock : nat -> datetime) : App unit :=
  let categories := seed_sections user_id ["personal"; "business"] hex clock 0 in
  match categories with
  | [] => ret tt
  | _ :: _ => write (fun db => with_categories db (Db.categories db ++ categories))
  end.

Section Accounts.

(** [str.lower]. *)
Variable lower : string -> string.

(** [bcrypt.hashpw(password, salt)] and [bcrypt.checkpw(password, hash)];
    [None] when the library raises [ValueError]. *)
Variable hashpw : string -> string -> option string.
Variable checkpw : string -> string -> option bool.

(** [POST /auth/register] *)
Definition register (data : UserRegister.t) (draw : RegisterDraw.t)
  : App AuthResponse.t :=
  let email := lower (UserRegister.email data) in
  existing <- find_one_user_by "email" (VStr email) ;;
  match existing with
  | Some (_ :: _) => raise (HTTPException 400 "Email already registered")
  | _ =>
    hashed <- match hashpw (UserRegister.password data) (RegisterDraw.salt draw) with
              | Some h => ret h
              | None => raise (PyException "ValueError")
              end ;;
    let user_id := "user_" ++ Str.take 12 (RegisterDraw.user_hex draw) in
    let user :=
      [("user_id", VStr user_id);
       ("email", VStr email);
       ("name", VStr (UserRegister.name data));
       ("password_hash", VStr hashed);
       ("auth_provider", VStr "email");
       ("picture", VStr "");
       ("currency", VStr "CAD");
       ("theme", VStr "dark");
       ("created_at",
        VStr (isoformat (datetime_now_utc (RegisterDraw.user_clock draw))))] in
    _ <- write (fun db => with_users db (Db.users db ++ [user])) ;;
    _ <- seed_default_categories user_id (RegisterDraw.category_hex draw)
           (RegisterDraw.category_clock draw) ;;
    token <- create_session user_id (RegisterDraw.session draw) ;;
    ret (AuthResponse.mk token
           [("user_id", VStr user_id); ("email", VStr email);
            ("name", VStr (UserRegister.name data));
            ("picture", VStr ""); ("currency", VStr "CAD"); ("theme", VStr "dark")])
  end.

(** [POST /auth/login] *)
Definition login (data : UserLogin.t) (draw : SessionDraw.t) : App AuthResponse.t :=
  user <- find_one_user_by "email" (VStr (lower (UserLogin.email data))) ;;
  match user with
  | None | Some [] => raise (HTTPException 401 "Invalid email or password")
  | Some user =>
    if negb (match dict_get user "password_hash" with
             | Some v => value_truthy v
             | None => false
             end)
    then raise (HTTPException 401 "Please use Google Sign-In for this account")
    else
      password_hash <- dict_index user "password_hash" ;;
      password_hash <- match password_hash with
                       | VStr s => ret s
                       | _ => raise (PyException "AttributeError")
                       end ;;
      match checkpw (UserLogin.password data) password_hash with
      | None => raise (PyException "ValueError")
      | Some false => raise (HTTPException 401 "Invalid email or password")
      | Some true =>
          user_id <- dict_index user "user_id" ;;
          token <- create_session_for user_id draw ;;
          user_id <- dict_index user "user_id" ;;
          email <- dict_index user "email" ;;
          name <- dict_index user "name" ;;
          ret (AuthResponse.mk token
                 [("user_id", user_id); ("email", email); ("name", name);
                  ("picture", dict_get_default user "picture" (VStr ""));
                  ("currency", dict_get_default user "currency" (VStr "CAD"));
                  ("theme", dict_get_default user "theme" (VStr "dark"))])
      end
  end.

End Accounts.

(** [POST /auth/logout] *)
Definition logout (request : Request) : App string :=
  let auth_header := authorization request in
  _ <- match auth_header with
       | Some auth_header =>
           if Py.truthy auth_header && Py.startswith "Bearer " auth_header
           then
             token <- index1 (Py.split auth_header "Bearer ") ;;
             write (fun db =>
               with_sessions db
                 (Store.delete_first
                    (fun s => String.eqb (Session.session_token s) token)
                    (Db.user_sessions db)))
           else ret tt
       | None => ret tt
       end ;;
  ret "Logged out".

(** The reply of the identity service to [google_session]: the request
    failed with an [httpx.HTTPError], or it was answered with a status and
    a body, [None] when the body is not JSON and otherwise the object it
    holds. *)
Inductive http_reply : Type :=
| HTTPError
| Reply (status_code : Z) (json : option (pydict value)).

(** [{"token": .., "user": user_doc}], where [user_doc] is what
    [find_one] returned. *)
Module GoogleResponse.
Record t : Type := mk { token : string; user : option (pydict value) }.
End GoogleResponse.

(** [v.lower()] on a value of a JSON object. *)
Definition value_lower (lower : string -> string) (v : value) : App string :=
  match v with
  | VStr s => ret (lower s)
  | _ => raise (PyException "AttributeError")
  end.

(** [POST /auth/google-session]; [lower] is [str.lower], and of [draw]
    the salt is not used. *)
Definition google_session (lower : string -> string) (reply : http_reply)
    (draw : RegisterDraw.t) : App GoogleResponse.t :=
  google_data <-
    match reply with
    | HTTPError => raise (HTTPException 500 "Failed to verify Google session")
    | Reply status_code json =>
        if negb (status_code =? 200)
        then raise (HTTPException 401 "Invalid Google session")
        else match json with
             | Some google_data => ret google_data
             | None => raise (PyException "JSONDecodeError")
             end
    end ;;
  email <- dict_index google_data "email" ;;
  email <- value_lower lower email ;;
  existing <- find_one_user_by "email" (VStr email) ;;
  user_id <-
    match existing with
    | Some ((_ :: _) as existing) =>
        user_id <- dict_index existing "user_id" ;;
        _ <- update_one_user user_id
               [("name", dict_get_default google_data "name"
                           (dict_get_default existing "name" (VStr "")));
                ("picture", dict_get_default google_data "picture"
                              (dict_get_default existing "picture" (VStr "")))] ;;
        ret user_id
    | _ =>
        let user_id := "user_" ++ Str.take 12 (RegisterDraw.user_hex draw) in
        let user :=
          [("user_id", VStr user_id);
           ("email", VStr email);
           ("name", dict_get_default google_data "name" (VStr ""));
           ("password_hash", VStr "");
           ("auth_provider", VStr "google");
           ("picture", dict_get_default google_data "picture" (VStr ""));
           ("currency", VStr "CAD");
           ("theme", VStr "dark");
           ("created_at",
            VStr (isoformat (datetime_now_utc (RegisterDraw.user_clock draw))))] in
        _ <- write (fun db => with_users db (Db.users db ++ [user])) ;;
        _ <- seed_default_categories user_id (RegisterDraw.category_hex draw)
               (RegisterDraw.category_clock draw) ;;
        ret (VStr user_id)
    end ;;
  token <- create_session_for user_id (RegisterDraw.session draw) ;;
  user_doc <- find_one_user user_id ;;
  ret (GoogleResponse.mk token (option_map (dict_without "password_hash") user_doc)).

(* ===================================================================== *)
(** ** Categories and receipts, one at a time *)
(* ===================================================================== *)

Module CategoryCreate.
Record t : Type := mk { name : string; section : string }.
End CategoryCreate.

Module CategoryUpdate.
Record t : Type := mk { name : string }.
End CategoryUpdate.

(** The answer of [delete_category]: a warning with the number of
    receipts that use the category, or the confirmation. *)
Module CategoryDeletion.
Record t : Type := mk { message : string; receipt_count : option Z; deleted : bool }.
End CategoryDeletion.

(** The body of [POST /receipts] after validation; the line items are
    left out, as in the receipts of the store. *)
Module ReceiptCreate.
Record t : Type := mk {
  merchant_name : string;
  date : string;
  total : float;
  tax : float;
  payment_method : string;
  section : string;
  category_id : string;
  notes : string;
  image_base64 : string
}.
End ReceiptCreate.

(** A field of [ReceiptUpdate]: not in the request, set to null, or set
    to a value. *)
Inductive patch (A : Type) : Type :=
| Unset
| Null
| Value (a : A).
Arguments Unset {A}.
Arguments Null {A}.
Arguments Value {A}.

(** The body of [PUT /receipts/{receipt_id}] as [dict(exclude_unset=True)]
    gives it: the fields that the request carries, an explicit null
    among them.  Of [items] only its presence is kept. *)
Module ReceiptUpdate.
Record t : Type := mk {
  merchant_name : patch string;
  date : patch string;
  total : patch float;
  tax : patch float;
  items : bool;
  payment_method : patch string;
  section : patch string;
  category_id : patch string;
  notes : patch string
}.

Definition is_set {A} (p : patch A) : bool :=
  match p with Unset => false | _ => true end.

(** [update_data] is empty. *)
Definition is_empty (u : t) : bool :=
  negb (is_set (merchant_name u) || is_set (date u) || is_set (total u)
        || is_set (tax u) || items u || is_set (payment_method u)
        || is_set (section u) || is_set (category_id u) || is_set (notes u)).

Definition patch_to {A} (p : patch A) (old : option A) : option A :=
  match p with Unset => old | Null => None | Value a => Some a end.

(** The effect of [{"$set": update_data}] on a receipt. *)
Definition apply (u : t) (r : Receipt.t) : Receipt.t :=
  Receipt.mk (Receipt.receipt_id r) (Receipt.user_id r)
    (patch_to (merchant_name u) (Receipt.merchant_name r))
    (patch_to (date u) (Receipt.date r))
    (patch_to (total u) (Receipt.total r))
    (patch_to (tax u) (Receipt.tax r))
    (patch_to (payment_method u) (Receipt.payment_method r))
    (patch_to (section u) (Receipt.section r))
    (patch_to (category_id u) (Receipt.category_id r))
    (patch_to (notes u) (Receipt.notes r))
    (Receipt.image_base64 r) (Receipt.created_at r).
End ReceiptUpdate.

(** The answer of [create_receipt]: the receipt without its image, and
    [has_image]. *)
Module CreatedReceipt.
Record t : Type := mk { receipt : Receipt.t; has_image : bool }.
End CreatedReceipt.

(** The effect of [{"$set": {"name": name}}] on a category. *)
Definition set_name (name : string) (c : Category.t) : Category.t :=
  Category.mk (Category.category_id c) (Category.user_id c) name (Category.section c)
              (Category.is_default c) (Category.created_at c).

(** The owner written into a new document; the documents of the model
    hold string identifiers. *)
Definition owner_of (user_id : value) : App string :=
  match user_id with
  | VStr s => ret s
  | _ => raise Unmodelled
  end.

(** The query [{key: id, "user_id": user_id}]. *)
Definition owned (key id : string) (user_id : value) : Mongo.query :=
  [(key, Mongo.Is (VStr id)); ("user_id", Mongo.Is user_id)].

Section Documents.

Variable regex : Regex.engine.
Variable fromisoformat : string -> option datetime.

(** [GET /categories] *)
Definition get_categories (request : Request) (clock : datetime)
  : App (list Category.t) :=
  user <- get_current_user fromisoformat request clock ;;
  user_id <- dict_index user "user_id" ;;
  cats <- query_db (fun db =>
            Mongo.to_list regex Category.field (Db.categories db)
              (Mongo.find [("user_id", Mongo.Is user_id)] (fun c => c)) 500) ;;
  ret cats.

(** [POST /categories]; [hex] and [now] are the digits and the clock
    reading drawn for the new document. *)
Definition create_category (data : CategoryCreate.t) (request : Request)
    (clock : datetime) (hex : string) (now : datetime) : App Category.t :=
  user <- get_current_user fromisoformat request clock ;;
  user_id <- dict_index user "user_id" ;;
  user_id <- owner_of user_id ;;
  let cat :=
    Category.mk ("cat_" ++ Str.take 12 hex) user_id (CategoryCreate.name data)
                (CategoryCreate.section data) false
                (isoformat (datetime_now_utc now)) in
  _ <- write (fun db => with_categories db (Db.categories db ++ [cat])) ;;
  ret cat.

(** [PUT /categories/{category_id}] *)
Definition update_category (category_id : string) (data : CategoryUpdate.t)
    (request : Request) (clock : datetime) : App string :=
  user <- get_current_user fromisoformat request clock ;;
  user_id <- dict_index user "user_id" ;;
  matched_count <- modify (fun db =>
    match Store.update_one regex Category.field (Db.categories db)
            (owned "category_id" category_id user_id)
            (set_name (CategoryUpdate.name data)) with
    | inl e => inl e
    | inr (coll, n) => inr (with_categories db coll, n)
    end) ;;
  if matched_count =? 0
  then raise (HTTPException 404 "Category not found")
  else ret "Category updated".

(** [DELETE /categories/{category_id}] *)
Definition delete_category (category_id : string) (request : Request)
    (clock : datetime) : App CategoryDeletion.t :=
  user <- get_current_user fromisoformat request clock ;;
  user_id <- dict_index user "user_id" ;;
  receipt_count <- query_db (fun db =>
    Mongo.count_documents regex Receipt.field (Db.receipts db)
      (owned "category_id" category_id user_id)) ;;
  if 0 <? receipt_count
  then ret (CategoryDeletion.mk
              ("Warning: " ++ Format.decimal receipt_count ++ " receipts use this category")
              (Some receipt_count) false)
  else
    user_id <- dict_index user "user_id" ;;
    deleted_count <- modify (fun db =>
      match Store.delete_one regex Category.field (Db.categories db)
              (owned "category_id" category_id user_id) with
      | inl e => inl e
      | inr (coll, n) => inr (with_categories db coll, n)
      end) ;;
    if deleted_count =? 0
    then raise (HTTPException 404 "Category not found")
    else ret (CategoryDeletion.mk "Category deleted" None true).

(** [POST /receipts]; [hex] and [now] are the digits and the clock
    reading drawn for the new document. *)
Definition create_receipt (data : ReceiptCreate.t) (request : Request)
    (clock : datetime) (hex : string) (now : datetime) : App CreatedReceipt.t :=
  user <- get_current_user fromisoformat request clock ;;
  user_id <- dict_index user "user_id" ;;
  user_id <- owner_of user_id ;;
  let receipt :=
    Receipt.mk ("rcpt_" ++ Str.take 12 hex) user_id
      (Some (ReceiptCreate.merchant_name data)) (Some (ReceiptCreate.date data))
      (Some (ReceiptCreate.total data)) (Some (ReceiptCreate.tax data))
      (Some (ReceiptCreate.payment_method data))
      (Some (ReceiptCreate.section data)) (Some (ReceiptCreate.category_id data))
      (Some (ReceiptCreate.notes data)) (Some (ReceiptCreate.image_base64 data))
      (isoformat (datetime_now_utc now)) in
  _ <- write (fun db => with_receipts db (Db.receipts db ++ [receipt])) ;;
  let result := Receipt.without_image receipt in
  ret (CreatedReceipt.mk result (Py.truthy (ReceiptCreate.image_base64 data))).

(** [GET /receipts/{receipt_id}] *)
Definition get_receipt (receipt_id : string) (request : Request) (clock : datetime)
  : App Receipt.t :=
  user <- get_current_user fromisoformat request clock ;;
  user_id <- dict_index user "user_id" ;;
  receipt <- query_db (fun db =>
    Store.find_one regex Receipt.field (Db.receipts db)
      (owned "receipt_id" receipt_id user_id)) ;;
  match receipt with
  | None => raise (HTTPException 404 "Receipt not found")
  | Some receipt => ret receipt
  end.

(** [PUT /receipts/{receipt_id}] *)
Definition update_receipt (receipt_id : string) (data : ReceiptUpdate.t)
    (request : Request) (clock : datetime) : App string :=
  user <- get_current_user fromisoformat request clock ;;
  if ReceiptUpdate.is_empty data
  then raise (HTTPException 400 "No fields to update")
  else
    user_id <- dict_index user "user_id" ;;
    matched_count <- modify (fun db =>
      match Store.update_one regex Receipt.field (Db.receipts db)
              (owned "receipt_id" receipt_id user_id)
              (ReceiptUpdate.apply data) with
      | inl e => inl e
      | inr (coll, n) => inr (with_receipts db coll, n)
      end) ;;
    if matched_count =? 0
    then raise (HTTPException 404 "Receipt not found")
    else ret "Receipt updated".

(** [DELETE /receipts/{receipt_id}] *)
Definition delete_receipt (receipt_id : string) (request : Request) (clock : datetime)
  : App string :=
  user <- get_current_user fromisoformat request clock ;;
  user_id <- dict_index user "user_id" ;;
  deleted_count <- modify (fun db =>
    match Store.delete_one regex Receipt.field (Db.receipts db)
            (owned "receipt_id" receipt_id user_id) with
    | inl e => inl e
    | inr (coll, n) => inr (with_receipts db coll, n)
    end) ;;
  if deleted_count =? 0
  then raise (HTTPException 404 "Receipt not found")
  else ret "Receipt deleted".

End Documents.

(* ===================================================================== *)
(** ** The text of an OCR response *)
(* ===================================================================== *)

Definition fence : string := "```".

(** The clean-up that [ocr_scan] applies to the model's response before
    it parses it as JSON: surrounding white space and a Markdown code
    fence are removed. *)
Definition ocr_response_text (response : string) : error + string :=
  let response_text := Str.strip response in
  if Py.startswith fence response_text
  then
    match (if Py.contains_char Regex.newline response_text
           then match nth_error (Str.split_once response_text Regex.newline) 1 with
                | Some x => inr x
                | None => inl (PyException "IndexError")
                end
           else inr (Str.drop 3 response_text)) with
    | inl e => inl e
    | inr response_text =>
        let response_text :=
          if Str.endswith fence response_text
          then Str.drop_last 3 response_text
          else response_text in
        inr (Str.strip response_text)
    end
  else inr response_text.

(* ===================================================================== *)
(** ** Vocabulary of the specification *)
(* ===================================================================== *)

(** The bearer token a request presents: what follows the prefix
    [Bearer ] of its [Authorization] header. *)
Definition bearer_token (request : Request) : option string :=
  match authorization request with
  | Some h =>
      if Py.startswith "Bearer " h then nth_error (Py.split h "Bearer ") 1 else None
  | None => None
  end.

(** The session the store holds for a token. *)
Definition lookup_session (db : Db.t) (token : string) : option Session.t :=
  find (fun s => String.eqb (Session.session_token s) token) (Db.user_sessions db).

(** Some user document carries the identifier. *)
Definition user_exists (db : Db.t) (uid : string) : bool :=
  existsb (fun u => match dict_get u "user_id" with
                    | Some (VStr x) => String.eqb x uid
                    | _ => false
                    end) (Db.users db).

(** The handler answers 401. *)
Definition unauthorized {A} (r : error + A) : Prop :=
  exists detail, r = inl (HTTPException 401 detail).

(** Two characters are the same when letter case is ignored: they are
    equal, or option [i] takes one for the other. *)
Definition same_letter (caseless : Regex.char -> Regex.char -> bool)
    (x c : Regex.char) : bool :=
  String.eqb x c || caseless x c.

(** The characters of [p] occur in [s] as a run of consecutive characters
    when letter case is ignored. *)
Definition contains_ignoring_case (caseless : Regex.char -> Regex.char -> bool)
    (p s : string) : Prop :=
  exists pre mid post,
    Utf8.chars s = (pre ++ mid ++ post)%list
    /\ Forall2 (fun x c => same_letter caseless x c = true) (Utf8.chars p) mid.

(** The merchant name is a string that contains [p], letter case ignored. *)
Definition merchant_contains (caseless : Regex.char -> Regex.char -> bool)
    (p : string) (merchant_name : option string) : Prop :=
  exists s, merchant_name = Some s /\ contains_ignoring_case caseless p s.

(** No character of the string has a meaning in a regular expression. *)
Definition plain (p : string) : bool :=
  forallb (fun c => negb (Regex.is_meta_char c)) (Utf8.chars p).

(** The server's library gives the patterns of the fragment, under option
    [i], the meaning that [Regex] spells out. *)
Definition implements (caseless : Regex.char -> Regex.char -> bool)
    (regex : Regex.engine) : Prop :=
  forall p r,
    Regex.compile p = Some r ->
    exists test,
      regex p "i" = Some test /\ forall s, test s = Regex.test caseless "i" r s.

(** A string filter that is given: present and not empty. *)
Definition given (o : option string) : option string :=
  match o with
  | Some s => if Py.truthy s then Some s else None
  | None => None
  end.

(** The filters of the listing, one by one. *)
Definition section_ok (section : option string) (r : Receipt.t) : bool :=
  match given section with
  | Some s => option_string_eqb (Receipt.section r) (Some s)
  | None => true
  end.

Definition category_ok (category_id : option string) (r : Receipt.t) : bool :=
  match given category_id with
  | Some c => option_string_eqb (Receipt.category_id r) (Some c)
  | None => true
  end.

(** The merchant name is a string in which the server's library finds
    the search pattern, under option [i]. *)
Definition search_ok (regex : Regex.engine) (search : option string) (r : Receipt.t)
  : bool :=
  match given search with
  | Some s =>
      match regex s "i", Receipt.merchant_name r with
      | Some test, Some m => test m
      | _, _ => false
      end
  | None => true
  end.

(** The date is a string within the bounds that are given, in the order
    of strings. *)
Definition date_ok (date_from date_to : option string) (r : Receipt.t) : bool :=
  match given date_from with
  | Some d => match Receipt.date r with Some x => String.leb d x | None => false end
  | None => true
  end
  && match given date_to with
     | Some d => match Receipt.date r with Some x => String.leb x d | None => false end
     | None => true
     end.

(** [x >= a] and [x <= a] on doubles, where NaN equals NaN and is in no
    order with any other number. *)
Definition at_least (x a : float) : bool := SFleb a x || (is_nan x && is_nan a).
Definition at_most (x a : float) : bool := SFleb x a || (is_nan x && is_nan a).

(** The total is a number within the bounds that are given. *)
Definition amount_ok (amount_min amount_max : option float) (r : Receipt.t) : bool :=
  match amount_min with
  | Some a => match Receipt.total r with Some x => at_least x a | None => false end
  | None => true
  end
  && match amount_max with
     | Some a => match Receipt.total r with Some x => at_most x a | None => false end
     | None => true
     end.

(** The receipt belongs to [uid] and passes every filter of [p]
    ([skip] and [limit] play no part). *)
Definition selected (regex : Regex.engine) (uid : string) (p : ListParams)
    (r : Receipt.t) : bool :=
  String.eqb (Receipt.user_id r) uid
  && section_ok (section p) r
  && category_ok (category_id p) r
  && search_ok regex (search p) r
  && date_ok (date_from p) (date_to p) r
  && amount_ok (amount_min p) (amount_max p) r.

(** The server accepts the search pattern, when one is given. *)
Definition search_accepted (regex : Regex.engine) (search : option string) : bool :=
  match given search with
  | Some s => match regex s "i" with Some _ => true | None => false end
  | None => true
  end.

(** The receipt belongs to [uid] and passes the filters of a report. *)
Definition reported (uid : string) (date_from date_to section : option string)
    (r : Receipt.t) : bool :=
  String.eqb (Receipt.user_id r) uid
  && date_ok date_from date_to r
  && section_ok section r.

(** The receipt belongs to [uid] and is dated within [[from, to]]. *)
Definition in_window (uid from to : string) (r : Receipt.t) : bool :=
  String.eqb (Receipt.user_id r) uid
  && match Receipt.date r with
     | Some d => String.leb from d && String.leb d to
     | None => false
     end.

(** The order of dates: a null date comes before every string. *)
Definition date_leb (a b : option string) : bool :=
  match a, b with
  | None, _ => true
  | Some _, None => false
  | Some x, Some y => String.leb x y
  end.

(** Newest date first. *)
Definition date_descending (a b : Receipt.t) : Prop :=
  date_leb (Receipt.date b) (Receipt.date a) = true.

(** The parameters of a listing with another page. *)
Definition with_page (p : ListParams) (skip limit : option Z) : ListParams :=
  mk_list_params (section p) (category_id p) (search p) (date_from p) (date_to p)
                 (amount_min p) (amount_max p) skip limit.

(** The pattern that a string without metacharacters compiles to, and
    its tokens. *)
Definition literal (p : list Regex.char) : Regex.regex :=
  map (fun c => (Regex.Lit c, Regex.One)) p.

Definition literal_tokens (p : list Regex.char) : list Regex.token :=
  map (fun c => Regex.TAtom (Regex.Lit c)) p.

(** The expiry of a session as the gate reads it: a stored string is
    parsed. *)
Definition session_expiry (fromisoformat : string -> option datetime) (s : Session.t)
  : option datetime :=
  match Session.expires_at s with
  | TStr x => fromisoformat x
  | TDatetime d => Some d
  end.

Definition denotes {D} (regex : Regex.engine) (field : D -> string -> option value)
    (q : Mongo.query) (g : D -> bool) : Prop :=
  exists f, Mongo.compile regex field q = inr f /\ forall d, f d = g d.

Definition opt_set (q : Mongo.query) (k : string) (oc : option Mongo.cond) : Mongo.query :=
  match oc with Some c => dict_set q k c | None => q end.

Definition range_cond (lo hi : option value) : option Mongo.cond :=
  match lo, hi with
  | None, None => None
  | Some a, None => Some (Mongo.Ops [("$gte", Mongo.AVal a)])
  | None, Some b => Some (Mongo.Ops [("$lte", Mongo.AVal b)])
  | Some a, Some b => Some (Mongo.Ops [("$gte", Mongo.AVal a); ("$lte", Mongo.AVal b)])
  end.

Definition regex_cond (s : string) : Mongo.cond :=
  Mongo.Ops [("$regex", Mongo.AVal (VStr s)); ("$options", Mongo.AVal (VStr "i"))].

Definition without_search (p : ListParams) : ListParams :=
  mk_list_params (section p) (category_id p) None (date_from p) (date_to p)
                 (amount_min p) (amount_max p) (skip p) (limit p).

(** The rows of a [$group] with the constant key [None]. *)
Definition window_rows (docs : list Receipt.t) : list (TaxRow.t unit) :=
  match docs with
  | [] => []
  | _ :: _ => [TaxRow.mk tt (Mongo.sum (map Receipt.total docs))
                 (Mongo.sum (map Receipt.tax docs)) (Mongo.count docs)]
  end.

(** The sum of the counts of rows. *)
Definition sum_Z (l : list Z) : Z := fold_right Z.add 0 l.

(** The bounds of the dashboard's windows at the clock reading. *)
Definition today (clock : datetime) : string :=
  Format.strftime_Ymd (datetime_now_utc clock).
Definition month_start (clock : datetime) : string :=
  Format.strftime_Ymd (replace_day (datetime_now_utc clock) 1).
Definition year_start (clock : datetime) : string :=
  Format.strftime_Ymd (replace_month_day (datetime_now_utc clock) 1 1).

(** The receipts of [uid] in the year-to-date window. *)
Definition year_to_date (uid : string) (clock : datetime) (db : Db.t) : list Receipt.t :=
  filter (in_window uid (year_start clock) (today clock)) (Db.receipts db).

(** The receipts of a list that carry the category [k]. *)
Definition of_category (k : option string) (l : list Receipt.t) : list Receipt.t :=
  filter (fun r => option_string_eqb (Receipt.category_id r) k) l.

(** The sum of the totals of the receipts of a list that carry the
    category [k]. *)
Definition category_total (k : option string) (l : list Receipt.t) : num :=
  Mongo.sum (map Receipt.total (of_category k l)).

(** The category [a] has no smaller a total than [b] among the receipts
    [l]. *)
Definition ranked_by_total (l : list Receipt.t) (a b : option string) : Prop :=
  sort_leb (to_float (category_total b l)) (to_float (category_total a l)) = true.

(** The rows of the category pipeline before its [$limit]. *)
Definition category_rows (uid : string) (clock : datetime) (db : Db.t)
  : list (GroupRow.t (option string)) :=
  Mongo.sort_by (GroupRow.field (fun _ _ => None)) [("total", -1)]
    (map (fun b => GroupRow.mk (fst b) (Mongo.sum (map Receipt.total (snd b)))
                     (Mongo.count (snd b)))
         (Mongo.group option_string_eqb Receipt.category_id (year_to_date uid clock db))).

(** The window aggregate over the receipts of a window. *)
Definition window_totals (docs : list Receipt.t) : Totals.t :=
  match docs with
  | [] => Totals.mk (NInt 0) (NInt 0) 0
  | _ :: _ => Totals.mk (Mongo.sum (map Receipt.total docs))
                        (Mongo.sum (map Receipt.tax docs))
                        (Mongo.count docs)
  end.

(** Larger total first. *)
Definition total_descending (a b : CategoryEntry.t) : Prop :=
  sort_leb (to_float (CategoryEntry.total b)) (to_float (CategoryEntry.total a)) = true.

(** The rows of the tax pipeline: one per (section, category) of the
    receipts the report matches, by section and then by falling total. *)
Definition tax_rows (matched : list Receipt.t)
  : list (TaxRow.t (option string * option string)) :=
  Mongo.sort_by (TaxRow.field section_category_field) [("_id.section", 1); ("total", -1)]
    (map (fun b => TaxRow.mk (fst b) (Mongo.sum (map Receipt.total (snd b)))
                     (Mongo.sum (map Receipt.tax (snd b))) (Mongo.count (snd b)))
         (Mongo.group section_category_eqb section_category matched)).

(** The rows of a section. *)
Definition rows_of (sec : string) (rows : list (TaxRow.t (option string * option string)))
  : list (TaxRow.t (option string * option string)) :=
  filter (fun r => option_string_eqb (fst (TaxRow._id r)) (Some sec)) rows.

(** The running totals are the sums over the entries of the section. *)
Definition totals_of (entries : list SummaryEntry.t) (t : Totals.t) : Prop :=
  Totals.total t = fold_left py_add (map SummaryEntry.total entries) (NInt 0)
  /\ Totals.tax t = fold_left py_add (map SummaryEntry.tax entries) (NInt 0)
  /\ Totals.count t = sum_Z (map SummaryEntry.count entries).

(** The matched receipts of a section and category. *)
Definition of_section_category (sec : string) (cat : option string)
    (l : list Receipt.t) : list Receipt.t :=
  filter (fun r => option_string_eqb (Receipt.section r) (Some sec)
                   && option_string_eqb (Receipt.category_id r) cat) l.

(** Every entry aggregates the matched receipts of its section and
    category, and only those. *)
Definition entries_from (sec : string) (matched : list Receipt.t)
    (entries : list SummaryEntry.t) : Prop :=
  Forall (fun e =>
            let members := of_section_category sec (SummaryEntry.category_id e) matched in
            members <> []
            /\ SummaryEntry.total e = Mongo.sum (map Receipt.total members)
            /\ SummaryEntry.tax e = Mongo.sum (map Receipt.tax members)
            /\ SummaryEntry.count e = Z.of_nat (List.length members)) entries.

(** The double nearest to [n / 100]: the value of a decimal literal with
    two places, such as [99.99]. *)
Definition float_of_cents (n : Z) : float :=
  SFdiv prec emax (float_of_int n) (float_of_int 100).

(** A number that is neither NaN nor infinite. *)
Definition is_finite (x : float) : bool :=
  match x with
  | S754_zero _ | S754_finite _ _ _ => true
  | _ => false
  end.







(** What a field of a document holds after an update that sent [sent]
    for it: what it held when the field was not sent, nothing after an
    explicit null, the value sent otherwise. *)
Definition after_update {A} (sent : patch A) (old new : option A) : Prop :=
  match sent with
  | Unset => new = old
  | Null => new = None
  | Value a => new = Some a
  end.

(** The receipts an export writes: the matched ones, newest date first,
    at most 10000. *)
Definition exported (uid : string) (date_from date_to section : option string) (db : Db.t)
  : list Receipt.t :=
  firstn (Z.to_nat 10000)
    (Mongo.sort_by Receipt.field [("date", -1)]
       (filter (reported uid date_from date_to section) (Db.receipts db))).

(* ===================================================================== *)
(** ** Vocabulary of the account and document properties *)
(* ===================================================================== *)

(** The identifier of the account that a request is authenticated as. *)
Definition caller (fromisoformat : string -> option datetime) (request : Request)
    (clock : datetime) (db : Db.t) : option string :=
  match fst (get_current_user fromisoformat request clock db) with
  | inr user => match dict_get user "user_id" with
                | Some (VStr uid) => Some uid
                | _ => None
                end
  | inl _ => None
  end.

(** The request that presents [token]. *)
Definition bearer (token : string) : Request := mk_request (Some ("Bearer " ++ token)).

(** The instant, in whole milliseconds, up to which a session created at
    the clock reading [clock] is accepted: seven days later. *)
Definition session_deadline (clock : datetime) : Z :=
  (instant (datetime_now_utc clock) + 7 * day_micros) / 1000 * 1000.

(** The user document registered under an e-mail address. *)
Definition user_by_email (lower : string -> string) (db : Db.t) (email : string)
  : option (pydict value) :=
  find (field_matches "email" (VStr (lower email))) (Db.users db).

(** The categories and the receipts of an account. *)
Definition categories_of (uid : string) (db : Db.t) : list Category.t :=
  filter (fun c => String.eqb (Category.user_id c) uid) (Db.categories db).

Definition receipts_of (uid : string) (db : Db.t) : list Receipt.t :=
  filter (fun r => String.eqb (Receipt.user_id r) uid) (Db.receipts db).

(** The category, or the receipt, with an identifier that belongs to the
    account. *)
Definition is_category (id uid : string) (c : Category.t) : bool :=
  String.eqb (Category.category_id c) id && String.eqb (Category.user_id c) uid.

Definition is_receipt (id uid : string) (r : Receipt.t) : bool :=
  String.eqb (Receipt.receipt_id r) id && String.eqb (Receipt.user_id r) uid.

(** The receipt of the account files under the category. *)
Definition uses_category (id uid : string) (r : Receipt.t) : bool :=
  option_string_eqb (Receipt.category_id r) (Some id)
  && String.eqb (Receipt.user_id r) uid.

(** The categories seeded for a new account. *)
Definition seeded (uid : string) (hex : nat -> string) (clock : nat -> datetime)
  : list Category.t :=
  seed_sections uid ["personal"; "business"] hex clock 0.

(** The identifier drawn for a new account. *)
Definition new_user_id (draw : RegisterDraw.t) : string :=
  "user_" ++ Str.take 12 (RegisterDraw.user_hex draw).

(** The store after the user document and the default categories of a
    new account were written. *)
Definition with_account (db : Db.t) (user : pydict value) (draw : RegisterDraw.t) : Db.t :=
  with_categories (with_users db (Db.users db ++ [user]))
    (Db.categories db
     ++ seeded (new_user_id draw) (RegisterDraw.category_hex draw)
          (RegisterDraw.category_clock draw)).

(** A computation that leaves the store as it finds it. *)
Definition reads_only {A} (m : App A) : Prop := forall db, snd (m db) = db.



(** The days before month [m] in a year that is leap or not. *)
Definition days_before (leap : bool) (m : Z) : Z :=
  nth (Z.to_nat m) DAYS_BEFORE_MONTH 0 + int_of_bool ((2 <? m) && leap).

(** The month and day that [ord2ymd] finds for day [n] of a year. *)
Definition month_day (leapyear : bool) (n : Z) : Z * Z :=
  let month := Z.shiftr (n + 50) 5 in
  let preceding := days_before leapyear month in
  if n <? preceding
  then
    let month := month - 1 in
    let preceding := preceding
                     - (nth (Z.to_nat month) DAYS_IN_MONTH 0
                        + int_of_bool ((month =? 2) && leapyear)) in
    (month, n - preceding + 1)
  else (month, n - preceding + 1).

Definition month_day_ok (leap : bool) (n : Z) : bool :=
  let '(m, d) := month_day leap n in
  (1 <=? m) && (m <=? 12) && (1 <=? d) && (days_before leap m + d =? n + 1)
  && (d <=? (if m =? 2 then (if leap then 29 else 28)
             else if (m =? 4) || (m =? 6) || (m =? 9) || (m =? 11) then 30 else 31)).

(** A calendar date: the month is one of the twelve and the day one of
    the month. *)
Definition valid_date (y m d : Z) : Prop :=
  1 <= m <= 12 /\ 1 <= d <= days_in_month y m.


(** The rows of the section pipeline that the dashboard reads: the first
    ten groups of the year-to-date receipts. *)
Definition section_rows (uid : string) (clock : datetime) (db : Db.t)
  : list (GroupRow.t (option string)) :=
  firstn 10
    (map (fun b => GroupRow.mk (fst b) (Mongo.sum (map Receipt.total (snd b)))
                     (Mongo.count (snd b)))
         (Mongo.group option_string_eqb Receipt.section (year_to_date uid clock db))).

(** The entry of the section breakdown for a row, kept [if s["_id"]]. *)
Definition section_entry (s : GroupRow.t (option string)) : pydict (num * Z) :=
  match GroupRow._id s with
  | Some k => if Py.truthy k then [(k, (GroupRow.total s, GroupRow.count s))] else []
  | None => []
  end.

(** The receipts of a list that carry the section [k]. *)
Definition of_section (k : option string) (l : list Receipt.t) : list Receipt.t :=
  filter (fun r => option_string_eqb (Receipt.section r) k) l.

(** The receipts of an account, the one created last first. *)
Definition newest_first (uid : string) (db : Db.t) : list Receipt.t :=
  Mongo.sort_by Receipt.field [("created_at", -1)] (receipts_of uid db).

Definition created_descending (a b : Receipt.t) : Prop :=
  String.leb (Receipt.created_at b) (Receipt.created_at a) = true.

(** The receipt names a category: its [category_id] is neither null nor
    empty. *)
Definition has_category (r : Receipt.t) : bool := Py.truthy_opt (Receipt.category_id r).

(** The user document that a registration stores. *)
Definition registered_user (lower : string -> string) (data : UserRegister.t)
    (draw : RegisterDraw.t) (hashed : string) : pydict value :=
  [("user_id", VStr (new_user_id draw));
   ("email", VStr (lower (UserRegister.email data)));
   ("name", VStr (UserRegister.name data));
   ("password_hash", VStr hashed);
   ("auth_provider", VStr "email");
   ("picture", VStr "");
   ("currency", VStr "CAD");
   ("theme", VStr "dark");
   ("created_at", VStr (isoformat (datetime_now_utc (RegisterDraw.user_clock draw))))].

(** A category document with the identifier [k] has the name [name]. *)
Definition category_named (db : Db.t) (k name : string) : Prop :=
  exists c,
    In c (Db.categories db) /\ Category.category_id c = k /\ Category.name c = name.

(** What a report shows as the name of the category [k], where [default]
    stands for a name that was not found and [limit] is the number of
    category documents that the report reads: without a category the
    default; with one, the default or the name of a category document with
    that identifier, and such a name whenever the identifier is not empty,
    a category document carries it and the collection is within the limit. *)
Definition resolved (db : Db.t) (limit : Z) (default : string) (k : option string)
    (name : string) : Prop :=
  match k with
  | None => name = default
  | Some k =>
      (name = default \/ category_named db k name)
      /\ (k <> "" ->
          Z.of_nat (List.length (Db.categories db)) <= limit ->
          (exists c, In c (Db.categories db) /\ Category.category_id c = k) ->
          category_named db k name)
  end.

(* ===================================================================== *)
(** ** A sample store *)
(* ===================================================================== *)

Module Sample.

(** A parser that accepts no string: the sample sessions hold datetimes. *)
Definition no_parse : string -> option datetime := fun _ => None.
(** The sample data are ASCII text and its patterns are of the fragment. *)
Definition regex : Regex.engine := Regex.fragment Regex.ascii_caseless.
(** 15 June 2025, noon. *)
Definition clock0 : datetime := mk_datetime 2025 6 15 12 0 0 0 None.
Definition alice : pydict value :=
  [("user_id", VStr "user_a"); ("email", VStr "a@x.io"); ("name", VStr "Alice");
   ("password_hash", VStr "$2b$12$abc"); ("currency", VStr "CAD"); ("theme", VStr "dark")].
(** A receipt of [user_a] as [create_receipt] stores it, amounts in cents. *)
Definition stored (id merchant date : string) (total tax : Z) (sec cat : option string)
  : Receipt.t :=
  Receipt.mk id "user_a" (Some merchant) (Some date) (Some (float_of_cents total))
             (Some (float_of_cents tax)) (Some "Visa") sec cat (Some "")
             (Some "aGVsbG8=") "2025-01-01T00:00:00".
(** One user, her session, which expires at [clock0], one category and
    three receipts. *)
Definition db0 : Db.t :=
  Db.mk [alice] [Session.mk "sess_1" "user_a" (TDatetime clock0) clock0]
    [Category.mk "cat_food" "user_a" "Food & Dining" "personal" true "x"]
    [stored "r1" "Walmart" "2025-03-01" 9999 1299 (Some "personal") (Some "cat_food");
     stored "r2" "A.B Store" "2025-06-02" 500 0 (Some "business") (Some "cat_x");
     stored "r3" "Cafe" "2024-12-31" 1000 100 None None].
Definition req0 : Request := mk_request (Some "Bearer sess_1").

Definition safe_alice : pydict value := dict_without "password_hash" alice.

Definition clock_2026 : datetime := mk_datetime 2026 1 10 9 30 0 0 None.

Definition no_filter : ListParams :=
  mk_list_params None None None None None None None None None.

Definition search_for (s : string) : ListParams :=
  mk_list_params None None (Some s) None None None None None None.

Definition in_section (s : string) : ListParams :=
  mk_list_params (Some s) None None None None None None None None.

(** A receipt of [user_a] dated in March 2025. *)
Definition receipt (id : string) (cents : Z) (sec cat : option string) : Receipt.t :=
  Receipt.mk id "user_a" (Some "Shop") (Some "2025-03-01") (Some (float_of_cents cents))
             (Some fzero) (Some "Cash") sec cat (Some "") None "2025-03-01T10:00:00".

Definition numbered (prefix : string) (n : nat) : string :=
  prefix ++ Format.zfill 3 (Format.decimal (Z.of_nat n)).

Definition store_with (rs : list Receipt.t) : Db.t :=
  Db.mk [alice] [Session.mk "sess_1" "user_a" (TDatetime clock0) clock0] [] rs.

(** Eleven categories [c001] .. [c011] with totals 1.00 .. 11.00, and one
    receipt of 100.00 with a null category. *)
Definition db_twelve_groups : Db.t :=
  store_with
    (receipt "r000" 10000 (Some "personal") None
     :: map (fun n => receipt (numbered "r" n) (Z.of_nat n * 100) (Some "personal")
                        (Some (numbered "c" n)))
            (seq 1 11)).

(** 201 personal receipts, each in a category of its own. *)
Definition db_201_groups : Db.t :=
  store_with
    (map (fun n => receipt (numbered "r" n) 100 (Some "personal") (Some (numbered "k" n)))
         (seq 0 201)).

End Sample.

(* ===================================================================== *)
(** ** Sample accounts and requests *)
(* ===================================================================== *)

Module Fixture.

(** A stand-in for [bcrypt]: the hash of a password is the password
    behind a dollar sign. *)
Definition hashpw (password salt : string) : option string := Some ("$" ++ password).
Definition checkpw (password hash : string) : option bool :=
  Some (String.eqb hash ("$" ++ password)).

Definition hex32 : string := "0123456789abcdef0123456789abcdef".
Definition hex_of (k : nat) : string := Sample.numbered "00000000000000000000000000000" k.

(** The draws of a session created at noon on 15 June 2025. *)
Definition session_draw : SessionDraw.t :=
  SessionDraw.mk "feedfacefeedfacefeedfacefeedface" Sample.clock0 Sample.clock0.

Definition draw : RegisterDraw.t :=
  RegisterDraw.mk "salt" hex32 Sample.clock0 hex_of (fun _ => Sample.clock0) session_draw.

Definition bob : UserRegister.t := UserRegister.mk "Bob@X.io" "hunter2" "Bob".

(** Alice's password under the stand-in, and her address in capitals. *)
Definition alice_login : UserLogin.t := UserLogin.mk "A@X.IO" "2b$12$abc".

(** Noon six days and noon eight days after the session was created. *)
Definition after_six_days : datetime := mk_datetime 2025 6 21 12 0 0 0 None.
Definition after_eight_days : datetime := mk_datetime 2025 6 23 12 0 0 0 None.

(** A request without credentials. *)
Definition anonymous : Request := mk_request None.

Definition google_carol : pydict value :=
  [("email", VStr "Carol@x.io"); ("name", VStr "Carol")].

Definition lunch : ReceiptCreate.t :=
  ReceiptCreate.mk "Diner" "2025-06-14" (float_of_cents 1850) (float_of_cents 240)
                   "Cash" "personal" "cat_food" "" "".

(** A change of the merchant that also clears the category. *)
Definition rename_merchant : ReceiptUpdate.t :=
  ReceiptUpdate.mk (Value "Walmart Supercentre") Unset Unset Unset false Unset Unset Null
                   Unset.

Definition no_change : ReceiptUpdate.t :=
  ReceiptUpdate.mk Unset Unset Unset Unset false Unset Unset Unset Unset.

(** A second account with one receipt, beside the sample store. *)
Definition dave_receipt : Receipt.t :=
  Receipt.mk "r9" "user_d" (Some "Garage") (Some "2025-05-05")
             (Some (float_of_cents 30000)) (Some fzero) (Some "Visa")
             (Some "business") None (Some "") None "2025-05-05T08:00:00".
Definition db_two_accounts : Db.t :=
  with_receipts Sample.db0 (Db.receipts Sample.db0 ++ [dave_receipt]).

End Fixture.

(* ===================================================================== *)
(** ** Orders and sorting *)
(* ===================================================================== *)

Ltac float_cases :=
  change (Pos.compare_cont Eq) with Pos.compare;
  repeat match goal with
  | |- context [Z.compare ?a ?b] => destruct (Z.compare_spec a b)
  | |- context [Pos.compare ?a ?b] => destruct (Pos.compare_spec a b)
  end; simpl; try congruence; try lia.

Lemma sort_leb_total x y : sort_leb x y = false -> sort_leb y x = true.
Proof.
  unfold sort_leb, SFcompare.
  destruct x as [sx| sx | | sx mx ex], y as [sy | sy | | sy my ey]; simpl;
    try destruct sx; try destruct sy; simpl; try congruence; float_cases.
Qed.

Lemma sort_leb_trans x y z : sort_leb x y = true -> sort_leb y z = true -> sort_leb x z = true.
Proof.
  unfold sort_leb, SFcompare.
  destruct x as [sx| sx | | sx mx ex], y as [sy | sy | | sy my ey], z as [sz | sz | | sz mz ez];
      simpl;
    try destruct sx; try destruct sy; try destruct sz; simpl; try congruence; float_cases.
Qed.

Lemma string_leb_trans a : forall b c,
  String.leb a b = true -> String.leb b c = true -> String.leb a c = true.
Proof.
  unfold String.leb.
  induction a as [|x a IH]; intros [|y b] [|z c]; simpl; try congruence.
  unfold Ascii.compare.
  destruct (N.compare_spec (N_of_ascii x) (N_of_ascii y)) as [E1|L1|G1];
  destruct (N.compare_spec (N_of_ascii y) (N_of_ascii z)) as [E2|L2|G2];
  destruct (N.compare_spec (N_of_ascii x) (N_of_ascii z)) as [E3|L3|G3];
  try congruence; try lia.
  apply IH.
Qed.

Lemma string_leb_total a b : String.leb a b = false -> String.leb b a = true.
Proof.
  intros H. destruct (String.leb_total a b); congruence.
Qed.

Lemma value_leb_total a b : Mongo.value_leb a b = false -> Mongo.value_leb b a = true.
Proof.
  destruct a, b; try (cbv; congruence); simpl.
  - apply string_leb_total.
  - apply sort_leb_total.
  - destruct b, b0; simpl; congruence.
Qed.

Lemma value_leb_trans a b c :
  Mongo.value_leb a b = true -> Mongo.value_leb b c = true -> Mongo.value_leb a c = true.
Proof.
  destruct a, b, c; try (cbv; congruence); simpl.
  - apply string_leb_trans.
  - apply sort_leb_trans.
  - destruct b, b0, b1; simpl; congruence.
Qed.

Section Orders.
Context {D : Type} (field : D -> string -> option value).

Lemma before_total spec : forall a b,
  Mongo.before field spec a b = false -> Mongo.before field spec b a = true.
Proof.
  induction spec as [|[k dir] spec IH]; simpl; intros a b; [congruence|].
  set (ka := Mongo.sort_key field a k).
  set (kb := Mongo.sort_key field b k).
  destruct (dir <? 0).
  - destruct (Mongo.value_leb kb ka) eqn:E1, (Mongo.value_leb ka kb) eqn:E2;
      try congruence; auto.
    apply value_leb_total in E1. congruence.
  - destruct (Mongo.value_leb kb ka) eqn:E1, (Mongo.value_leb ka kb) eqn:E2;
      try congruence; auto.
    apply value_leb_total in E1. congruence.
Qed.

Lemma before_trans spec : forall a b c,
  Mongo.before field spec a b = true -> Mongo.before field spec b c = true ->
  Mongo.before field spec a c = true.
Proof.
  induction spec as [|[k dir] spec IH]; simpl; intros a b c; [reflexivity|].
  set (ka := Mongo.sort_key field a k).
  set (kb := Mongo.sort_key field b k).
  set (kc := Mongo.sort_key field c k).
  destruct (dir <? 0);
    destruct (Mongo.value_leb ka kb) eqn:E1, (Mongo.value_leb kb ka) eqn:E2,
             (Mongo.value_leb kb kc) eqn:E3, (Mongo.value_leb kc kb) eqn:E4,
             (Mongo.value_leb ka kc) eqn:E5, (Mongo.value_leb kc ka) eqn:E6;
    try congruence; eauto;
    repeat match goal with
    | H1 : Mongo.value_leb ?x ?y = true, H2 : Mongo.value_leb ?y ?z = true |- _ =>
        lazymatch goal with
        | _ : Mongo.value_leb x z = true |- _ => fail
        | _ => pose proof (value_leb_trans _ _ _ H1 H2)
        end
    end; congruence.
Qed.
End Orders.

Section InsertionSort.
Context {D : Type} (field : D -> string -> option value) (spec : Mongo.sort_spec).
Lemma insert_In x l y : In y (Mongo.insert field spec x l) <-> y = x \/ In y l.
Proof.
  induction l as [|z l IH]; simpl.
  - intuition.
  - destruct (Mongo.before field spec x z); simpl; rewrite ?IH; intuition.
Qed.

Lemma insert_sorted x l :
  StronglySorted (fun a b => Mongo.before field spec a b = true) l ->
  StronglySorted (fun a b => Mongo.before field spec a b = true)
    (Mongo.insert field spec x l).
Proof.
  induction 1 as [|z l Hs IH Hz]; simpl.
  - constructor; constructor.
  - destruct (Mongo.before field spec x z) eqn:E.
    + constructor; [constructor; assumption|].
      constructor; [assumption|].
      rewrite Forall_forall in *. intros y Hy.
      eapply before_trans; eauto.
    + constructor; [assumption|].
      rewrite Forall_forall in *. intros y Hy.
      apply insert_In in Hy. destruct Hy as [->|Hy]; auto.
      apply before_total; assumption.
Qed.

Lemma sort_by_sorted l :
  StronglySorted (fun a b => Mongo.before field spec a b = true)
    (Mongo.sort_by field spec l).
Proof.
  induction l; simpl; [constructor | apply insert_sorted; assumption].
Qed.

Lemma insert_length x l : List.length (Mongo.insert field spec x l) = S (List.length l).
Proof.
  induction l as [|z l IH]; simpl; [reflexivity|].
  destruct (Mongo.before field spec x z); simpl; congruence.
Qed.

Lemma sort_by_length l : List.length (Mongo.sort_by field spec l) = List.length l.
Proof.
  induction l; simpl; [reflexivity | rewrite insert_length; congruence].
Qed.

Lemma sort_by_In l y : In y (Mongo.sort_by field spec l) <-> In y l.
Proof.
  induction l; simpl; [tauto | rewrite insert_In, IHl; intuition].
Qed.
End InsertionSort.

(* ===================================================================== *)
(** ** Patterns without metacharacters *)
(* ===================================================================== *)

Lemma lex_plain c p :
  Regex.is_meta_char c = false ->
  Regex.lex false (c :: p)
  = option_map (cons (Regex.TAtom (Regex.Lit c))) (Regex.lex false p).
Proof.
  intros H. cbn [Regex.lex]. rewrite H.
  assert (N : forall a, Regex.is_meta a = true -> Regex.is_char a c = false).
  { intros a M. unfold Regex.is_char. destruct (String.eqb_spec c (String a "")) as [->|];
      [|reflexivity]. cbn [Regex.is_meta_char] in H. congruence. }
  rewrite !N by reflexivity. reflexivity.
Qed.

Lemma lex_literal p :
  forallb (fun c => negb (Regex.is_meta_char c)) p = true ->
  Regex.lex false p = Some (literal_tokens p).
Proof.
  induction p as [|c p IH]; [reflexivity|].
  cbn [forallb]. intros H. apply andb_prop in H. destruct H as [Hc Hp].
  apply negb_true_iff in Hc.
  rewrite (lex_plain _ _ Hc), (IH Hp). reflexivity.
Qed.

Lemma build_literal p : Regex.build (literal_tokens p) = Some (literal p).
Proof.
  induction p as [|c p IH]; simpl; [reflexivity|].
  destruct p as [|c' p]; simpl in *; [reflexivity|].
  rewrite IH. reflexivity.
Qed.

(** A string without metacharacters is the pattern of its characters. *)
Lemma compile_plain p :
  plain p = true -> Regex.compile p = Some (literal (Utf8.chars p)).
Proof.
  intros P. unfold Regex.compile. rewrite (lex_literal _ P). apply build_literal.
Qed.

Section Literal.
Variable caseless : Regex.char -> Regex.char -> bool.

Lemma match_here_literal p : forall s,
  Regex.match_here caseless true (literal p) s = true
  <-> exists mid post,
        s = (mid ++ post)%list
        /\ Forall2 (fun x c => same_letter caseless x c = true) p mid.
Proof.
  induction p as [|x p IH]; cbn [literal map Regex.match_here]; intros s.
  - split; [|reflexivity]. intros _. exists [], s. split; [reflexivity | constructor].
  - fold (literal p). destruct s as [|c s].
    + split; [discriminate|]. intros (mid & post & E & F).
      inversion F; subst. discriminate E.
    + rewrite andb_true_iff, IH. cbn [Regex.atom_ok andb]. split.
      * intros [A (mid & post & -> & F)]. exists (c :: mid), post.
        split; [reflexivity|]. constructor; assumption.
      * intros (mid & post & E & F). inversion F as [|? c' ? mid' A F']; subst.
        injection E as <- ->. split; [exact A|]. exists mid', post. auto.
Qed.

Lemma search_literal p : forall s,
  Regex.search caseless true (literal p) s = true
  <-> exists pre mid post,
        s = (pre ++ mid ++ post)%list
        /\ Forall2 (fun x c => same_letter caseless x c = true) p mid.
Proof.
  induction s as [|c s IH]; cbn [Regex.search].
  - rewrite orb_false_r, match_here_literal. split.
    + intros (mid & post & E & F). exists [], mid, post. auto.
    + intros (pre & mid & post & E & F). destruct pre; [|discriminate E].
      exists mid, post. auto.
  - rewrite orb_true_iff, match_here_literal, IH. split.
    + intros [(mid & post & E & F) | (pre & mid & post & E & F)].
      * exists [], mid, post. auto.
      * exists (c :: pre), mid, post. rewrite E. auto.
    + intros (pre & mid & post & E & F). destruct pre as [|e pre].
      * left. exists mid, post. auto.
      * right. injection E as _ E. exists pre, mid, post. auto.
Qed.

(** The test that a string without metacharacters makes. *)
Lemma test_plain p s :
  plain p = true ->
  Regex.test caseless "i" (literal (Utf8.chars p)) s = true
  <-> contains_ignoring_case caseless p s.
Proof.
  intros _. unfold Regex.test. change (Py.contains_char "i" "i") with true.
  apply search_literal.
Qed.

End Literal.

(* ===================================================================== *)
(** ** The authorization gate *)
(* ===================================================================== *)

Lemma split_aux_nonempty sep s : forall k cur, Py.split_aux sep k cur s <> [].
Proof.
  induction s as [|c s IH]; intros k cur; simpl; [discriminate|].
  destruct k; [|apply IH].
  destruct (Py.startswith sep (String c s)); [discriminate | apply IH].
Qed.

Lemma startswith_truthy p h :
  Py.truthy p = true -> Py.startswith p h = true -> Py.truthy h = true.
Proof. destruct p, h; simpl; congruence. Qed.

Lemma bearer_token_some request token :
  bearer_token request = Some token ->
  exists h, authorization request = Some h /\ Py.truthy h = true
            /\ Py.startswith "Bearer " h = true
            /\ nth_error (Py.split h "Bearer ") 1 = Some token.
Proof.
  unfold bearer_token. destruct (authorization request) as [h|]; [|discriminate].
  destruct (Py.startswith "Bearer " h) eqn:E; [|discriminate].
  intros H. exists h. repeat split; auto.
  eapply startswith_truthy; [|exact E]. reflexivity.
Qed.

Lemma bearer_token_none request :
  bearer_token request = None ->
  match authorization request with
  | Some h => negb (Py.truthy h) || negb (Py.startswith "Bearer " h) = true
  | None => True
  end.
Proof.
  unfold bearer_token. destruct (authorization request) as [h|]; [|trivial].
  destruct (Py.startswith "Bearer " h) eqn:E.
  - intros H. exfalso.
    destruct h as [|c h]; [discriminate|].
    unfold Py.split in H. cbn [Py.split_aux] in H. rewrite E in H.
    cbn [nth_error] in H.
    destruct (Py.split_aux "Bearer " (Nat.pred (String.length "Bearer ")) "" h) eqn:F;
      [apply split_aux_nonempty in F; exact F | discriminate].
  - intros _. rewrite orb_true_r. reflexivity.
Qed.

Lemma dict_get_without {V} key (d : pydict V) k :
  dict_get (dict_without key d) k
  = if String.eqb k key then None else dict_get d k.
Proof.
  induction d as [|[k' v] d IH]; simpl.
  - destruct (String.eqb k key); reflexivity.
  - destruct (String.eqb_spec k' key) as [E|N]; simpl; rewrite IH.
    + destruct (String.eqb_spec k key) as [E'|N']; [reflexivity|].
      destruct (String.eqb_spec k' k); congruence.
    + destruct (String.eqb_spec k' k) as [E'|N']; [|reflexivity].
      destruct (String.eqb_spec k key); congruence.
Qed.

Lemma find_user_nonempty v us u : find (user_matches v) us = Some u ->
  v <> VNull -> u <> [].
Proof.
  intros H Hv ->. apply find_some in H. destruct H as [_ H].
  unfold user_matches in H. simpl in H. destruct v; simpl in H; congruence.
Qed.

Lemma user_matches_str uid u :
  user_matches (VStr uid) u = true <-> dict_get u "user_id" = Some (VStr uid).
Proof.
  unfold user_matches. destruct (dict_get u "user_id") as [[| s | f | b]|]; simpl;
    try (split; congruence).
  rewrite String.eqb_eq. split; congruence.
Qed.

Lemma user_exists_find db uid :
  user_exists db uid = false <-> find (user_matches (VStr uid)) (Db.users db) = None.
Proof.
  unfold user_exists. induction (Db.users db) as [|u us IH]; simpl; [tauto|].
  unfold user_matches at 1.
  destruct (dict_get u "user_id") as [[| s | f | b]|]; simpl; try exact IH.
  destruct (String.eqb s uid); simpl; [split; discriminate | exact IH].
Qed.

Section Gate.
Variable fromisoformat : string -> option datetime.



Lemma expired_iff d clock :
  datetime_lt (match tzinfo d with
               | None => replace_tzinfo d (Some timezone_utc)
               | Some _ => d
               end) (datetime_now_utc clock)
  = Some (instant d <? instant (datetime_now_utc clock)).
Proof.
  unfold datetime_lt, instant, datetime_now_utc, replace_tzinfo, wall_micros, toordinal.
  destruct d as [? ? ? ? ? ? ? [o|]]; simpl; reflexivity.
Qed.

Lemma get_current_user_state request clock db :
  snd (get_current_user fromisoformat request clock db) = db.
Proof.
  unfold get_current_user.
  destruct (authorization request) as [h|]; [|reflexivity].
  destruct (negb (Py.truthy h) || negb (Py.startswith "Bearer " h)); [reflexivity|].
  unfold bind, index1, find_one_session, find_one_user, read, ret, raise.
  destruct (nth_error (Py.split h "Bearer ") 1) as [tok|]; [|reflexivity].
  destruct (find _ (Db.user_sessions db)) as [s|]; [|reflexivity].
  destruct (Session.expires_at s) as [x|d].
  - destruct (fromisoformat x) as [d|]; [|reflexivity].
    destruct (datetime_lt _ _) as [[|]|]; try reflexivity.
    destruct (find _ (Db.users db)) as [[|? ?]|]; reflexivity.
  - destruct (datetime_lt _ _) as [[|]|]; try reflexivity.
    destruct (find _ (Db.users db)) as [[|? ?]|]; reflexivity.
Qed.

(** The outcome of the gate for a request that presents a token. *)
Lemma get_current_user_token request clock db token :
  bearer_token request = Some token ->
  fst (get_current_user fromisoformat request clock db) =
  match lookup_session db token with
  | None => inl (HTTPException 401 "Invalid session")
  | Some s =>
      match session_expiry fromisoformat s with
      | None => inl (PyException "ValueError")
      | Some d =>
          if instant d <? instant (datetime_now_utc clock)
          then inl (HTTPException 401 "Session expired")
          else match find (user_matches (VStr (Session.user_id s))) (Db.users db) with
               | Some u => inr (dict_without "password_hash" u)
               | None => inl (HTTPException 401 "User not found")
               end
      end
  end.
Proof.
  intros H. apply bearer_token_some in H.
  destruct H as [h [Ha [Ht [Hs Hn]]]].
  unfold get_current_user. rewrite Ha, Ht, Hs. cbn [negb orb].
  unfold bind, index1, find_one_session, find_one_user, read, ret, raise, lookup_session,
    session_expiry.
  rewrite Hn. cbn [fst snd].
  destruct (find _ (Db.user_sessions db)) as [s|]; [|reflexivity].
  destruct (Session.expires_at s) as [x|d]; [destruct (fromisoformat x) as [d|]|];
    try reflexivity.
  all: rewrite expired_iff;
    destruct (instant d <? instant (datetime_now_utc clock)); [reflexivity|];
    destruct (find _ (Db.users db)) as [u|] eqn:F; [|reflexivity];
    destruct u; [|reflexivity];
    apply find_user_nonempty in F; congruence.
Qed.

Lemma get_current_user_no_token request clock db :
  bearer_token request = None ->
  fst (get_current_user fromisoformat request clock db)
  = inl (HTTPException 401 "Not authenticated").
Proof.
  intros H. apply bearer_token_none in H. unfold get_current_user.
  destruct (authorization request) as [h|]; [|reflexivity].
  rewrite H. reflexivity.
Qed.

(** What the handlers learn from a request that passed the gate. *)
Lemma get_current_user_ok request clock db user :
  fst (get_current_user fromisoformat request clock db) = inr user ->
  get_current_user fromisoformat request clock db = (inr user, db)
  /\ dict_get user "password_hash" = None
  /\ exists uid, dict_get user "user_id" = Some (VStr uid).
Proof.
  intros H. split.
  { pose proof (get_current_user_state request clock db) as S.
    destruct (get_current_user fromisoformat request clock db) as [r db'].
    simpl in H, S. congruence. }
  destruct (bearer_token request) as [token|] eqn:B.
  - rewrite (get_current_user_token _ _ _ _ B) in H.
    destruct (lookup_session db token) as [s|]; [|discriminate].
    destruct (session_expiry fromisoformat s) as [d|]; [|discriminate].
    destruct (instant d <? _); [discriminate|].
    destruct (find _ (Db.users db)) as [u|] eqn:F; [|discriminate].
    injection H as <-. rewrite !dict_get_without. simpl. split; [reflexivity|].
    apply find_some in F. destruct F as [_ F]. apply user_matches_str in F.
    eauto.
  - rewrite (get_current_user_no_token _ _ _ B) in H. discriminate.
Qed.
End Gate.

(* ===================================================================== *)
(** ** Queries and what they denote *)
(* ===================================================================== *)

Section Dict.
Context {V : Type}.
Implicit Types (d : pydict V) (k : string) (v : V).

Lemma dict_get_set_same d k v : dict_get (dict_set d k v) k = Some v.
Proof.
  induction d as [|[k' v'] d IH]; simpl.
  - rewrite String.eqb_refl. reflexivity.
  - destruct (String.eqb k' k) eqn:E; simpl; rewrite E; auto.
Qed.

Lemma dict_get_set_other d k k' v :
  k <> k' -> dict_get (dict_set d k v) k' = dict_get d k'.
Proof.
  intros N. induction d as [|[k0 v0] d IH]; simpl.
  - destruct (String.eqb_spec k k'); congruence.
  - destruct (String.eqb_spec k0 k) as [E|E]; simpl.
    + destruct (String.eqb_spec k0 k'); congruence.
    + rewrite IH. reflexivity.
Qed.

Lemma dict_set_set d k v v' : dict_set (dict_set d k v) k v' = dict_set d k v'.
Proof.
  induction d as [|[k0 v0] d IH]; simpl.
  - rewrite String.eqb_refl. reflexivity.
  - destruct (String.eqb k0 k) eqn:E; simpl; rewrite E; congruence.
Qed.
End Dict.

Section Denotation.
Context {D : Type} (regex : Regex.engine) (field : D -> string -> option value).

Lemma denotes_set q g k c h :
  denotes regex field q g -> dict_get q k = None ->
  Mongo.compile_cond regex c = inr h ->
  denotes regex field (dict_set q k c) (fun d => g d && h (field d k)).
Proof.
  intros [f [Hc Hf]] Hk Hh. revert f g Hc Hf Hk. unfold denotes.
  induction q as [|[k0 c0] q IH]; intros f g Hc Hf Hk; simpl in *.
  - injection Hc as <-. rewrite Hh. eexists. split; [reflexivity|].
    intros d. cbn. rewrite <- Hf, andb_true_r. reflexivity.
  - destruct (String.eqb k0 k) eqn:E; [discriminate|].
    simpl. destruct (Mongo.compile_cond regex c0) as [e0|f0]; [discriminate|].
    destruct (Mongo.compile regex field q) as [e1|f1]; [discriminate|].
    injection Hc as <-.
    destruct (IH f1 f1 eq_refl (fun _ => eq_refl) Hk) as [f2 [E2 H2]].
    rewrite E2. eexists. split; [reflexivity|].
    intros d. cbn. rewrite H2, <- Hf, andb_assoc. reflexivity.
Qed.

(** A condition that the server refuses makes it refuse the query. *)
Lemma refused_set q g k c e :
  denotes regex field q g -> dict_get q k = None ->
  Mongo.compile_cond regex c = inl e ->
  Mongo.compile regex field (dict_set q k c) = inl e.
Proof.
  intros [f [Hc _]] Hk Hh. revert f Hc Hk.
  induction q as [|[k0 c0] q IH]; intros f Hc Hk; simpl in *.
  - rewrite Hh. reflexivity.
  - destruct (String.eqb k0 k) eqn:E; [discriminate|].
    simpl. destruct (Mongo.compile_cond regex c0) as [e0|f0]; [discriminate|].
    destruct (Mongo.compile regex field q) as [e1|f1]; [discriminate|].
    rewrite (IH f1 eq_refl Hk). reflexivity.
Qed.

Lemma denotes_ext q g g' :
  denotes regex field q g -> (forall d, g d = g' d) -> denotes regex field q g'.
Proof. intros [f [Hc Hf]] E. exists f. split; [exact Hc|]. congruence. Qed.

Lemma denotes_opt_set q g k oc clause :
  denotes regex field q g -> dict_get q k = None ->
  match oc with
  | Some c => exists h, Mongo.compile_cond regex c = inr h
                        /\ forall d, h (field d k) = clause d
  | None => forall d, clause d = true
  end ->
  denotes regex field (opt_set q k oc) (fun d => g d && clause d).
Proof.
  intros Hq Hk H. destruct oc as [c|]; simpl.
  - destruct H as [h [Hh E]].
    eapply denotes_ext; [eapply denotes_set; eauto|].
    intros d. simpl. rewrite E. reflexivity.
  - eapply denotes_ext; [exact Hq|]. intros d. rewrite H, andb_true_r. reflexivity.
Qed.

Lemma opt_set_get q k oc k' : k <> k' -> dict_get (opt_set q k oc) k' = dict_get q k'.
Proof. intros N. destruct oc; simpl; [apply dict_get_set_other; exact N | reflexivity]. Qed.

(** A query that the server refuses stays refused with more conditions. *)
Lemma compile_opt_set_refused q k oc e :
  Mongo.compile regex field q = inl e -> dict_get q k = None ->
  Mongo.compile regex field (opt_set q k oc) = inl e.
Proof.
  intros Hq Hk. destruct oc as [c|]; [|exact Hq]. simpl.
  induction q as [|[k0 c0] q IH]; simpl in *; [discriminate|].
  destruct (String.eqb k0 k); [discriminate|]. simpl.
  destruct (Mongo.compile_cond regex c0) as [e0|f0]; [exact Hq|].
  destruct (Mongo.compile regex field q) as [e1|f1]; [|discriminate].
  rewrite IH; auto.
Qed.
End Denotation.

Lemma with_section_opt_set s q :
  with_section s q = opt_set q "section" (option_map (fun x => Mongo.Is (VStr x)) (given s)).
Proof. unfold with_section, given. destruct s as [x|]; [destruct (Py.truthy x)|]; reflexivity. Qed.

Lemma given_opt_set (f : string -> Mongo.cond) o q k :
  match o with
  | Some c => if Py.truthy c then dict_set q k (f c) else q
  | None => q
  end = opt_set q k (option_map f (given o)).
Proof. unfold given. destruct o as [c|]; [destruct (Py.truthy c)|]; reflexivity. Qed.

Lemma set_op_range {A} (inj : A -> value) q k (lo hi : option A) :
  dict_get q k = None ->
  match hi with
  | Some b =>
      Mongo.set_op
        match lo with
        | Some a => Mongo.set_op q k "$gte" (Mongo.AVal (inj a))
        | None => q
        end k "$lte" (Mongo.AVal (inj b))
  | None =>
      match lo with
      | Some a => Mongo.set_op q k "$gte" (Mongo.AVal (inj a))
      | None => q
      end
  end = opt_set q k (range_cond (option_map inj lo) (option_map inj hi)).
Proof.
  intros F. destruct lo as [a|], hi as [b|]; simpl; unfold Mongo.set_op; rewrite ?F;
    try reflexivity.
  rewrite dict_get_set_same, dict_set_set. reflexivity.
Qed.

Lemma with_date_range_opt_set df dt q :
  dict_get q "date" = None ->
  with_date_range df dt q
  = opt_set q "date" (range_cond (option_map VStr (given df)) (option_map VStr (given dt))).
Proof.
  intros F. rewrite <- (set_op_range VStr q "date" _ _ F). unfold with_date_range, given.
  destruct df as [a|], dt as [b|]; try destruct (Py.truthy a); try destruct (Py.truthy b);
    reflexivity.
Qed.

Lemma SFcompare_antisym x y : SFcompare y x = option_map CompOpp (SFcompare x y).
Proof.
  unfold SFcompare.
  destruct x as [sx| sx | | sx mx ex], y as [sy | sy | | sy my ey]; simpl;
    try destruct sx; try destruct sy; simpl; try reflexivity;
    change (Pos.compare_cont Eq) with Pos.compare;
    rewrite (Z.compare_antisym ex ey), (Pos.compare_antisym mx my);
    destruct (ex ?= ey), (mx ?= my)%positive; reflexivity.
Qed.

Lemma SFcompare_not_nan x y c :
  SFcompare x y = Some c -> is_nan x = false /\ is_nan y = false.
Proof. destruct x, y; cbn; try discriminate; auto. Qed.

(** The query operators on doubles are the order of the doubles. *)
Lemma query_gte_at_least x a : query_gte x a = at_least x a.
Proof.
  unfold query_gte, at_least, SFleb. rewrite (SFcompare_antisym x a).
  destruct (SFcompare x a) as [c|] eqn:E; cbn [option_map]; [|reflexivity].
  destruct (SFcompare_not_nan _ _ _ E) as [-> _].
  destruct c; reflexivity.
Qed.

Lemma query_lte_at_most x a : query_lte x a = at_most x a.
Proof.
  unfold query_lte, at_most, SFleb.
  destruct (SFcompare x a) as [c|] eqn:E; [|reflexivity].
  destruct (SFcompare_not_nan _ _ _ E) as [-> _].
  destruct c; reflexivity.
Qed.

Section Clauses.
Variable regex : Regex.engine.

Lemma range_cond_sem lo hi :
  match range_cond lo hi with
  | Some c => exists h, Mongo.compile_cond regex c = inr h
      /\ forall v, h v = match lo with
                         | Some a => match v with Some x => Mongo.value_gte x a | None => false end
                         | None => true
                         end
                         && match hi with
                            | Some b => match v with Some x => Mongo.value_lte x b | None => false
                                end
                            | None => true
                            end
  | None => lo = None /\ hi = None
  end.
Proof.
  destruct lo as [a|], hi as [b|]; simpl; try (split; reflexivity);
    eexists; (split; [reflexivity|]); intros v; cbn;
    rewrite ?andb_true_r; reflexivity.
Qed.

Lemma nullable_eqb o s :
  Mongo.value_eqb (Receipt.nullable o) (VStr s) = option_string_eqb o (Some s).
Proof. destruct o; reflexivity. Qed.

Lemma date_range_clause df dt :
  match range_cond (option_map VStr (given df)) (option_map VStr (given dt)) with
  | Some c => exists h, Mongo.compile_cond regex c = inr h
                        /\ forall r, h (Receipt.field r "date") = date_ok df dt r
  | None => forall r, date_ok df dt r = true
  end.
Proof.
  pose proof (range_cond_sem (option_map VStr (given df)) (option_map VStr (given dt))) as R.
  destruct (range_cond _ _) as [c|].
  - destruct R as [h [Hh E]]. exists h. split; [exact Hh|].
    intros r. rewrite E. unfold date_ok. cbn.
    destruct (given df), (given dt), (Receipt.date r); reflexivity.
  - destruct R as [R1 R2]. intros r. unfold date_ok.
    destruct (given df), (given dt); try discriminate. reflexivity.
Qed.

Lemma report_query_denotes uid df dt sec :
  denotes regex Receipt.field (report_query (VStr uid) df dt sec) (reported uid df dt sec).
Proof.
  unfold report_query.
  set (q0 := [("user_id", Mongo.Is (VStr uid))]).
  assert (H0 : denotes regex Receipt.field q0
                 (fun r => String.eqb (Receipt.user_id r) uid)).
  { eexists. split; [reflexivity|]. intros r. cbn. apply andb_true_r. }
  rewrite with_date_range_opt_set by reflexivity.
  rewrite with_section_opt_set.
  unfold reported.
  apply denotes_opt_set; [apply denotes_opt_set; [exact H0|reflexivity|] | |].
  - apply date_range_clause.
  - rewrite opt_set_get by discriminate. reflexivity.
  - unfold section_ok. destruct (given sec) as [s|]; simpl.
    + eexists. split; [reflexivity|]. intros r. cbn. apply nullable_eqb.
    + reflexivity.
Qed.

Lemma amount_range_clause lo hi :
  match range_cond (option_map VNum lo) (option_map VNum hi) with
  | Some c => exists h, Mongo.compile_cond regex c = inr h
                        /\ forall r, h (Receipt.field r "total") = amount_ok lo hi r
  | None => forall r, amount_ok lo hi r = true
  end.
Proof.
  pose proof (range_cond_sem (option_map VNum lo) (option_map VNum hi)) as R.
  destruct (range_cond _ _) as [c|].
  - destruct R as [h [Hh E]]. exists h. split; [exact Hh|].
    intros r. rewrite E. unfold amount_ok. cbn.
    destruct lo, hi, (Receipt.total r); cbn;
      rewrite ?query_gte_at_least, ?query_lte_at_most; reflexivity.
  - destruct R as [R1 R2]. intros r. unfold amount_ok.
    destruct lo, hi; try discriminate. reflexivity.
Qed.

Lemma equality_clause (get : Receipt.t -> option string) k o :
  (forall r, Receipt.field r k = Some (Receipt.nullable (get r))) ->
  match option_map (fun x => Mongo.Is (VStr x)) (given o) with
  | Some c => exists h, Mongo.compile_cond regex c = inr h
       /\ forall r, h (Receipt.field r k)
                    = match given o with
                      | Some s => option_string_eqb (get r) (Some s)
                      | None => true
                      end
  | None => forall r, match given o with
                      | Some s => option_string_eqb (get r) (Some s)
                      | None => true
                      end = true
  end.
Proof.
  intros F. destruct (given o) as [s|]; simpl; [|reflexivity].
  eexists. split; [reflexivity|]. intros r. rewrite F. cbn. apply nullable_eqb.
Qed.

Lemma search_clause o :
  search_accepted regex o = true ->
  match option_map regex_cond (given o) with
  | Some c => exists h, Mongo.compile_cond regex c = inr h
       /\ forall r, h (Receipt.field r "merchant_name") = search_ok regex o r
  | None => forall r, search_ok regex o r = true
  end.
Proof.
  unfold search_accepted, search_ok. destruct (given o) as [s|]; simpl; [|reflexivity].
  unfold Mongo.compile_op. cbn.
  destruct (regex s "i") as [test|]; [|discriminate]. intros _.
  eexists. split; [reflexivity|]. intros r. cbn. rewrite !andb_true_r.
  destruct (Receipt.merchant_name r); reflexivity.
Qed.

Lemma search_refused o :
  search_accepted regex o = false ->
  exists s, given o = Some s
            /\ Mongo.compile_cond regex (regex_cond s)
               = inl (PyException "OperationFailure").
Proof.
  unfold search_accepted. destruct (given o) as [s|]; [|discriminate].
  intros H. exists s. split; [reflexivity|]. cbn. unfold Mongo.compile_op. cbn.
  destruct (regex s "i"); [discriminate | reflexivity].
Qed.

Lemma owner_denotes uid :
  denotes regex Receipt.field [("user_id", Mongo.Is (VStr uid))]
    (fun r => String.eqb (Receipt.user_id r) uid).
Proof. eexists. split; [reflexivity|]. intros r. cbn. apply andb_true_r. Qed.

Lemma listing_query_steps uid p :
  listing_query uid p =
  opt_set (opt_set (opt_set (opt_set (opt_set [("user_id", Mongo.Is uid)]
    "section" (option_map (fun x => Mongo.Is (VStr x)) (given (section p))))
    "category_id" (option_map (fun x => Mongo.Is (VStr x)) (given (category_id p))))
    "merchant_name" (option_map regex_cond (given (search p))))
    "date" (range_cond (option_map VStr (given (date_from p)))
                       (option_map VStr (given (date_to p)))))
    "total" (range_cond (option_map VNum (amount_min p)) (option_map VNum (amount_max p))).
Proof.
  unfold listing_query.
  rewrite with_section_opt_set.
  rewrite (given_opt_set (fun x => Mongo.Is (VStr x))).
  rewrite (given_opt_set regex_cond).
  rewrite with_date_range_opt_set by (rewrite !opt_set_get by discriminate; reflexivity).
  apply (set_op_range VNum).
  rewrite !opt_set_get by discriminate. reflexivity.
Qed.

Lemma listing_query_denotes uid p :
  search_accepted regex (search p) = true ->
  denotes regex Receipt.field (listing_query (VStr uid) p) (selected regex uid p).
Proof.
  intros M. rewrite listing_query_steps. unfold selected.
  repeat (apply denotes_opt_set;
          [ | rewrite ?opt_set_get by discriminate; reflexivity | ]);
    [apply owner_denotes | | | | |].
  - apply (equality_clause Receipt.section). reflexivity.
  - apply (equality_clause Receipt.category_id). reflexivity.
  - apply search_clause, M.
  - apply date_range_clause.
  - apply amount_range_clause.
Qed.

Lemma listing_query_refused uid p :
  search_accepted regex (search p) = false ->
  Mongo.compile regex Receipt.field (listing_query (VStr uid) p)
  = inl (PyException "OperationFailure").
Proof.
  intros M. rewrite listing_query_steps.
  destruct (search_refused _ M) as [s [G C]]. rewrite G. cbn [option_map].
  do 2 (apply compile_opt_set_refused;
        [ | rewrite ?opt_set_get by discriminate; reflexivity ]).
  cbn [opt_set].
  eapply (refused_set regex Receipt.field _
            (fun r => String.eqb (Receipt.user_id r) uid
                      && section_ok (section p) r && category_ok (category_id p) r)).
  - repeat (apply denotes_opt_set;
            [ | rewrite ?opt_set_get by discriminate; reflexivity | ]).
    + apply owner_denotes.
    + apply (equality_clause Receipt.section). reflexivity.
    + apply (equality_clause Receipt.category_id). reflexivity.
  - rewrite !opt_set_get by discriminate. reflexivity.
  - exact C.
Qed.

End Clauses.

(* ===================================================================== *)
(** ** Sorted pages *)
(* ===================================================================== *)

Section MoreSorting.
Context {D : Type} (field : D -> string -> option value) (spec : Mongo.sort_spec).

Lemma insert_perm x l : Permutation (Mongo.insert field spec x l) (x :: l).
Proof.
  induction l as [|y l IH]; simpl; [reflexivity|].
  destruct (Mongo.before field spec x y); [reflexivity|].
  rewrite IH. apply perm_swap.
Qed.

Lemma sort_by_perm l : Permutation (Mongo.sort_by field spec l) l.
Proof.
  induction l as [|x l IH]; simpl; [reflexivity|].
  rewrite insert_perm. apply perm_skip, IH.
Qed.
End MoreSorting.

Lemma StronglySorted_impl {A} (R R' : A -> A -> Prop) l :
  (forall a b, R a b -> R' a b) -> StronglySorted R l -> StronglySorted R' l.
Proof.
  intros I. induction 1 as [|a l S IH F]; constructor; [exact IH|].
  eapply Forall_impl; [|exact F]. intros b. apply I.
Qed.

Lemma StronglySorted_map {A B} (f : A -> B) (R : B -> B -> Prop) l :
  StronglySorted (fun a b => R (f a) (f b)) l -> StronglySorted R (map f l).
Proof.
  induction 1 as [|a l S IH F]; simpl; constructor; [exact IH|].
  rewrite Forall_map. exact F.
Qed.

Lemma in_firstn {A} n (l : list A) x : In x (firstn n l) -> In x l.
Proof. intros H. rewrite <- (firstn_skipn n l). apply in_or_app. left. exact H. Qed.

Lemma in_skipn {A} n (l : list A) x : In x (skipn n l) -> In x l.
Proof. intros H. rewrite <- (firstn_skipn n l). apply in_or_app. right. exact H. Qed.

Lemma StronglySorted_firstn {A} (R : A -> A -> Prop) n l :
  StronglySorted R l -> StronglySorted R (firstn n l).
Proof.
  intros S. revert n. induction S as [|a l S IH F]; intros [|n]; simpl; try constructor.
  - apply IH.
  - rewrite Forall_forall in *. intros x Hx. apply F.
    eapply in_firstn; eauto.
Qed.

Lemma StronglySorted_skipn {A} (R : A -> A -> Prop) n l :
  StronglySorted R l -> StronglySorted R (skipn n l).
Proof.
  intros S. revert n. induction S as [|a l S IH F]; intros [|n]; simpl;
    try constructor; auto.
Qed.

Lemma before_date_desc a b :
  Mongo.before Receipt.field [("date", -1)] a b = true <-> date_descending a b.
Proof.
  unfold date_descending, date_leb. cbn.
  destruct (Receipt.date a) as [x|], (Receipt.date b) as [y|]; cbn;
    try (split; [reflexivity | reflexivity]); try (split; discriminate).
  destruct (String.leb y x); [|split; discriminate].
  destruct (String.leb x y); tauto.
Qed.

Lemma filter_denotes {D} regex (field : D -> string -> option value) q g f l :
  denotes regex field q g -> Mongo.compile regex field q = inr f ->
  filter f l = filter g l.
Proof.
  intros [f' [E H]] C. rewrite C in E. injection E as <-. apply filter_ext. exact H.
Qed.

Section Listing.
Variable regex : Regex.engine.
Variable fromisoformat : string -> option datetime.

(** The page the listing cuts out of the documents a query delivers. *)
Lemma listing_page (docs : list Receipt.t) sk lm :
  0 <= sk -> 0 <= lm ->
  firstn (Z.to_nat lm)
    (map Receipt.without_image
       (if lm =? 0 then skipn (Z.to_nat sk) docs
        else firstn (Z.to_nat (Z.abs lm)) (skipn (Z.to_nat sk) docs)))
  = map Receipt.without_image (firstn (Z.to_nat lm) (skipn (Z.to_nat sk) docs)).
Proof.
  intros Hs Hl. rewrite firstn_map. f_equal.
  destruct (Z.eqb_spec lm 0) as [->|N]; [reflexivity|].
  rewrite Z.abs_eq by lia. rewrite firstn_firstn, Nat.min_id. reflexivity.
Qed.

(** What the listing does, case by case. *)
Lemma get_receipts_run request clock p db user uid :
  fst (get_current_user fromisoformat request clock db) = inr user ->
  dict_get user "user_id" = Some (VStr uid) ->
  let sk := match skip p with Some n => n | None => 0 end in
  let lm := match limit p with Some n => n | None => 50 end in
  fst (get_receipts regex fromisoformat request clock p db) =
  if sk <? 0 then inl (PyException "ValueError")
  else if lm <? 0 then inl (PyException "ValueError")
  else if (Mongo.max_int64 <? sk) || (Mongo.max_int64 <? lm)
  then inl (PyException "OverflowError")
  else if search_accepted regex (search p)
  then inr (mk_listing
              (map Receipt.without_image
                 (firstn (Z.to_nat lm)
                    (skipn (Z.to_nat sk)
                       (Mongo.sort_by Receipt.field [("date", -1)]
                          (filter (selected regex uid p) (Db.receipts db))))))
              (Z.of_nat (List.length (filter (selected regex uid p) (Db.receipts db)))))
  else inl (PyException "OperationFailure").
Proof.
  intros G U sk lm. apply get_current_user_ok in G. destruct G as [G _].
  unfold get_receipts, bind. rewrite G. unfold dict_index. rewrite U.
  unfold ret, lift, query_db, Mongo.skip. fold sk lm. cbn [fst snd].
  destruct (Z.ltb_spec sk 0) as [Hs|Hs]; [reflexivity|].
  unfold Mongo.to_list, Mongo.run, Mongo.limit, Mongo.sort, Mongo.find,
    Mongo.count_documents. cbn [Mongo.c_filter Mongo.c_sort Mongo.c_skip Mongo.c_limit
    Mongo.c_projection].
  destruct (Z.ltb_spec lm 0) as [Hl|Hl]; [reflexivity|].
  rewrite (Z.abs_eq lm) by exact Hl.
  destruct ((Mongo.max_int64 <? sk) || (Mongo.max_int64 <? lm)); [reflexivity|].
  destruct (search_accepted regex (search p)) eqn:M.
  - pose proof (listing_query_denotes regex uid p M) as Dn.
    destruct Dn as [f [C Hf]]. rewrite C. cbn [fst snd].
    rewrite (filter_ext _ _ Hf).
    rewrite <- (Z.abs_eq lm) at 3 by exact Hl.
    rewrite listing_page by assumption. reflexivity.
  - rewrite (listing_query_refused regex uid p M). reflexivity.
Qed.
End Listing.

(* ===================================================================== *)
(** ** Literal search *)
(* ===================================================================== *)

(** Under an engine that gives the fragment its meaning, a search string
    without metacharacters is looked for as it stands. *)
Lemma search_ok_plain caseless regex s r :
  implements caseless regex ->
  plain s = true ->
  search_ok regex (Some s) r = true
  <-> s = "" \/ merchant_contains caseless s (Receipt.merchant_name r).
Proof.
  intros I P. unfold search_ok, given, merchant_contains.
  destruct s as [|c s]; cbn [Py.truthy].
  - split; auto.
  - destruct (I _ _ (compile_plain _ P)) as (test & -> & T).
    destruct (Receipt.merchant_name r) as [m|].
    + rewrite T, test_plain by exact P. split.
      * intros H. right. exists m. auto.
      * intros [H|(m' & E & H)]; [discriminate|]. injection E as <-. exact H.
    + split; [discriminate|]. intros [H|(m' & E & _)]; discriminate.
Qed.

(* ===================================================================== *)
(** ** Grouping *)
(* ===================================================================== *)

Section Grouping.
Context {D K : Type} (eqb : K -> K -> bool) (key : D -> K).
Hypothesis eqb_eq : forall a b, eqb a b = true <-> a = b.

Lemma distinct_In (l : list K) k : In k (Mongo.distinct eqb l) <-> In k l.
Proof.
  induction l as [|a l IH]; simpl; [tauto|].
  rewrite filter_In, IH. split.
  - intros [E|[H _]]; auto.
  - intros [E|H]; [left; exact E|].
    destruct (eqb a k) eqn:E; [left; apply eqb_eq; exact E|].
    right. split; [exact H | reflexivity].
Qed.

Lemma distinct_NoDup (l : list K) : NoDup (Mongo.distinct eqb l).
Proof.
  induction l as [|a l IH]; simpl; constructor.
  - rewrite filter_In. intros [_ H].
    rewrite (proj2 (eqb_eq a a) eq_refl) in H. discriminate.
  - apply NoDup_filter, IH.
Qed.

Lemma group_keys docs :
  map fst (Mongo.group eqb key docs) = Mongo.distinct eqb (map key docs).
Proof. unfold Mongo.group. rewrite map_map. simpl. apply map_id. Qed.

Lemma group_In docs b :
  In b (Mongo.group eqb key docs) <->
  In (fst b) (map key docs)
  /\ snd b = filter (fun d => eqb (key d) (fst b)) docs.
Proof.
  unfold Mongo.group. rewrite in_map_iff. split.
  - intros [k [<- H]]. simpl. split; [apply distinct_In, H | reflexivity].
  - intros [H E]. exists (fst b). split; [|apply distinct_In, H].
    destruct b; simpl in *; congruence.
Qed.

Lemma group_nonempty docs b : In b (Mongo.group eqb key docs) -> snd b <> [].
Proof.
  intros H. apply group_In in H. destruct H as [H E]. rewrite E.
  apply in_map_iff in H. destruct H as [d [Hd Hin]].
  intros N. assert (I : In d (filter (fun d => eqb (key d) (fst b)) docs)).
  { apply filter_In. split; [exact Hin | apply eqb_eq; exact Hd]. }
  rewrite N in I. exact I.
Qed.

Lemma bucket_size_cons d docs k :
  Z.of_nat (List.length (filter (fun x => eqb (key x) k) (d :: docs)))
  = (if eqb (key d) k then 1 else 0)
    + Z.of_nat (List.length (filter (fun x => eqb (key x) k) docs)).
Proof. cbn [filter]. destruct (eqb (key d) k); cbn [List.length]; lia. Qed.

Lemma indicator_sum (a : K) ks :
  NoDup ks ->
  sum_Z (map (fun k => if eqb a k then 1 else 0) ks) = if existsb (eqb a) ks then 1 else 0.
Proof.
  induction 1 as [|k ks Hn Hd IH]; [reflexivity|]. cbn [map sum_Z fold_right existsb].
  fold (sum_Z (map (fun k => if eqb a k then 1 else 0) ks)). rewrite IH.
  destruct (eqb a k) eqn:E; [|reflexivity].
  apply eqb_eq in E. subst k.
  destruct (existsb (eqb a) ks) eqn:X; [|reflexivity].
  apply existsb_exists in X. destruct X as [x [Hx Ex]].
  apply eqb_eq in Ex. subst x. contradiction.
Qed.

Lemma sum_Z_map_add {A} (f g : A -> Z) l :
  sum_Z (map (fun x => f x + g x) l) = sum_Z (map f l) + sum_Z (map g l).
Proof. induction l; simpl; lia. Qed.

(** The buckets of distinct keys that cover the documents partition
    them. *)
Lemma buckets_partition (ks : list K) docs :
  NoDup ks -> (forall d, In d docs -> In (key d) ks) ->
  sum_Z (map (fun k => Z.of_nat (List.length (filter (fun d => eqb (key d) k) docs))) ks)
  = Z.of_nat (List.length docs).
Proof.
  intros N. induction docs as [|d docs IH]; intros C.
  - clear C. induction ks as [|k ks IHk]; [reflexivity|].
    inversion N; subst. cbn. apply IHk. assumption.
  - specialize (IH (fun x Hx => C x (or_intror Hx))).
    assert (Hd : In (key d) ks) by (apply C; left; reflexivity).
    rewrite (map_ext _ _ (bucket_size_cons d docs)).
    rewrite sum_Z_map_add, IH, (indicator_sum _ _ N).
    assert (X : existsb (eqb (key d)) ks = true).
    { apply existsb_exists. exists (key d). split; [exact Hd | apply eqb_eq; reflexivity]. }
    rewrite X. cbn [List.length]. lia.
Qed.

Lemma group_partition docs :
  sum_Z (map (fun b => Mongo.count (snd b)) (Mongo.group eqb key docs))
  = Z.of_nat (List.length docs).
Proof.
  unfold Mongo.group. rewrite map_map. cbn [snd]. unfold Mongo.count.
  apply buckets_partition; [apply distinct_NoDup|].
  intros d Hd. apply distinct_In, in_map, Hd.
Qed.
End Grouping.

Lemma option_string_eqb_eq a b : option_string_eqb a b = true <-> a = b.
Proof.
  destruct a, b; simpl; try (split; congruence).
  rewrite String.eqb_eq. split; congruence.
Qed.

Lemma section_category_eqb_eq a b : section_category_eqb a b = true <-> a = b.
Proof.
  unfold section_category_eqb. rewrite andb_true_iff, !option_string_eqb_eq.
  destruct a, b; simpl. split; [intros [-> ->]; reflexivity | intros H; injection H; auto].
Qed.

Lemma sum_Z_perm l l' : Permutation l l' -> sum_Z l = sum_Z l'.
Proof. induction 1; simpl; lia. Qed.

Lemma sum_Z_app l l' : sum_Z (l ++ l') = sum_Z l + sum_Z l'.
Proof. induction l; simpl; lia. Qed.

(** The window of the dashboard as a query. *)
Lemma window_query_denotes regex uid from to :
  denotes regex Receipt.field
    [("user_id", Mongo.Is (VStr uid));
     ("date", Mongo.Ops [("$gte", Mongo.AVal (VStr from));
                         ("$lte", Mongo.AVal (VStr to))])]
    (in_window uid from to).
Proof.
  eexists. split; [reflexivity|]. intros r. unfold in_window. cbn.
  rewrite !andb_true_r. destruct (Receipt.date r); cbn; [reflexivity|].
  rewrite andb_false_r. reflexivity.
Qed.

Lemma match_stage_denotes {D} regex (field : D -> string -> option value) q g docs :
  denotes regex field q g -> Mongo.match_stage regex field q docs = inr (filter g docs).
Proof.
  intros [f [C H]]. unfold Mongo.match_stage. rewrite C. f_equal. apply filter_ext, H.
Qed.

Lemma group_all {D} (docs : list D) :
  Mongo.group (fun _ _ => true) (fun _ => tt) docs
  = match docs with [] => [] | _ :: _ => [(tt, docs)] end.
Proof.
  unfold Mongo.group. destruct docs as [|d docs]; [reflexivity|].
  cbn [map Mongo.distinct].
  assert (E : forall l : list unit, filter (fun _ => negb true) l = []).
  { induction l; simpl; auto. }
  rewrite E. cbn [map filter]. f_equal. f_equal. f_equal.
  clear. induction docs; simpl; congruence.
Qed.

Lemma window_pipeline_run regex uid from to coll :
  window_pipeline regex (VStr uid) from to coll
  = inr (window_rows (filter (in_window uid from to) coll)).
Proof.
  unfold window_pipeline.
  rewrite (match_stage_denotes _ _ _ _ _ (window_query_denotes regex uid from to)).
  rewrite group_all. destruct (filter _ coll); reflexivity.
Qed.

Lemma grouped_pipeline_run {K} regex (eqb : K -> K -> bool) key uid from to coll :
  grouped_pipeline regex eqb key (VStr uid) from to coll
  = inr (map (fun b => GroupRow.mk (fst b) (Mongo.sum (map Receipt.total (snd b)))
                         (Mongo.count (snd b)))
             (Mongo.group eqb key (filter (in_window uid from to) coll))).
Proof.
  unfold grouped_pipeline.
  rewrite (match_stage_denotes _ _ _ _ _ (window_query_denotes regex uid from to)).
  reflexivity.
Qed.

Lemma resolve_names_ok regex ids n coll :
  0 <= n -> exists m, resolve_names regex ids n coll = inr m.
Proof.
  intros Hn. unfold resolve_names, Mongo.to_list, Mongo.run, Mongo.find.
  destruct (Z.ltb_spec n 0); [lia|]. cbn. eexists. reflexivity.
Qed.

Lemma recent_ok regex uid coll :
  exists rs,
    Mongo.to_list regex Receipt.field coll
      (Mongo.limit
         (Mongo.sort (Mongo.find [("user_id", Mongo.Is (VStr uid))] Receipt.without_image)
                     "created_at" (-1)) 10) 10 = inr rs.
Proof.
  unfold Mongo.to_list, Mongo.run, Mongo.find, Mongo.sort, Mongo.limit. cbn.
  eexists. reflexivity.
Qed.

(* ===================================================================== *)
(** ** The dashboard pipelines *)
(* ===================================================================== *)

Section DashboardRun.
Variable regex : Regex.engine.
Variable fromisoformat : string -> option datetime.

Lemma get_dashboard_summary_run request auth_clock clock db user uid :
  fst (get_current_user fromisoformat request auth_clock db) = inr user ->
  dict_get user "user_id" = Some (VStr uid) ->
  exists sections cat_map recent,
    fst (get_dashboard_summary regex fromisoformat request auth_clock clock db)
    = inr (Dashboard.mk
             (window_totals
                (filter (in_window uid (month_start clock) (today clock)) (Db.receipts db)))
             (window_totals (year_to_date uid clock db))
             sections
             (flat_map (category_entry cat_map) (firstn 10 (category_rows uid clock db)))
             recent).
Proof.
  intros G U. apply get_current_user_ok in G. destruct G as [G _].
  unfold get_dashboard_summary, bind. rewrite G. unfold dict_index. rewrite U.
  unfold ret, query_db. cbn [fst snd].
  fold (today clock) (month_start clock) (year_start clock).
  rewrite !window_pipeline_run, !grouped_pipeline_run.
  fold (year_to_date uid clock db). fold (category_rows uid clock db).
  unfold Mongo.limit_stage, Mongo.rows_to_list.
  rewrite firstn_firstn. change (Init.Nat.min (Z.to_nat 10) (Z.to_nat 10)) with 10%nat.
  match goal with |- context [resolve_names regex ?ids 100 ?c] =>
    destruct (resolve_names_ok regex ids 100 c) as [cat_map ->]; [lia|] end.
  destruct (recent_ok regex uid (Db.receipts db)) as [recent ->].
  assert (W : forall docs, window_data (firstn (Z.to_nat 1) (window_rows docs))
                           = window_totals docs).
  { intros [|d docs]; reflexivity. }
  rewrite !W.
  destruct (Mongo.distinct String.eqb (truthy_ids (map Receipt.category_id recent)))
    as [|i ids].
  - cbn [fst snd]. eexists _, cat_map, _. reflexivity.
  - match goal with |- context [resolve_names regex ?ids 100 ?c] =>
      destruct (resolve_names_ok regex ids 100 c) as [m ->]; [lia|] end.
    cbn [fst snd]. eexists _, cat_map, _. reflexivity.
Qed.
End DashboardRun.

(* ===================================================================== *)
(** ** The category breakdown *)
(* ===================================================================== *)

Lemma StronglySorted_app_inv {A} (R : A -> A -> Prop) l1 l2 :
  StronglySorted R (l1 ++ l2) -> forall x y, In x l1 -> In y l2 -> R x y.
Proof.
  induction l1 as [|a l1 IH]; simpl; intros S x y Hx Hy; [destruct Hx|].
  inversion S as [|? ? S' F]; subst. destruct Hx as [<-|Hx].
  - rewrite Forall_forall in F. apply F, in_or_app. right. exact Hy.
  - eapply IH; eauto.
Qed.

Lemma StronglySorted_impl_In {A} (R R' : A -> A -> Prop) l :
  (forall a b, In a l -> In b l -> R a b -> R' a b) ->
  StronglySorted R l -> StronglySorted R' l.
Proof.
  intros I S. induction S as [|a l S IH F]; constructor.
  - apply IH. intros x y Hx Hy. apply I; right; assumption.
  - rewrite Forall_forall in *. intros b Hb.
    apply I; [left; reflexivity | right; exact Hb | apply F, Hb].
Qed.

Lemma truthy_nonempty k : Py.truthy k = true <-> k <> "".
Proof. destruct k; simpl; split; congruence. Qed.

Lemma before_total_desc {K} (idf : K -> string -> option value) (a b : GroupRow.t K) :
  Mongo.before (GroupRow.field idf) [("total", -1)] a b = true
  <-> sort_leb (to_float (GroupRow.total b)) (to_float (GroupRow.total a)) = true.
Proof.
  cbn. destruct (sort_leb (to_float (GroupRow.total b)) (to_float (GroupRow.total a))); [|split;
      discriminate].
  destruct (sort_leb (to_float (GroupRow.total a)) (to_float (GroupRow.total b))); tauto.
Qed.

Section Breakdown.
Variable cat_map : pydict string.
Implicit Types (c : GroupRow.t (option string)) (e : CategoryEntry.t).

Lemma category_entry_In c e :
  In e (category_entry cat_map c) <->
  exists k, GroupRow._id c = Some k /\ k <> ""
            /\ e = CategoryEntry.mk k (dict_get_default cat_map k "Unknown")
                     (GroupRow.total c) (GroupRow.count c).
Proof.
  unfold category_entry. destruct (GroupRow._id c) as [k|].
  - destruct (Py.truthy k) eqn:T.
    + simpl. split.
      * intros [<-|[]]. exists k. repeat split. apply truthy_nonempty, T.
      * intros [k' [E [_ ->]]]. injection E as <-. left. reflexivity.
    + split; [intros []|]. intros [k' [E [N _]]]. injection E as <-.
      apply truthy_nonempty in N. congruence.
  - split; [intros []|]. intros [k' [E _]]. discriminate.
Qed.

Lemma category_entries_In l e :
  In e (flat_map (category_entry cat_map) l) <->
  exists c k, In c l /\ GroupRow._id c = Some k /\ k <> ""
              /\ e = CategoryEntry.mk k (dict_get_default cat_map k "Unknown")
                       (GroupRow.total c) (GroupRow.count c).
Proof.
  rewrite in_flat_map. split.
  - intros [c [Hc He]]. apply category_entry_In in He.
    destruct He as [k He]. exists c, k. tauto.
  - intros [c [k [Hc He]]]. exists c. split; [exact Hc|].
    apply category_entry_In. exists k. exact He.
Qed.

Lemma category_entries_length l :
  (List.length (flat_map (category_entry cat_map) l) <= List.length l)%nat.
Proof.
  induction l as [|c l IH]; simpl; [lia|]. rewrite length_app.
  assert (List.length (category_entry cat_map c) <= 1)%nat.
  { unfold category_entry. destruct (GroupRow._id c) as [k|]; [|simpl; lia].
    destruct (Py.truthy k); simpl; lia. }
  lia.
Qed.

Lemma category_entries_sorted l :
  StronglySorted (fun a b => sort_leb (to_float (GroupRow.total b)) (to_float (GroupRow.total a))
      = true) l ->
  StronglySorted total_descending (flat_map (category_entry cat_map) l).
Proof.
  induction 1 as [|c l S IH F]; simpl; [constructor|].
  assert (T : Forall (fun e => forall e', In e' (category_entry cat_map c) ->
                                          total_descending e' e)
                (flat_map (category_entry cat_map) l)).
  { rewrite Forall_forall. intros e He e' He'.
    apply category_entries_In in He. destruct He as [c2 [k2 [Hc2 [_ [_ ->]]]]].
    apply category_entry_In in He'. destruct He' as [k1 [_ [_ ->]]].
    unfold total_descending. simpl. rewrite Forall_forall in F. apply F, Hc2. }
  unfold category_entry at 1.
  destruct (GroupRow._id c) as [k|] eqn:I; [|exact IH].
  destruct (Py.truthy k) eqn:Tk; [|exact IH].
  simpl. constructor; [exact IH|].
  eapply Forall_impl; [|exact T]. intros e He. apply He.
  unfold category_entry. rewrite I, Tk. left. reflexivity.
Qed.

Lemma category_entries_NoDup l :
  NoDup (map (@GroupRow._id _) l) ->
  NoDup (map CategoryEntry.category_id (flat_map (category_entry cat_map) l)).
Proof.
  induction l as [|c l IH]; simpl; intros N; [constructor|].
  inversion N as [|? ? Hn N']; subst. rewrite map_app.
  specialize (IH N').
  unfold category_entry at 1.
  destruct (GroupRow._id c) as [k|] eqn:I; [|exact IH].
  destruct (Py.truthy k); [|exact IH].
  simpl. constructor; [|exact IH].
  intros H. apply in_map_iff in H. destruct H as [e [Ee He]].
  apply category_entries_In in He. destruct He as [c2 [k2 [Hc2 [I2 [_ ->]]]]].
  simpl in Ee. subst k2. apply Hn. apply in_map_iff. exists c2. split; [exact I2 | exact Hc2].
Qed.

Lemma category_entries_ids l :
  map CategoryEntry.category_id (flat_map (category_entry cat_map) l)
  = truthy_ids (map (@GroupRow._id _) l).
Proof.
  induction l as [|c l IH]; [reflexivity|].
  cbn [flat_map map truthy_ids]. fold (truthy_ids (map (@GroupRow._id _) l)).
  rewrite map_app, IH. f_equal. unfold category_entry.
  destruct (GroupRow._id c) as [k|]; [|reflexivity].
  destruct (Py.truthy k); reflexivity.
Qed.

Lemma category_entries_all l :
  Forall (fun c => exists k, GroupRow._id c = Some k /\ k <> "") l ->
  List.length (flat_map (category_entry cat_map) l) = List.length l.
Proof.
  induction 1 as [|c l [k [I N]] F IH]; simpl; [reflexivity|].
  rewrite length_app, IH. unfold category_entry. rewrite I.
  apply truthy_nonempty in N. rewrite N. reflexivity.
Qed.
End Breakdown.

(** The rows of the category pipeline, one per category of the window. *)
Lemma category_rows_spec uid clock db :
  let ytd := year_to_date uid clock db in
  let rows := category_rows uid clock db in
  (forall c, In c rows <->
     In (GroupRow._id c) (map Receipt.category_id ytd)
     /\ GroupRow.total c = Mongo.sum (map Receipt.total (of_category (GroupRow._id c) ytd))
     /\ GroupRow.count c = Z.of_nat (List.length (of_category (GroupRow._id c) ytd)))
  /\ NoDup (map (@GroupRow._id _) rows)
  /\ List.length rows
     = List.length (Mongo.distinct option_string_eqb (map Receipt.category_id ytd))
  /\ StronglySorted
       (fun a b => sort_leb (to_float (GroupRow.total b)) (to_float (GroupRow.total a))
                   = true) rows.
Proof.
  intros ytd rows. unfold rows, category_rows. fold ytd.
  set (mk := fun b : option string * list Receipt.t =>
               GroupRow.mk (fst b) (Mongo.sum (map Receipt.total (snd b)))
                 (Mongo.count (snd b))).
  set (g := Mongo.group option_string_eqb Receipt.category_id ytd).
  set (fld := GroupRow.field (fun (_ : option string) (_ : string) => @None value)).
  split; [|split; [|split]].
  - intros c. rewrite sort_by_In, in_map_iff. split.
    + intros [b [<- Hb]].
      apply (group_In _ _ option_string_eqb_eq) in Hb. destruct Hb as [Hk Hs].
      unfold mk; simpl. rewrite Hs. unfold of_category, Mongo.count. auto.
    + intros [Hk [Ht Hc]].
      exists (GroupRow._id c, of_category (GroupRow._id c) ytd). split.
      * unfold mk; simpl. destruct c; simpl in *. unfold Mongo.count. congruence.
      * apply (group_In _ _ option_string_eqb_eq). simpl. split; [exact Hk | reflexivity].
  - eapply Permutation_NoDup.
    + apply Permutation_map. symmetry. apply sort_by_perm.
    + rewrite map_map. change (fun x => GroupRow._id (mk x)) with
        (fun x : option string * list Receipt.t => fst x).
      unfold g. rewrite group_keys. apply distinct_NoDup, option_string_eqb_eq.
  - rewrite sort_by_length, length_map. unfold g.
    rewrite <- (group_keys option_string_eqb Receipt.category_id ytd), length_map.
    reflexivity.
  - eapply StronglySorted_impl; [|apply sort_by_sorted].
    intros a b. apply before_total_desc.
Qed.

Lemma filter_none {A} (f : A -> bool) l :
  (forall x, In x l -> f x = false) -> filter f l = [].
Proof.
  induction l as [|a l IH]; intros H; [reflexivity|].
  simpl. rewrite (H a (or_introl eq_refl)). apply IH.
  intros x Hx. apply H. right. exact Hx.
Qed.

(* ===================================================================== *)
(** ** The tax summary loop *)
(* ===================================================================== *)

Section TaxFold.
Variable cat_map : pydict string.

Lemma tax_summary_fold rows : forall ep eb tp tb,
  fold_left (tax_summary_step cat_map) rows
    ([("personal", ep); ("business", eb)], [("personal", tp); ("business", tb)])
  = ([("personal", (ep ++ map (summary_entry cat_map) (rows_of "personal" rows))%list);
      ("business", (eb ++ map (summary_entry cat_map) (rows_of "business" rows))%list)],
     [("personal", fold_left add_row (rows_of "personal" rows) tp);
      ("business", fold_left add_row (rows_of "business" rows) tb)]).
Proof.
  induction rows as [|r rows IH]; intros ep eb tp tb.
  - simpl. rewrite !app_nil_r. reflexivity.
  - cbn [fold_left]. unfold tax_summary_step at 2, rows_of. cbn [filter].
    fold (rows_of "personal" rows) (rows_of "business" rows).
    destruct (fst (TaxRow._id r)) as [s|]; [|apply IH].
    cbn [option_string_eqb dict_get].
    destruct (String.eqb_spec "personal" s) as [<-|Np].
    + cbn [dict_set String.eqb Ascii.eqb Bool.eqb]. rewrite IH. cbn [map fold_left].
      rewrite <- app_assoc. reflexivity.
    + destruct (String.eqb_spec "business" s) as [<-|Nb].
      * cbn [dict_set String.eqb Ascii.eqb Bool.eqb]. rewrite IH.
        cbn [map fold_left]. rewrite <- app_assoc. reflexivity.
      * rewrite IH.
        destruct (String.eqb_spec s "personal"); [congruence|].
        destruct (String.eqb_spec s "business"); [congruence|]. reflexivity.
Qed.

Lemma add_rows_totals rs : forall t,
  Totals.total (fold_left add_row rs t)
  = fold_left py_add (map SummaryEntry.total (map (summary_entry cat_map) rs))
      (Totals.total t)
  /\ Totals.tax (fold_left add_row rs t)
     = fold_left py_add (map SummaryEntry.tax (map (summary_entry cat_map) rs))
         (Totals.tax t)
  /\ Totals.count (fold_left add_row rs t)
     = Totals.count t + sum_Z (map SummaryEntry.count (map (summary_entry cat_map) rs)).
Proof.
  induction rs as [|r rs IH]; intros t; simpl.
  - repeat split. lia.
  - destruct (IH (add_row t r)) as [H1 [H2 H3]]. rewrite H1, H2, H3.
    repeat split. simpl. lia.
Qed.
End TaxFold.

Section TaxRun.
Variable regex : Regex.engine.
Variable fromisoformat : string -> option datetime.

Lemma get_tax_summary_run request clock db user uid df dt sec :
  fst (get_current_user fromisoformat request clock db) = inr user ->
  dict_get user "user_id" = Some (VStr uid) ->
  let results :=
    firstn 200 (tax_rows (filter (reported uid df dt sec) (Db.receipts db))) in
  exists cat_map,
    fst (get_tax_summary regex fromisoformat request clock df dt sec db)
    = inr (TaxSummary.mk
             [("personal", map (summary_entry cat_map) (rows_of "personal" results));
              ("business", map (summary_entry cat_map) (rows_of "business" results))]
             [("personal", fold_left add_row (rows_of "personal" results)
                             (Totals.mk (NInt 0) (NInt 0) 0));
              ("business", fold_left add_row (rows_of "business" results)
                             (Totals.mk (NInt 0) (NInt 0) 0))]).
Proof.
  intros G U results. apply get_current_user_ok in G. destruct G as [G _].
  unfold get_tax_summary, bind. rewrite G. unfold dict_index. rewrite U.
  unfold ret, query_db. cbn [fst snd].
  rewrite (match_stage_denotes _ _ _ _ _ (report_query_denotes regex uid df dt sec)).
  fold (tax_rows (filter (reported uid df dt sec) (Db.receipts db))).
  unfold Mongo.rows_to_list. change (Z.to_nat 200) with 200%nat. fold results.
  match goal with |- context [resolve_names regex ?ids 200 ?c] =>
    destruct (resolve_names_ok regex ids 200 c) as [cat_map ->]; [lia|] end.
  exists cat_map. rewrite tax_summary_fold. reflexivity.
Qed.
End TaxRun.

Lemma tax_rows_spec matched :
  (forall r, In r (tax_rows matched) <->
     let bucket := filter (fun d => section_category_eqb (section_category d) (TaxRow._id r))
                          matched in
     In (TaxRow._id r) (map section_category matched)
     /\ TaxRow.total r = Mongo.sum (map Receipt.total bucket)
     /\ TaxRow.tax r = Mongo.sum (map Receipt.tax bucket)
     /\ TaxRow.count r = Z.of_nat (List.length bucket))
  /\ List.length (tax_rows matched)
     = List.length (Mongo.distinct section_category_eqb (map section_category matched))
  /\ sum_Z (map (@TaxRow.count _) (tax_rows matched)) = Z.of_nat (List.length matched).
Proof.
  unfold tax_rows.
  set (mk := fun b : (option string * option string) * list Receipt.t =>
               TaxRow.mk (fst b) (Mongo.sum (map Receipt.total (snd b)))
                 (Mongo.sum (map Receipt.tax (snd b))) (Mongo.count (snd b))).
  split; [|split].
  - intros r. rewrite sort_by_In, in_map_iff. cbv zeta. split.
    + intros [b [<- Hb]].
      apply (group_In _ _ section_category_eqb_eq) in Hb. destruct Hb as [Hk Hs].
      unfold mk; simpl. rewrite Hs. unfold Mongo.count. auto.
    + intros [Hk [Ht [Hx Hc]]].
      exists (TaxRow._id r,
              filter (fun d => section_category_eqb (section_category d) (TaxRow._id r))
                     matched).
      split.
      * unfold mk; simpl. destruct r; simpl in *. unfold Mongo.count. congruence.
      * apply (group_In _ _ section_category_eqb_eq). simpl. split; [exact Hk | reflexivity].
  - rewrite sort_by_length, length_map.
    rewrite <- (group_keys section_category_eqb section_category matched), length_map.
    reflexivity.
  - rewrite (sum_Z_perm _ _ (Permutation_map _ (sort_by_perm _ _ _))).
    rewrite map_map. unfold mk. cbn [TaxRow.count].
    apply group_partition. apply section_category_eqb_eq.
Qed.

Lemma rows_of_In sec rows r :
  In r (rows_of sec rows) <-> In r rows /\ fst (TaxRow._id r) = Some sec.
Proof. unfold rows_of. rewrite filter_In, option_string_eqb_eq. tauto. Qed.

Lemma section_bucket sec (r : TaxRow.t (option string * option string)) matched :
  fst (TaxRow._id r) = Some sec ->
  filter (fun d => section_category_eqb (section_category d) (TaxRow._id r)) matched
  = of_section_category sec (snd (TaxRow._id r)) matched.
Proof.
  intros E. unfold of_section_category. apply filter_ext. intros d.
  unfold section_category_eqb, section_category. cbn [fst snd]. rewrite E. reflexivity.
Qed.

Lemma entries_from_rows cat_map sec matched n :
  entries_from sec matched
    (map (summary_entry cat_map) (rows_of sec (firstn n (tax_rows matched)))).
Proof.
  unfold entries_from. rewrite Forall_map, Forall_forall. intros r Hr.
  apply rows_of_In in Hr. destruct Hr as [Hr Es]. apply in_firstn in Hr.
  apply (proj1 (tax_rows_spec matched)) in Hr. cbv zeta in Hr.
  rewrite (section_bucket sec r matched Es) in Hr. destruct Hr as [Hk [Ht [Hx Hc]]].
  cbn. repeat split; auto.
  apply in_map_iff in Hk. destruct Hk as [d [Ed Hd]]. intros Z.
  assert (X : In d (of_section_category sec (snd (TaxRow._id r)) matched)).
  { apply filter_In. split; [exact Hd|].
    unfold section_category in Ed. rewrite <- Ed in Es |- *. cbn [fst snd] in *.
    rewrite Es. cbn. rewrite String.eqb_refl. apply option_string_eqb_eq. reflexivity. }
  rewrite Z in X. exact X.
Qed.

Lemma totals_of_rows cat_map rs :
  totals_of (map (summary_entry cat_map) rs)
            (fold_left add_row rs (Totals.mk (NInt 0) (NInt 0) 0)).
Proof.
  destruct (add_rows_totals cat_map rs (Totals.mk (NInt 0) (NInt 0) 0)) as [H1 [H2 H3]].
  unfold totals_of. rewrite H1, H2, H3. repeat split.
Qed.

Lemma sum_Z_split {A} (f : A -> Z) (p q : A -> bool) l :
  (forall x, In x l -> (p x = true /\ q x = false) \/ (p x = false /\ q x = true)) ->
  sum_Z (map f (filter p l)) + sum_Z (map f (filter q l)) = sum_Z (map f l).
Proof.
  induction l as [|a l IH]; intros H; [reflexivity|].
  specialize (IH (fun x Hx => H x (or_intror Hx))).
  destruct (H a (or_introl eq_refl)) as [[Hp Hq]|[Hp Hq]];
    cbn [filter]; rewrite Hp, Hq; simpl; lia.
Qed.

(* ===================================================================== *)
(** ** The export *)
(* ===================================================================== *)

Lemma append_nil_r s : s ++ "" = s.
Proof. induction s as [|c s IH]; [reflexivity|]. cbn. rewrite IH. reflexivity. Qed.

Lemma append_assoc a b c : (a ++ b) ++ c = a ++ (b ++ c).
Proof. induction a as [|x a IH]; [reflexivity|]. cbn. rewrite IH. reflexivity. Qed.

Lemma append_length a b : String.length (a ++ b) = (String.length a + String.length b)%nat.
Proof. induction a as [|x a IH]; [reflexivity|]. cbn. rewrite IH. reflexivity. Qed.









(** Building a row fails on a null section or a null amount, and only
    then. *)
Lemma csv_row_outcome title cat_map r :
  match csv_row title cat_map r with
  | inr row =>
      exists s t x,
        Receipt.section r = Some s /\ Receipt.total r = Some t /\ Receipt.tax r = Some x
        /\ row = [csv_text (Receipt.date r); csv_text (Receipt.merchant_name r);
                  title s;
                  match Receipt.category_id r with
                  | Some k => dict_get_default cat_map k ""
                  | None => ""
                  end;
                  Format.format_2f t; Format.format_2f x;
                  csv_text (Receipt.payment_method r); csv_text (Receipt.notes r)]
  | inl e =>
      (Receipt.section r = None /\ e = PyException "AttributeError")
      \/ (Receipt.section r <> None
          /\ (Receipt.total r = None \/ Receipt.tax r = None)
          /\ e = PyException "TypeError")
  end.
Proof.
  unfold csv_row.
  destruct (Receipt.section r) as [s|]; [|left; auto].
  destruct (Receipt.total r) as [t|]; [|right; split; [discriminate | auto]].
  destruct (Receipt.tax r) as [x|]; [|right; split; [discriminate | auto]].
  exists s, t, x. auto.
Qed.

Lemma write_rows_spec title cat_map rs :
  match write_rows title cat_map rs with
  | inr rows => Forall2 (fun r row => csv_row title cat_map r = inr row) rs rows
  | inl e => exists r, In r rs /\ csv_row title cat_map r = inl e
  end.
Proof.
  induction rs as [|r rs IH]; simpl; [constructor|].
  destruct (csv_row title cat_map r) as [e|row] eqn:E.
  - exists r. split; [left; reflexivity | exact E].
  - destruct (write_rows title cat_map rs) as [e|rows].
    + destruct IH as [x [Hx Sx]]. exists x. split; [right; exact Hx | exact Sx].
    + constructor; assumption.
Qed.

Lemma Forall2_map_l {A B C} (f : A -> B) (R : B -> C -> Prop) l l' :
  Forall2 R (map f l) l' <-> Forall2 (fun a c => R (f a) c) l l'.
Proof.
  revert l'. induction l as [|a l IH]; intros l'; simpl.
  - split; intros H; inversion H; constructor.
  - split; intros H; inversion H; subst; constructor; auto; apply IH; assumption.
Qed.

Section ExportRun.
Variable regex : Regex.engine.
Variable fromisoformat : string -> option datetime.
Variable title : string -> string.


End ExportRun.

(* ===================================================================== *)
(** ** The claims *)
(* ===================================================================== *)

Section GateClaims.
Variable fromisoformat : string -> option datetime.

(** C1, as amended.  For a request that presents a bearer token,
    [get_current_user] answers 401 exactly when the session store holds no
    session for the token, or the session's expiry (a stored string parsed,
    a value without a zone read as UTC) is strictly earlier than the current
    time, or the expiry can be read and no user document carries the
    session's user id.  On every path the store, and with it the session
    record, is left as it was.  A session whose expiry equals the current
    instant is therefore not rejected. *)
Theorem session_validation_rejects_iff request clock db token :
  bearer_token request = Some token ->
  (unauthorized (fst (get_current_user fromisoformat request clock db)) <->
     lookup_session db token = None \/
     exists s d, lookup_session db token = Some s
                 /\ session_expiry fromisoformat s = Some d
                 /\ (instant d < instant (datetime_now_utc clock)
                     \/ user_exists db (Session.user_id s) = false))
  /\ snd (get_current_user fromisoformat request clock db) = db.
Proof.
  intros B. split; [|apply get_current_user_state].
  rewrite (get_current_user_token _ _ _ _ _ B). unfold unauthorized.
  destruct (lookup_session db token) as [s|].
  - destruct (session_expiry fromisoformat s) as [d|] eqn:Hd.
    + destruct (Z.ltb_spec (instant d) (instant (datetime_now_utc clock))) as [L|L].
      * split; [intros _; right; exists s, d; repeat split; auto
               | intros _; eexists; reflexivity].
      * destruct (find _ (Db.users db)) as [u|] eqn:F.
        -- split; [intros [x X]; discriminate|].
           intros [X|[s' [d' [E1 [E2 [X|X]]]]]]; try discriminate.
           ++ injection E1 as <-. rewrite Hd in E2. injection E2 as <-. lia.
           ++ injection E1 as <-. apply user_exists_find in X. congruence.
        -- split; [|intros _; eexists; reflexivity].
           intros _. right. exists s, d. repeat split; auto.
           right. apply user_exists_find. exact F.
    + split; [intros [x X]; discriminate|].
      intros [X|[s' [d' [E1 [E2 _]]]]]; [discriminate|].
      injection E1 as <-. congruence.
  - split; [intros _; left; reflexivity | intros _; eexists; reflexivity].
Qed.

(** C8.  The user record that [get_current_user] returns for a request that
    passes authentication has no [password_hash] key, and neither has the
    record that [GET /auth/me] answers with nor the user that [PUT /settings]
    returns. *)
Theorem password_hash_never_leaves_gate request clock db :
  (forall user, fst (get_current_user fromisoformat request clock db) = inr user ->
                dict_get user "password_hash" = None)
  /\ (forall user, fst (get_me fromisoformat request clock db) = inr user ->
                   dict_get user "password_hash" = None)
  /\ (forall data user,
        fst (update_settings fromisoformat data request clock db) = inr (Some user) ->
        dict_get user "password_hash" = None).
Proof.
  split; [|split].
  - intros user H. apply get_current_user_ok in H. tauto.
  - intros user. unfold get_me, bind.
    destruct (get_current_user fromisoformat request clock db) as [[e|u] db'] eqn:G;
      cbn; [discriminate|].
    intros H. injection H as <-.
    apply (get_current_user_ok fromisoformat request clock db u). rewrite G. reflexivity.
  - intros data user. unfold update_settings, bind.
    destruct (get_current_user fromisoformat request clock db) as [[e|u] db'];
      [discriminate|].
    destruct (currency data), (theme data); cbn [app];
      unfold dict_index; destruct (dict_get u "user_id") as [v|];
      unfold bind, update_one_user, write, find_one_user, read, ret, raise; cbn;
      try discriminate;
      match goal with |- context [find ?f ?l] => destruct (find f l) end; cbn;
      try discriminate;
      intros H; injection H as <-; rewrite dict_get_without; reflexivity.
Qed.
End GateClaims.

(** C1, on the sample store: the token is known, the session expires
    exactly now and the user exists, so the request is not rejected. *)
Lemma session_validation_rejects_iff_witness :
  bearer_token Sample.req0 = Some "sess_1"
  /\ ~ unauthorized (fst (get_current_user Sample.no_parse Sample.req0 Sample.clock0 Sample.db0))
  /\ snd (get_current_user Sample.no_parse Sample.req0 Sample.clock0 Sample.db0) = Sample.db0.
Proof.
  split; [reflexivity|].
  destruct (session_validation_rejects_iff Sample.no_parse Sample.req0 Sample.clock0 Sample.db0
      "sess_1" eq_refl)
    as [H S].
  split; [|exact S].
  intros U. apply H in U. destruct U as [U|[s [d [E1 [E2 [U|U]]]]]].
  - discriminate U.
  - injection E1 as <-. injection E2 as <-. vm_compute in U. discriminate U.
  - injection E1 as <-. discriminate U.
Defined.

(** C1 as stated fails: the sample session expires at the very instant of
    the request (expiry <= now), and validation succeeds. *)
Lemma session_expiring_now_is_accepted :
  instant Sample.clock0 <= instant (datetime_now_utc Sample.clock0)
  /\ lookup_session Sample.db0 "sess_1"
     = Some (Session.mk "sess_1" "user_a" (TDatetime Sample.clock0) Sample.clock0)
  /\ fst (get_current_user Sample.no_parse Sample.req0 Sample.clock0 Sample.db0)
     = inr (dict_without "password_hash" Sample.alice).
Proof. split; [vm_compute; discriminate | split; reflexivity]. Qed.

(** C8, on the sample store: the stored user has a [password_hash], the
    record returned has none. *)
Lemma password_hash_never_leaves_gate_witness :
  dict_get Sample.alice "password_hash" = Some (VStr "$2b$12$abc")
  /\ fst (get_me Sample.no_parse Sample.req0 Sample.clock0 Sample.db0) = inr (dict_without
      "password_hash" Sample.alice)
  /\ dict_get (dict_without "password_hash" Sample.alice) "password_hash" = None.
Proof.
  split; [reflexivity|]. split; [reflexivity|].
  exact (proj1 (proj2 (password_hash_never_leaves_gate Sample.no_parse Sample.req0 Sample.clock0
      Sample.db0))
           (dict_without "password_hash" Sample.alice) eq_refl).
Defined.

(** The engine of the sample data gives the fragment its meaning. *)
Lemma fragment_implements caseless : implements caseless (Regex.fragment caseless).
Proof.
  intros p r C. unfold Regex.fragment. rewrite C. cbn [option_map].
  eexists. split; reflexivity.
Qed.

(** C2, as amended.  When the search string holds no regular-expression
    metacharacter, the query of the listing selects exactly the receipts
    that pass the other filters and whose merchant name is a string that
    contains the search string as a run of consecutive characters, letter
    case ignored; the empty search string is no filter.  This holds for
    every library that gives the patterns of the fragment their meaning,
    whatever characters it takes for the same letter.  (The string is handed
    to [$regex] as it is, so a metacharacter keeps its meaning as an
    operator.) *)
Theorem merchant_search_plain regex caseless uid p s :
  implements caseless regex ->
  search p = Some s -> plain s = true ->
  exists f,
    Mongo.compile regex Receipt.field (listing_query (VStr uid) p) = inr f
    /\ forall r, f r = true <->
                 selected regex uid (without_search p) r = true
                 /\ (s = "" \/ merchant_contains caseless s (Receipt.merchant_name r)).
Proof.
  intros I S P.
  assert (M : search_accepted regex (search p) = true).
  { rewrite S. unfold search_accepted, given.
    destruct (Py.truthy s); [|reflexivity].
    destruct (I _ _ (compile_plain _ P)) as (test & -> & _). reflexivity. }
  destruct (listing_query_denotes regex uid p M) as [f [C Hf]].
  exists f. split; [exact C|]. intros r. rewrite Hf.
  rewrite <- (search_ok_plain caseless regex s r I P), <- S.
  unfold selected. cbn [without_search section category_id search date_from date_to
                        amount_min amount_max].
  change (search_ok regex None r) with true.
  rewrite !andb_true_iff. tauto.
Qed.

Section ListingClaims.
Variable regex : Regex.engine.
Variable fromisoformat : string -> option datetime.

(** C3.  For every combination of the filters and every [skip] and [limit]
    ([limit] is 50 when it is not given), a listing that returns gives a
    page cut out of the receipts of the user that pass all the filters,
    newest date first: the receipts from position [skip] on, at most [limit]
    of them; with a section filter every receipt of the page has that
    section; and [total] is the number of all receipts that pass the
    filters, whatever [skip] and [limit] are.  The listing returns unless
    [skip] or [limit] is negative ([ValueError]) or exceeds eight bytes
    ([OverflowError]), or the server rejects the search string as a pattern
    ([OperationFailure]). *)
Theorem listing_page_and_total request clock db p user uid :
  fst (get_current_user fromisoformat request clock db) = inr user ->
  dict_get user "user_id" = Some (VStr uid) ->
  let sk := match skip p with Some n => n | None => 0 end in
  let lm := match limit p with Some n => n | None => 50 end in
  let matching := filter (selected regex uid p) (Db.receipts db) in
  match fst (get_receipts regex fromisoformat request clock p db) with
  | inr l =>
      0 <= sk <= Mongo.max_int64 /\ 0 <= lm <= Mongo.max_int64
      /\ search_accepted regex (search p) = true
      /\ (exists all,
            Permutation all matching
            /\ StronglySorted date_descending all
            /\ listing_receipts l
               = map Receipt.without_image
                   (firstn (Z.to_nat lm) (skipn (Z.to_nat sk) all)))
      /\ (forall s, given (section p) = Some s ->
            Forall (fun r => Receipt.section r = Some s) (listing_receipts l))
      /\ listing_total l = Z.of_nat (List.length matching)
      /\ (forall sk' lm' l',
            fst (get_receipts regex fromisoformat request clock (with_page p sk' lm') db)
            = inr l' ->
            listing_total l' = listing_total l)
  | inl e =>
      (e = PyException "ValueError" /\ (sk < 0 \/ lm < 0))
      \/ (e = PyException "OverflowError"
          /\ 0 <= sk /\ 0 <= lm /\ (Mongo.max_int64 < sk \/ Mongo.max_int64 < lm))
      \/ (e = PyException "OperationFailure"
          /\ 0 <= sk <= Mongo.max_int64 /\ 0 <= lm <= Mongo.max_int64
          /\ search_accepted regex (search p) = false)
  end.
Proof.
  intros G U sk lm matching.
  rewrite (get_receipts_run regex fromisoformat request clock p db user uid G U).
  fold sk lm matching.
  destruct (Z.ltb_spec sk 0) as [Hs|Hs]; [left; auto|].
  destruct (Z.ltb_spec lm 0) as [Hl|Hl]; [left; auto|].
  destruct (Z.ltb_spec Mongo.max_int64 sk) as [Os|Os];
    [right; left; cbn [orb]; auto|].
  destruct (Z.ltb_spec Mongo.max_int64 lm) as [Ol|Ol];
    [right; left; cbn [orb]; auto|].
  cbn [orb].
  destruct (search_accepted regex (search p)) eqn:M;
    [|right; right; repeat split; auto].
  cbn [listing_receipts listing_total].
  assert (Hall : Permutation (Mongo.sort_by Receipt.field [("date", -1)] matching) matching
                 /\ StronglySorted date_descending
                      (Mongo.sort_by Receipt.field [("date", -1)] matching)).
  { split; [apply sort_by_perm|].
    eapply StronglySorted_impl; [|apply sort_by_sorted].
    intros a b. apply before_date_desc. }
  destruct Hall as [Hp Hsrt].
  repeat split; try assumption.
  - eexists. split; [exact Hp|]. split; [exact Hsrt|]. reflexivity.
  - intros s Gs. rewrite Forall_map, Forall_forall. intros r Hr.
    apply in_firstn, in_skipn in Hr.
    apply (Permutation_in _ Hp) in Hr. apply filter_In in Hr. destruct Hr as [_ Hr].
    unfold selected, section_ok in Hr. rewrite Gs in Hr.
    repeat (apply andb_prop in Hr; destruct Hr as [Hr ?]).
    cbn [Receipt.section Receipt.without_image].
    match goal with H : option_string_eqb _ _ = true |- _ =>
      apply option_string_eqb_eq in H; exact H end.
  - intros sk' lm' l'.
    rewrite (get_receipts_run regex fromisoformat request clock (with_page p sk' lm') db
               user uid G U).
    cbn [skip limit search with_page]. rewrite M.
    change (selected regex uid (with_page p sk' lm')) with (selected regex uid p).
    destruct (_ <? 0); [discriminate|]. destruct (_ <? 0); [discriminate|].
    destruct (_ || _); [discriminate|].
    intros H. injection H as <-. reflexivity.
Qed.

(** C10.  The listing called with the empty string for [section],
    [category_id], [search], [date_from] or [date_to] is the listing called
    without that parameter: same outcome, same page, same total, same
    store. *)
Theorem empty_filter_is_no_filter request clock db
    (sec cat srch df dt : option string) (amin amax : option float) (sk lm : option Z) :
  get_receipts regex fromisoformat request clock
    (mk_list_params (Some "") cat srch df dt amin amax sk lm) db
  = get_receipts regex fromisoformat request clock
      (mk_list_params None cat srch df dt amin amax sk lm) db
  /\ get_receipts regex fromisoformat request clock
       (mk_list_params sec (Some "") srch df dt amin amax sk lm) db
     = get_receipts regex fromisoformat request clock
         (mk_list_params sec None srch df dt amin amax sk lm) db
  /\ get_receipts regex fromisoformat request clock
       (mk_list_params sec cat (Some "") df dt amin amax sk lm) db
     = get_receipts regex fromisoformat request clock
         (mk_list_params sec cat None df dt amin amax sk lm) db
  /\ get_receipts regex fromisoformat request clock
       (mk_list_params sec cat srch (Some "") dt amin amax sk lm) db
     = get_receipts regex fromisoformat request clock
         (mk_list_params sec cat srch None dt amin amax sk lm) db
  /\ get_receipts regex fromisoformat request clock
       (mk_list_params sec cat srch df (Some "") amin amax sk lm) db
     = get_receipts regex fromisoformat request clock
         (mk_list_params sec cat srch df None amin amax sk lm) db.
Proof. repeat split; reflexivity. Qed.
End ListingClaims.

Section DashboardClaims.
Variable regex : Regex.engine.
Variable fromisoformat : string -> option datetime.

(** C6.  The dashboard always returns for an authenticated user, and when no
    receipt of the user is dated within the month-to-date (year-to-date)
    window, bounds included, its monthly (yearly) figures are total 0, tax 0
    and count 0. *)
Theorem empty_window_totals_are_zero request auth_clock clock db user uid :
  fst (get_current_user fromisoformat request auth_clock db) = inr user ->
  dict_get user "user_id" = Some (VStr uid) ->
  exists d,
    fst (get_dashboard_summary regex fromisoformat request auth_clock clock db) = inr d
    /\ ((forall r, In r (Db.receipts db) ->
                   in_window uid (month_start clock) (today clock) r = false) ->
        Dashboard.monthly d = Totals.mk (NInt 0) (NInt 0) 0)
    /\ ((forall r, In r (Db.receipts db) ->
                   in_window uid (year_start clock) (today clock) r = false) ->
        Dashboard.yearly d = Totals.mk (NInt 0) (NInt 0) 0).
Proof.
  intros G U.
  destruct (get_dashboard_summary_run regex fromisoformat request auth_clock clock db user uid
              G U) as [sections [cat_map [recent R]]].
  eexists. split; [exact R|]. cbn [Dashboard.monthly Dashboard.yearly].
  split; intros H; unfold year_to_date; rewrite (filter_none _ _ H); reflexivity.
Qed.

(** C4, as amended.  The category breakdown of the dashboard has one row
    per category id, each neither null nor empty, that carries the sum of
    the totals and the number of the year-to-date receipts of that category;
    the rows are in order of falling total, pairwise distinct and at most
    ten.  They are the rows of the ten groups of greatest total that carry a
    category id: the groups of the year-to-date receipts, the group without
    a category and the group of the empty id among them, are ranked by
    falling total, and of the first ten those with an id are returned, in
    that order.  So no category left out has a larger total than a row
    returned. *)
Theorem category_breakdown request auth_clock clock db user uid :
  fst (get_current_user fromisoformat request auth_clock db) = inr user ->
  dict_get user "user_id" = Some (VStr uid) ->
  exists d,
    fst (get_dashboard_summary regex fromisoformat request auth_clock clock db) = inr d
    /\ let ytd := year_to_date uid clock db in
       let cats := Dashboard.categories d in
       Forall (fun e =>
                 let members := of_category (Some (CategoryEntry.category_id e)) ytd in
                 CategoryEntry.category_id e <> ""
                 /\ members <> []
                 /\ CategoryEntry.total e = Mongo.sum (map Receipt.total members)
                 /\ CategoryEntry.count e = Z.of_nat (List.length members)) cats
       /\ StronglySorted total_descending cats
       /\ (List.length cats <= 10)%nat
       /\ NoDup (map CategoryEntry.category_id cats)
       /\ (exists ranked,
             NoDup ranked
             /\ (forall k, In k ranked <-> In k (map Receipt.category_id ytd))
             /\ StronglySorted (ranked_by_total ytd) ranked
             /\ map CategoryEntry.category_id cats = truthy_ids (firstn 10 ranked))
       /\ (forall k e,
             In (Some k) (map Receipt.category_id ytd) -> k <> "" ->
             ~ In k (map CategoryEntry.category_id cats) ->
             In e cats ->
             sort_leb (to_float (category_total (Some k) ytd))
                      (to_float (CategoryEntry.total e)) = true).
Proof.
  intros G U.
  destruct (get_dashboard_summary_run regex fromisoformat request auth_clock clock db
              user uid G U) as [sections [cat_map [recent R]]].
  eexists. split; [exact R|]. cbn [Dashboard.categories].
  set (ytd := year_to_date uid clock db).
  destruct (category_rows_spec uid clock db) as [Hrows [Hnd [Hlen Hsorted]]].
  fold ytd in Hrows, Hlen.
  set (rows := category_rows uid clock db) in *.
  split; [|split; [|split; [|split; [|split]]]].
  - rewrite Forall_forall. intros e He.
    apply category_entries_In in He. destruct He as [c [k [Hc [I [N ->]]]]].
    apply in_firstn, Hrows in Hc. rewrite I in Hc. destruct Hc as [Hk [Ht Hn]].
    cbn. repeat split; auto.
    apply in_map_iff in Hk. destruct Hk as [r [Er Hr]]. intros Z.
    assert (X : In r (of_category (Some k) ytd)).
    { apply filter_In. split; [exact Hr | apply option_string_eqb_eq, Er]. }
    rewrite Z in X. exact X.
  - apply category_entries_sorted, StronglySorted_firstn, Hsorted.
  - etransitivity; [apply category_entries_length|]. apply firstn_le_length.
  - apply category_entries_NoDup.
    rewrite <- firstn_map.
    rewrite <- (firstn_skipn 10 (map (@GroupRow._id _) rows)) in Hnd.
    apply NoDup_app_remove_r in Hnd. exact Hnd.
  - exists (map (@GroupRow._id _) rows). split; [exact Hnd|]. split; [|split].
    + intros k. rewrite in_map_iff. split.
      * intros [c [<- Hc]]. apply Hrows, Hc.
      * intros Hk.
        exists (GroupRow.mk k (Mongo.sum (map Receipt.total (of_category k ytd)))
                  (Z.of_nat (List.length (of_category k ytd)))).
        split; [reflexivity|]. apply Hrows. cbn. auto.
    + apply StronglySorted_map.
      eapply StronglySorted_impl_In; [|exact Hsorted].
      intros a b Ha Hb S. unfold ranked_by_total, category_total.
      apply Hrows in Ha, Hb. destruct Ha as (_ & <- & _), Hb as (_ & <- & _). exact S.
    + rewrite firstn_map. apply category_entries_ids.
  - intros k e Hk Nk Hnot He.
    apply category_entries_In in He. destruct He as [c [k' [Hc [I [N ->]]]]].
    cbn [CategoryEntry.total]. unfold category_total.
    set (ck := GroupRow.mk (Some k)
                 (Mongo.sum (map Receipt.total (of_category (Some k) ytd)))
                 (Z.of_nat (List.length (of_category (Some k) ytd)))).
    assert (Hck : In ck rows) by (apply Hrows; unfold ck; simpl; auto).
    rewrite <- (firstn_skipn 10 rows) in Hck, Hsorted.
    apply in_app_or in Hck. destruct Hck as [Hck|Hck].
    + exfalso. apply Hnot. apply in_map_iff.
      exists (CategoryEntry.mk k (dict_get_default cat_map k "Unknown")
                (GroupRow.total ck) (GroupRow.count ck)).
      split; [reflexivity|]. apply category_entries_In.
      exists ck, k. repeat split; auto.
    + apply (StronglySorted_app_inv _ _ _ Hsorted c ck Hc Hck).
Qed.
End DashboardClaims.

Section TaxClaims.
Variable regex : Regex.engine.
Variable fromisoformat : string -> option datetime.

(** C9.  The tax summary returns for every authenticated request, with the
    two lists [personal] and [business] and their totals and nothing else.
    Every entry of a list aggregates matched receipts whose section is
    exactly the name of the list, and the totals of a list are the sums over
    its entries: a matched receipt with any other section, null included,
    enters neither a list nor a total. *)
Theorem tax_summary_only_named_sections request clock db user uid df dt sec :
  fst (get_current_user fromisoformat request clock db) = inr user ->
  dict_get user "user_id" = Some (VStr uid) ->
  let matched := filter (reported uid df dt sec) (Db.receipts db) in
  exists t ep eb tp tb,
    fst (get_tax_summary regex fromisoformat request clock df dt sec db) = inr t
    /\ TaxSummary.summary t = [("personal", ep); ("business", eb)]
    /\ TaxSummary.totals t = [("personal", tp); ("business", tb)]
    /\ entries_from "personal" matched ep
    /\ entries_from "business" matched eb
    /\ totals_of ep tp
    /\ totals_of eb tb.
Proof.
  intros G U matched.
  destruct (get_tax_summary_run regex fromisoformat request clock db user uid df dt sec G U)
    as [cat_map R].
  do 5 eexists. split; [exact R|]. cbn [TaxSummary.summary TaxSummary.totals].
  split; [reflexivity|]. split; [reflexivity|].
  repeat split; try apply entries_from_rows; apply totals_of_rows.
Qed.

(** C5, as amended.  The running totals (total, tax, count) that the tax
    summary returns for [personal] and for [business] are the sums of those
    fields over the entries of that section in the returned summary.  When
    every matched receipt has section [personal] or [business] and the
    matched receipts fall into at most 200 groups of section and category,
    the two counts add up to the number of matched receipts. *)
Theorem tax_totals_sum_rows request clock db user uid df dt sec :
  fst (get_current_user fromisoformat request clock db) = inr user ->
  dict_get user "user_id" = Some (VStr uid) ->
  let matched := filter (reported uid df dt sec) (Db.receipts db) in
  exists t ep eb tp tb,
    fst (get_tax_summary regex fromisoformat request clock df dt sec db) = inr t
    /\ TaxSummary.summary t = [("personal", ep); ("business", eb)]
    /\ TaxSummary.totals t = [("personal", tp); ("business", tb)]
    /\ totals_of ep tp
    /\ totals_of eb tb
    /\ ((forall r, In r matched ->
                   Receipt.section r = Some "personal"
                   \/ Receipt.section r = Some "business") ->
        (List.length (Mongo.distinct section_category_eqb (map section_category matched))
         <= 200)%nat ->
        Totals.count tp + Totals.count tb = Z.of_nat (List.length matched)).
Proof.
  intros G U matched.
  destruct (get_tax_summary_run regex fromisoformat request clock db user uid df dt sec G U)
    as [cat_map R].
  do 5 eexists. split; [exact R|]. cbn [TaxSummary.summary TaxSummary.totals].
  split; [reflexivity|]. split; [reflexivity|].
  split; [apply totals_of_rows|]. split; [apply totals_of_rows|].
  intros Hsec Hlen. fold matched.
  destruct (tax_rows_spec matched) as [Hrows [Hl Hsum]].
  rewrite firstn_all2 by (rewrite Hl; exact Hlen).
  destruct (add_rows_totals cat_map (rows_of "personal" (tax_rows matched))
              (Totals.mk (NInt 0) (NInt 0) 0)) as [_ [_ ->]].
  destruct (add_rows_totals cat_map (rows_of "business" (tax_rows matched))
              (Totals.mk (NInt 0) (NInt 0) 0)) as [_ [_ ->]].
  cbn [Totals.count]. rewrite !map_map. cbn [SummaryEntry.count summary_entry].
  rewrite <- Hsum. unfold rows_of.
  rewrite <- (sum_Z_split (@TaxRow.count _)
                (fun r => option_string_eqb (fst (TaxRow._id r)) (Some "personal"))
                (fun r => option_string_eqb (fst (TaxRow._id r)) (Some "business"))
                (tax_rows matched)).
  1: change (fun x : TaxRow.t (option string * option string) => TaxRow.count x)
       with (@TaxRow.count (option string * option string)); lia.
  intros r Hr. apply Hrows in Hr. destruct Hr as [Hk _].
  apply in_map_iff in Hk. destruct Hk as [d [Ed Hd]].
  rewrite <- Ed. unfold section_category. cbn [fst].
  destruct (Hsec d Hd) as [->| ->]; [left | right]; split; reflexivity.
Qed.
End TaxClaims.

Section ExportClaims.
Variable regex : Regex.engine.
Variable fromisoformat : string -> option datetime.
Variable title : string -> string.

End ExportClaims.

(** C2 as stated fails: the search string [.] lists all three sample
    receipts, among them two whose merchant name contains no dot. *)
Lemma merchant_search_dot_matches_any_character :
  match fst (get_receipts Sample.regex Sample.no_parse Sample.req0 Sample.clock0
               (Sample.search_for ".") Sample.db0) with
  | inr l => map Receipt.merchant_name (listing_receipts l)
             = [Some "A.B Store"; Some "Walmart"; Some "Cafe"]
             /\ listing_total l = 3
  | inl _ => False
  end
  /\ ~ merchant_contains Regex.ascii_caseless "." (Some "Walmart")
  /\ ~ merchant_contains Regex.ascii_caseless "." (Some "Cafe").
Proof.
  split; [vm_compute; split; reflexivity|].
  split; intros (m & E & H); injection E as <-;
    apply (search_literal Regex.ascii_caseless (Utf8.chars ".")) in H;
    vm_compute in H; discriminate H.
Qed.

(** C4 as stated fails: with eleven categories and a null-category group
    of the largest total, the breakdown has nine rows; the limit of ten is
    applied before the null group is dropped. *)
Lemma category_breakdown_loses_a_top_ten_row :
  List.length (Mongo.distinct String.eqb
                 (truthy_ids (map Receipt.category_id
                                (year_to_date "user_a" Sample.clock0 Sample.db_twelve_groups))))
  = 11%nat
  /\ match fst (get_dashboard_summary Sample.regex Sample.no_parse Sample.req0 Sample.clock0
      Sample.clock0 Sample.db_twelve_groups) with
     | inr d => map CategoryEntry.category_id (Dashboard.categories d)
                = ["c011"; "c010"; "c009"; "c008"; "c007"; "c006"; "c005"; "c004"; "c003"]
     | inl _ => False
     end.
Proof. vm_compute. repeat split. Qed.

(** C5 as stated fails: 201 personal receipts in 201 categories give a
    personal count of 200, the pipeline's rows being cut at 200. *)
Lemma tax_counts_miss_groups_beyond_200 :
  forallb (fun r => option_string_eqb (Receipt.section r) (Some "personal"))
          (filter (reported "user_a" None None None) (Db.receipts Sample.db_201_groups))
  = true
  /\ List.length (filter (reported "user_a" None None None)
                         (Db.receipts Sample.db_201_groups)) = 201%nat
  /\ match fst (get_tax_summary Sample.regex Sample.no_parse Sample.req0 Sample.clock0 None None
      None Sample.db_201_groups) with
     | inr t => option_map Totals.count (dict_get (TaxSummary.totals t) "personal") = Some 200
                /\ option_map Totals.count (dict_get (TaxSummary.totals t) "business") = Some 0
     | inl _ => False
     end.
Proof. vm_compute. repeat split. Qed.

(** C3, on the sample store with the section filter [personal]. *)
Lemma listing_page_and_total_witness :
  fst (get_current_user Sample.no_parse Sample.req0 Sample.clock0 Sample.db0)
  = inr Sample.safe_alice
  /\ exists l,
       fst (get_receipts Sample.regex Sample.no_parse Sample.req0 Sample.clock0
              (Sample.in_section "personal") Sample.db0) = inr l
       /\ listing_total l = 1
       /\ Forall (fun r => Receipt.section r = Some "personal") (listing_receipts l).
Proof.
  split; [reflexivity|].
  pose proof (listing_page_and_total Sample.regex Sample.no_parse Sample.req0 Sample.clock0
                Sample.db0 (Sample.in_section "personal") Sample.safe_alice "user_a"
                eq_refl eq_refl) as H.
  cbv zeta in H.
  destruct (fst (get_receipts Sample.regex Sample.no_parse Sample.req0 Sample.clock0
                   (Sample.in_section "personal") Sample.db0))
    as [e|l].
  - exfalso. destruct H as [[_ H]|[(_ & _ & _ & H)|(_ & _ & _ & H)]].
    + destruct H as [H|H]; vm_compute in H; discriminate H.
    + destruct H as [H|H]; vm_compute in H; discriminate H.
    + discriminate H.
  - exists l. destruct H as (_ & _ & _ & _ & S & T & _). split; [reflexivity|].
    split; [exact T | exact (S "personal" eq_refl)].
Defined.

(** C2 as amended, for the search string [wal] and the engine of the
    sample data. *)
Lemma merchant_search_plain_witness :
  plain "wal" = true
  /\ exists f,
       Mongo.compile Sample.regex Receipt.field
         (listing_query (VStr "user_a") (Sample.search_for "wal")) = inr f
       /\ forall r, f r = true <->
                    selected Sample.regex "user_a" (without_search (Sample.search_for "wal")) r
                    = true
                    /\ ("wal" = ""
                        \/ merchant_contains Regex.ascii_caseless "wal"
                             (Receipt.merchant_name r)).
Proof.
  split; [reflexivity|].
  exact (merchant_search_plain Sample.regex Regex.ascii_caseless "user_a"
           (Sample.search_for "wal") "wal" (fragment_implements Regex.ascii_caseless)
           eq_refl eq_refl).
Defined.

(** C6, on the sample store in January 2026, when no receipt is in either
    window. *)
Lemma empty_window_totals_are_zero_witness :
  fst (get_current_user Sample.no_parse Sample.req0 Sample.clock0 Sample.db0) = inr
      Sample.safe_alice
  /\ exists d,
       fst (get_dashboard_summary Sample.regex Sample.no_parse Sample.req0 Sample.clock0
           Sample.clock_2026 Sample.db0) = inr d
       /\ Dashboard.monthly d = Totals.mk (NInt 0) (NInt 0) 0
       /\ Dashboard.yearly d = Totals.mk (NInt 0) (NInt 0) 0.
Proof.
  split; [reflexivity|].
  destruct (empty_window_totals_are_zero Sample.regex Sample.no_parse Sample.req0 Sample.clock0
      Sample.clock_2026 Sample.db0
              Sample.safe_alice "user_a" eq_refl eq_refl) as [d [R [M Y]]].
  exists d. split; [exact R|]. split; [apply M | apply Y]; intros r Hr;
    repeat (destruct Hr as [<-|Hr]; [reflexivity|]); destruct Hr.
Defined.

(** C4 as amended, on the sample store: two categories, two rows. *)
Lemma category_breakdown_witness :
  fst (get_current_user Sample.no_parse Sample.req0 Sample.clock0 Sample.db0)
  = inr Sample.safe_alice
  /\ exists d,
       fst (get_dashboard_summary Sample.regex Sample.no_parse Sample.req0 Sample.clock0
              Sample.clock0 Sample.db0) = inr d
       /\ map CategoryEntry.category_id (Dashboard.categories d) = ["cat_food"; "cat_x"]
       /\ StronglySorted total_descending (Dashboard.categories d).
Proof.
  split; [reflexivity|].
  destruct (category_breakdown Sample.regex Sample.no_parse Sample.req0 Sample.clock0
              Sample.clock0 Sample.db0 Sample.safe_alice "user_a" eq_refl eq_refl)
    as (d & R & _ & S & _).
  exists d. split; [exact R|]. split; [|exact S].
  assert (E : inr d = fst (get_dashboard_summary Sample.regex Sample.no_parse Sample.req0
                             Sample.clock0 Sample.clock0 Sample.db0))
    by (symmetry; exact R).
  vm_compute in E. injection E as ->. reflexivity.
Defined.

(** C5 as amended, on the sample store with the section filter
    [personal]. *)
Lemma tax_totals_sum_rows_witness :
  fst (get_current_user Sample.no_parse Sample.req0 Sample.clock0 Sample.db0) = inr
      Sample.safe_alice
  /\ exists t tp tb,
       fst (get_tax_summary Sample.regex Sample.no_parse Sample.req0 Sample.clock0 None None (Some
           "personal") Sample.db0) = inr t
       /\ TaxSummary.totals t = [("personal", tp); ("business", tb)]
       /\ Totals.count tp + Totals.count tb = 1.
Proof.
  split; [reflexivity|].
  destruct (tax_totals_sum_rows Sample.regex Sample.no_parse Sample.req0 Sample.clock0 Sample.db0
      Sample.safe_alice "user_a"
              None None (Some "personal") eq_refl eq_refl)
    as [t [ep [eb [tp [tb [R [_ [T [_ [_ C]]]]]]]]]].
  exists t, tp, tb. split; [exact R|]. split; [exact T|].
  refine (eq_trans (C _ _) _); [| vm_compute; lia | reflexivity].
  intros r Hr. vm_compute in Hr. destruct Hr as [<-|[]]. left. reflexivity.
Defined.

(** C9, on the sample store, one of whose receipts has a null section. *)
Lemma tax_summary_only_named_sections_witness :
  fst (get_current_user Sample.no_parse Sample.req0 Sample.clock0 Sample.db0) = inr
      Sample.safe_alice
  /\ exists t ep eb,
       fst (get_tax_summary Sample.regex Sample.no_parse Sample.req0 Sample.clock0 None None None
           Sample.db0) = inr t
       /\ TaxSummary.summary t = [("personal", ep); ("business", eb)]
       /\ entries_from "personal" (filter (reported "user_a" None None None) (Db.receipts
           Sample.db0)) ep
       /\ entries_from "business" (filter (reported "user_a" None None None) (Db.receipts
           Sample.db0)) eb.
Proof.
  split; [reflexivity|].
  destruct (tax_summary_only_named_sections Sample.regex Sample.no_parse Sample.req0 Sample.clock0
      Sample.db0 Sample.safe_alice
              "user_a" None None None eq_refl eq_refl)
    as [t [ep [eb [tp [tb [R [S [_ [P [B _]]]]]]]]]].
  exists t, ep, eb. auto.
Defined.


(* ===================================================================== *)
(** ** Calendar arithmetic *)
(* ===================================================================== *)

Lemma in_range n k : 0 <= n < Z.of_nat k -> In n (map Z.of_nat (seq 0 k)).
Proof.
  intros H. apply in_map_iff. exists (Z.to_nat n). split; [lia|].
  apply in_seq. lia.
Qed.

Lemma month_day_spec leap n :
  0 <= n < 365 + int_of_bool leap -> month_day_ok leap n = true.
Proof.
  intros H.
  assert (A : forallb (month_day_ok leap) (map Z.of_nat (seq 0 365)) = true)
    by (destruct leap; vm_compute; reflexivity).
  rewrite forallb_forall in A.
  destruct (Z.eq_dec n 365) as [->|N].
  - destruct leap; [reflexivity | simpl in H; lia].
  - apply A, in_range. destruct leap; simpl in H; lia.
Qed.

Lemma days_before_month_leap y m :
  1 <= m <= 12 -> days_before_month y m = days_before (is_leap y) m.
Proof.
  intros H.
  assert (C : m = 1 \/ m = 2 \/ m = 3 \/ m = 4 \/ m = 5 \/ m = 6 \/ m = 7 \/ m = 8
              \/ m = 9 \/ m = 10 \/ m = 11 \/ m = 12) by lia.
  unfold days_before_month, days_before.
  repeat (destruct C as [->|C]; [cbv -[is_leap]; destruct (is_leap y); reflexivity|]).
  subst m. cbv -[is_leap]. destruct (is_leap y); reflexivity.
Qed.

Lemma days_in_month_leap y m :
  days_in_month y m
  = if m =? 2 then (if is_leap y then 29 else 28)
    else if (m =? 4) || (m =? 6) || (m =? 9) || (m =? 11) then 30 else 31.
Proof. reflexivity. Qed.

Lemma ord2ymd_spec n y m d :
  1 <= n -> ord2ymd n = (y, m, d) ->
  valid_date y m d /\ days_before_year y + days_before_month y m + d = n.
Proof.
  intros Hn. unfold ord2ymd. cbv zeta.
  unfold DI400Y, DI100Y, DI4Y.
  set (n0 := n - 1).
  set (q400 := n0 / 146097). set (r := n0 mod 146097).
  set (q100 := r / 36524). set (r1 := r mod 36524).
  set (q4 := r1 / 1461). set (r2 := r1 mod 1461).
  set (q1 := r2 / 365). set (r3 := r2 mod 365).
  assert (E0 : n0 = 146097 * q400 + r /\ 0 <= r < 146097)
    by (subst q400 r; split; [apply Z.div_mod; lia | apply Z.mod_pos_bound; lia]).
  assert (E1 : r = 36524 * q100 + r1 /\ 0 <= r1 < 36524)
    by (subst q100 r1; split; [apply Z.div_mod; lia | apply Z.mod_pos_bound; lia]).
  assert (E2 : r1 = 1461 * q4 + r2 /\ 0 <= r2 < 1461)
    by (subst q4 r2; split; [apply Z.div_mod; lia | apply Z.mod_pos_bound; lia]).
  assert (E3 : r2 = 365 * q1 + r3 /\ 0 <= r3 < 365)
    by (subst q1 r3; split; [apply Z.div_mod; lia | apply Z.mod_pos_bound; lia]).
  assert (Q100 : 0 <= q100 <= 4) by lia.
  assert (Q4 : 0 <= q4 <= 24) by lia.
  assert (Q1 : 0 <= q1 <= 4) by lia.
  assert (Q400 : 0 <= q400) by (subst q400; apply Z.div_pos; lia).
  clearbody q400 r q100 r1 q4 r2 q1 r3.
  destruct ((q1 =? 4) || (q100 =? 4)) eqn:Last.
  - (* the last day of a leap year *)
    intros E. injection E as <- <- <-.
    set (y := q400 * 400 + 1 + q100 * 100 + q4 * 4 + q1 - 1).
    assert (L : is_leap y = true).
    { unfold is_leap, y. apply orb_prop in Last.
      apply andb_true_iff. split.
      - apply Z.eqb_eq. destruct Last as [L|L]; apply Z.eqb_eq in L;
          Z.to_euclidean_division_equations; lia.
      - apply orb_true_iff.
        destruct Last as [L|L]; apply Z.eqb_eq in L.
        + destruct (Z.eq_dec q100 4) as [E|E].
          * right. apply Z.eqb_eq. Z.to_euclidean_division_equations; lia.
          * left. apply negb_true_iff, Z.eqb_neq.
            Z.to_euclidean_division_equations; lia.
        + right. apply Z.eqb_eq. Z.to_euclidean_division_equations; lia. }
    split.
    + unfold valid_date. rewrite days_in_month_leap. simpl. lia.
    + rewrite days_before_month_leap by lia. rewrite L.
      unfold days_before, days_before_year, y. simpl.
      apply orb_prop in Last.
      destruct Last as [L'|L']; apply Z.eqb_eq in L';
        Z.to_euclidean_division_equations; lia.
  - apply orb_false_elim in Last. destruct Last as [L1 L2].
    apply Z.eqb_neq in L1, L2.
    set (y0 := q400 * 400 + 1 + q100 * 100 + q4 * 4 + q1).
    set (leapyear := (q1 =? 3) && (negb (q4 =? 24) || (q100 =? 3))).
    assert (L : is_leap y0 = leapyear).
    { unfold is_leap, y0, leapyear.
      destruct (Z.eqb_spec q1 3) as [A|A];
      destruct (Z.eqb_spec q4 24) as [B|B];
      destruct (Z.eqb_spec q100 3) as [C|C]; simpl;
      repeat match goal with
             | |- context [?a mod ?b =? 0] =>
                 let H := fresh in destruct (Z.eqb_spec (a mod b) 0) as [H|H]; simpl
             end; try reflexivity; exfalso;
      Z.to_euclidean_division_equations; lia. }
    assert (R3 : 0 <= r3 < 365 + int_of_bool leapyear).
    { destruct leapyear; simpl; lia. }
    assert (Y : days_before_year y0 = 146097 * q400 + 36524 * q100 + 1461 * q4 + 365 * q1).
    { unfold days_before_year, y0. Z.to_euclidean_division_equations; lia. }
    pose proof (month_day_spec leapyear r3 R3) as M.
    unfold month_day_ok, month_day in M.
    set (P := nth (Z.to_nat (Z.shiftr (r3 + 50) 5)) DAYS_BEFORE_MONTH 0
              + int_of_bool ((2 <? Z.shiftr (r3 + 50) 5) && leapyear)).
    assert (EP : P = days_before leapyear (Z.shiftr (r3 + 50) 5)) by reflexivity.
    change (days_before leapyear (Z.shiftr (r3 + 50) 5)) with P in M.
    clearbody P.
    destruct (r3 <? P); cbv beta iota zeta in M; intros E;
      match type of E with
      | (?a, ?b, ?c) = _ =>
          assert (E' : a = y /\ b = m /\ c = d) by (repeat split; congruence)
      end;
      clear E; destruct E' as [<- [<- <-]];
      repeat (apply andb_prop in M; destruct M as [M ?]);
      repeat match goal with H : (_ <=? _) = true |- _ => apply Z.leb_le in H end;
      match goal with H : (_ =? _) = true |- _ => apply Z.eqb_eq in H end;
      (split; [unfold valid_date; rewrite days_in_month_leap, L; lia
              | rewrite days_before_month_leap, L by lia; lia]).
Qed.

Lemma wall_micros_of_wall_micros t tz :
  day_micros <= t -> wall_micros (of_wall_micros t tz) = t.
Proof.
  intros H. unfold of_wall_micros.
  destruct (ord2ymd (t / day_micros)) as [[y m] d] eqn:E.
  apply ord2ymd_spec in E.
  2:{ unfold day_micros in *. Z.to_euclidean_division_equations; lia. }
  destruct E as [_ E].
  unfold wall_micros, toordinal. cbn [year month day hour minute second microsecond].
  rewrite E. unfold day_micros.
  Z.to_euclidean_division_equations; lia.
Qed.

Lemma tzinfo_of_wall_micros t tz : tzinfo (of_wall_micros t tz) = tz.
Proof.
  unfold of_wall_micros. destruct (ord2ymd _) as [[y m] d]. reflexivity.
Qed.

Lemma add_days_instant d n d' :
  add_days d n = Some d' ->
  instant d' = instant d + n * day_micros /\ tzinfo d' = tzinfo d.
Proof.
  unfold add_days.
  destruct ((0 <? _) && _) eqn:R; [|discriminate].
  intros E. injection E as <-.
  apply andb_prop in R. destruct R as [R _]. apply Z.ltb_lt in R.
  unfold instant. rewrite tzinfo_of_wall_micros, wall_micros_of_wall_micros.
  - split; [lia | reflexivity].
  - unfold day_micros in *. Z.to_euclidean_division_equations; lia.
Qed.

Lemma bson_datetime_instant d :
  day_micros <= instant d / 1000 * 1000 ->
  instant (bson_datetime d) = instant d / 1000 * 1000
  /\ tzinfo (bson_datetime d) = None.
Proof.
  intros H. unfold bson_datetime. split; [|apply tzinfo_of_wall_micros].
  unfold instant at 1. rewrite tzinfo_of_wall_micros, wall_micros_of_wall_micros by exact H.
  lia.
Qed.
(* ===================================================================== *)
(** ** Tokens and sessions *)
(* ===================================================================== *)

Lemma split_aux_plain t : forall cur,
  Py.contains_char "B" t = false ->
  Py.split_aux "Bearer " 0 cur t = [Py.rev_string t cur].
Proof.
  induction t as [|c t IH]; intros cur H; [reflexivity|].
  cbn [Py.contains_char] in H. apply orb_false_elim in H. destruct H as [Hc Ht].
  cbn [Py.split_aux]. cbn [Py.startswith]. rewrite Hc. cbn [andb].
  rewrite (IH _ Ht). reflexivity.
Qed.

Lemma split_bearer t :
  Py.contains_char "B" t = false -> Py.split ("Bearer " ++ t) "Bearer " = [""; t].
Proof.
  intros H. unfold Py.split. cbn. rewrite (split_aux_plain t "" H). reflexivity.
Qed.

Lemma hex_plain s : Str.is_hex s = true -> Py.contains_char "B" s = false.
Proof.
  induction s as [|c s IH]; [reflexivity|]. cbn [Str.is_hex Py.contains_char]. intros H.
  apply andb_prop in H. destruct H as [Hc Hs]. rewrite (IH Hs), orb_false_r.
  apply Ascii.eqb_neq. intros <-. discriminate Hc.
Qed.

Lemma bearer_token_bearer t :
  Py.contains_char "B" t = false -> bearer_token (bearer t) = Some t.
Proof.
  intros H. unfold bearer_token, bearer. cbn [authorization].
  rewrite (split_bearer t H). reflexivity.
Qed.

Lemma session_token_plain hex :
  Str.is_hex hex = true -> Py.contains_char "B" ("sess_" ++ hex) = false.
Proof. intros H. cbn. apply hex_plain, H. Qed.

Lemma find_app_none {A} (f : A -> bool) l l' :
  find f l = None -> find f (l ++ l') = find f l'.
Proof.
  induction l as [|a l IH]; simpl; [reflexivity|].
  destruct (f a); [discriminate | exact IH].
Qed.

Lemma find_app_some {A} (f : A -> bool) l l' a :
  find f l = Some a -> find f (l ++ l') = Some a.
Proof.
  induction l as [|b l IH]; simpl; [discriminate|].
  destruct (f b); [trivial | exact IH].
Qed.

(** What [create_session] does when it returns. *)
Lemma create_session_run uid draw db :
  match add_days (datetime_now_utc (SessionDraw.expiry_clock draw)) 7 with
  | Some d =>
      create_session uid draw db
      = (inr ("sess_" ++ SessionDraw.hex draw),
         with_sessions db
           (Db.user_sessions db
            ++ [Session.mk ("sess_" ++ SessionDraw.hex draw) uid
                  (TDatetime (bson_datetime d))
                  (bson_datetime (datetime_now_utc (SessionDraw.created_clock draw)))]))
  | None => create_session uid draw db = (inl (PyException "OverflowError"), db)
  end.
Proof.
  unfold create_session, bind. destruct (add_days _ 7); reflexivity.
Qed.

Lemma expiry_instant clock d :
  add_days (datetime_now_utc clock) 7 = Some d ->
  instant (bson_datetime d) = session_deadline clock.
Proof.
  intros H. pose proof H as R. apply add_days_instant in H. destruct H as [I T].
  unfold session_deadline. rewrite <- I.
  apply bson_datetime_instant.
  unfold add_days in R. destruct ((0 <? _) && _) eqn:C; [|discriminate].
  apply andb_prop in C. destruct C as [C _]. apply Z.ltb_lt in C.
  rewrite I. unfold instant. cbn [tzinfo datetime_now_utc replace_tzinfo].
  unfold timezone_utc.
  cbn [tzinfo datetime_now_utc replace_tzinfo] in C.
  unfold day_micros in *. Z.to_euclidean_division_equations; lia.
Qed.
(* ===================================================================== *)
(** ** Logging in and out *)
(* ===================================================================== *)

Lemma lookup_new_session db token s :
  lookup_session db token = None ->
  Session.session_token s = token ->
  lookup_session (with_sessions db (Db.user_sessions db ++ [s])) token = Some s.
Proof.
  unfold lookup_session. intros N E. cbn [Db.user_sessions with_sessions].
  rewrite (find_app_none _ _ _ N). cbn [find]. rewrite E, String.eqb_refl. reflexivity.
Qed.

(** The gate on the store that [create_session] leaves. *)
Lemma validate_new_session fromisoformat uid draw d db clock :
  add_days (datetime_now_utc (SessionDraw.expiry_clock draw)) 7 = Some d ->
  lookup_session db ("sess_" ++ SessionDraw.hex draw) = None ->
  Str.is_hex (SessionDraw.hex draw) = true ->
  fst (get_current_user fromisoformat (bearer ("sess_" ++ SessionDraw.hex draw)) clock
         (snd (create_session uid draw db)))
  = if instant (datetime_now_utc clock) <=? session_deadline (SessionDraw.expiry_clock draw)
    then match find (user_matches (VStr uid)) (Db.users db) with
         | Some u => inr (dict_without "password_hash" u)
         | None => inl (HTTPException 401 "User not found")
         end
    else inl (HTTPException 401 "Session expired").
Proof.
  intros A N X.
  pose proof (create_session_run uid draw db) as R. rewrite A in R. rewrite R.
  cbn [snd].
  rewrite (get_current_user_token fromisoformat _ clock _ _
             (bearer_token_bearer _ (session_token_plain _ X))).
  erewrite lookup_new_session; [|exact N|reflexivity].
  cbn [session_expiry Session.expires_at Session.user_id].
  rewrite (expiry_instant _ _ A).
  cbn [Db.users with_sessions].
  destruct (Z.ltb_spec (session_deadline (SessionDraw.expiry_clock draw))
              (instant (datetime_now_utc clock)));
    destruct (Z.leb_spec (instant (datetime_now_utc clock))
                (session_deadline (SessionDraw.expiry_clock draw))); try lia; reflexivity.
Qed.

(** What a login that returns has found and done. *)
Lemma login_ok lower checkpw data draw db resp :
  fst (login lower checkpw data draw db) = inr resp ->
  exists u uid h,
    user_by_email lower db (UserLogin.email data) = Some u
    /\ dict_get u "user_id" = Some (VStr uid)
    /\ dict_get u "password_hash" = Some (VStr h)
    /\ checkpw (UserLogin.password data) h = Some true
    /\ AuthResponse.token resp = "sess_" ++ SessionDraw.hex draw
    /\ dict_get (AuthResponse.user resp) "user_id" = Some (VStr uid)
    /\ dict_keys (AuthResponse.user resp)
       = ["user_id"; "email"; "name"; "picture"; "currency"; "theme"]
    /\ add_days (datetime_now_utc (SessionDraw.expiry_clock draw)) 7 <> None
    /\ snd (login lower checkpw data draw db) = snd (create_session uid draw db).
Proof.
  destruct (login lower checkpw data draw db) as [r db'] eqn:E. cbn [fst snd]. intros ->.
  revert E.
  unfold login, bind, find_one_user_by, read, user_by_email. cbn [fst snd].
  destruct (find _ (Db.users db)) as [[|kv u']|] eqn:F; try discriminate.
  set (u := kv :: u') in *. clearbody u.
  destruct (dict_get u "password_hash") as [v|] eqn:P; cbn [negb]; [|discriminate].
  destruct (value_truthy v) eqn:T; cbn [negb]; [|discriminate].
  unfold dict_index at 1. rewrite P. unfold ret at 1. cbn [fst snd].
  destruct v as [|h| |]; try discriminate. unfold ret at 1.
  destruct (checkpw (UserLogin.password data) h) as [[|]|] eqn:C; try discriminate.
  unfold dict_index at 1.
  destruct (dict_get u "user_id") as [[|uid| |]|] eqn:U; try discriminate.
  unfold ret at 1. cbn [create_session_for].
  pose proof (create_session_run uid draw db) as R.
  destruct (add_days _ 7) as [d|] eqn:A; rewrite R; [|discriminate].
  unfold dict_index. rewrite U.
  destruct (dict_get u "email") as [e|]; [|discriminate].
  destruct (dict_get u "name") as [n|]; [|discriminate].
  unfold ret. cbn [fst snd]. intros H. injection H as <- <-.
  exists u, uid, h. cbn [snd]. repeat split; auto; try discriminate.
  rewrite R. reflexivity.
Qed.

(** X1.  A session token of a login authenticates the account for seven
    days: up to the deadline the gate returns the account, after it the gate
    answers that the session expired. *)
Theorem login_token_authenticates lower fromisoformat checkpw data draw db resp clock :
  fst (login lower checkpw data draw db) = inr resp ->
  lookup_session db (AuthResponse.token resp) = None ->
  Str.is_hex (SessionDraw.hex draw) = true ->
  let db' := snd (login lower checkpw data draw db) in
  let request := bearer (AuthResponse.token resp) in
  (instant (datetime_now_utc clock) <= session_deadline (SessionDraw.expiry_clock draw) ->
   exists user,
     fst (get_current_user fromisoformat request clock db') = inr user
     /\ dict_get user "user_id" = dict_get (AuthResponse.user resp) "user_id"
     /\ dict_get user "password_hash" = None)
  /\ (session_deadline (SessionDraw.expiry_clock draw) < instant (datetime_now_utc clock) ->
      fst (get_current_user fromisoformat request clock db')
      = inl (HTTPException 401 "Session expired")).
Proof.
  intros L N X db' request. subst db' request.
  destruct (login_ok lower _ _ _ _ _ L) as (u & uid & h & F & U & _ & _ & T & RU & _ & A & S).
  rewrite S, T in *.
  destruct (add_days _ 7) as [d|] eqn:D; [|congruence].
  rewrite (validate_new_session fromisoformat uid draw d db clock D N X).
  split; intros C.
  - destruct (Z.leb_spec (instant (datetime_now_utc clock))
                (session_deadline (SessionDraw.expiry_clock draw))); [|lia].
    destruct (find (user_matches (VStr uid)) (Db.users db)) as [u2|] eqn:F2.
    + exists (dict_without "password_hash" u2). split; [reflexivity|].
      rewrite !dict_get_without. cbn. rewrite RU.
      apply find_some in F2. destruct F2 as [_ F2].
      apply user_matches_str in F2. split; [exact F2 | reflexivity].
    + exfalso. apply find_some in F. destruct F as [I _].
      eapply find_none in F2; [|exact I].
      apply (proj2 (user_matches_str uid u)) in U. congruence.
  - destruct (Z.leb_spec (instant (datetime_now_utc clock))
                (session_deadline (SessionDraw.expiry_clock draw))); [lia|reflexivity].
Qed.

Lemma find_delete_first_other {A} (f g : A -> bool) l :
  (forall a, f a = true -> g a = false) ->
  find g (Store.delete_first f l) = find g l.
Proof.
  intros X. induction l as [|a l IH]; [reflexivity|]. cbn [Store.delete_first find].
  destruct (f a) eqn:Fa.
  - rewrite (X a Fa). reflexivity.
  - cbn [find]. rewrite IH. reflexivity.
Qed.

Lemma find_delete_first_unique {A K} (key : A -> K) (eqb : K -> K -> bool) k l :
  (forall x y, eqb x y = true <-> x = y) ->
  NoDup (map key l) ->
  find (fun a => eqb (key a) k) (Store.delete_first (fun a => eqb (key a) k) l) = None.
Proof.
  intros X. induction l as [|a l IH]; intros N; [reflexivity|].
  cbn [Store.delete_first map] in *. apply NoDup_cons_iff in N. destruct N as [N1 N2].
  destruct (eqb (key a) k) eqn:E.
  - apply X in E. subst k.
    destruct (find _ l) as [b|] eqn:F; [|reflexivity].
    apply find_some in F. destruct F as [I F]. apply X in F.
    exfalso. apply N1. rewrite <- F. apply in_map, I.
  - cbn [find]. rewrite E. apply IH, N2.
Qed.

(** X2.  Logging out always succeeds.  Without a bearer token it changes
    nothing; with one it removes a session of that token and nothing else,
    and when tokens are not shared the token is no longer accepted. *)
Theorem logout_ends_session fromisoformat request clock db :
  let db' := snd (logout request db) in
  fst (logout request db) = inr "Logged out"
  /\ match bearer_token request with
     | None => db' = db
     | Some token =>
         Db.users db' = Db.users db
         /\ Db.categories db' = Db.categories db
         /\ Db.receipts db' = Db.receipts db
         /\ (forall t, t <> token -> lookup_session db' t = lookup_session db t)
         /\ (NoDup (map Session.session_token (Db.user_sessions db)) ->
             lookup_session db' token = None
             /\ fst (get_current_user fromisoformat request clock db')
                = inl (HTTPException 401 "Invalid session"))
     end.
Proof.
  intros db'. subst db'. unfold logout.
  destruct (bearer_token request) as [token|] eqn:B.
  - pose proof B as B'. apply bearer_token_some in B'.
    destruct B' as (h & Ha & Ht & Hs & Hn).
    rewrite Ha, Ht, Hs. cbn [andb]. unfold bind, index1. rewrite Hn.
    unfold ret, write. cbn [fst snd]. split; [reflexivity|].
    repeat split; try reflexivity.
    + intros t Ht'. unfold lookup_session. cbn [Db.user_sessions with_sessions].
      apply find_delete_first_other. intros s E. apply String.eqb_eq in E.
      apply String.eqb_neq. congruence.
    + unfold lookup_session. cbn [Db.user_sessions with_sessions].
      apply (find_delete_first_unique Session.session_token String.eqb token);
        [apply String.eqb_eq | assumption].
    + rewrite (get_current_user_token fromisoformat _ clock _ _ B).
      unfold lookup_session. cbn [Db.user_sessions with_sessions].
      rewrite (find_delete_first_unique Session.session_token String.eqb token);
        [reflexivity | apply String.eqb_eq | assumption].
  - apply bearer_token_none in B. destruct (authorization request) as [h|].
    + apply orb_prop in B.
      destruct (Py.truthy h); destruct (Py.startswith "Bearer " h);
        cbn [andb]; try (split; reflexivity);
        destruct B as [B|B]; discriminate B.
    + split; reflexivity.
Qed.

(** X3.  A login that is refused with an HTTP error is refused with 401, has
    created no session and changed nothing; an address that is not
    registered and a password that does not check are refused with the same
    words. *)
Theorem login_refusals lower checkpw data draw db :
  (forall status detail,
     fst (login lower checkpw data draw db) = inl (HTTPException status detail) ->
     status = 401
     /\ snd (login lower checkpw data draw db) = db
     /\ (detail = "Invalid email or password"
         \/ detail = "Please use Google Sign-In for this account"))
  /\ (user_by_email lower db (UserLogin.email data) = None ->
      login lower checkpw data draw db
      = (inl (HTTPException 401 "Invalid email or password"), db))
  /\ (forall u h,
        user_by_email lower db (UserLogin.email data) = Some u ->
        dict_get u "password_hash" = Some (VStr h) ->
        h <> "" ->
        checkpw (UserLogin.password data) h = Some false ->
        login lower checkpw data draw db
        = (inl (HTTPException 401 "Invalid email or password"), db)).
Proof.
  split; [|split].
  - intros status detail.
    destruct (login lower checkpw data draw db) as [r db'] eqn:E. cbn [fst snd]. intros ->.
    revert E.
    unfold login, bind, find_one_user_by, read. cbn [fst snd].
    destruct (find _ (Db.users db)) as [[|kv u']|] eqn:F;
      try (unfold raise; intros E; injection E as <- <- <-; auto).
    set (u := kv :: u') in *. clearbody u.
    destruct (dict_get u "password_hash") as [v|] eqn:P; cbn [negb];
      [|unfold raise; intros E; injection E as <- <- <-; auto].
    destruct (value_truthy v) eqn:T; cbn [negb];
      [|unfold raise; intros E; injection E as <- <- <-; auto].
    unfold dict_index at 1. rewrite P. unfold ret at 1. cbn [fst snd].
    destruct v as [|h| |]; try discriminate. unfold ret at 1.
    destruct (checkpw (UserLogin.password data) h) as [[|]|] eqn:C; try discriminate;
      [|unfold raise; intros E; injection E as <- <- <-; auto].
    unfold dict_index at 1.
    destruct (dict_get u "user_id") as [[|uid| |]|] eqn:U; try discriminate.
    unfold ret at 1. cbn [create_session_for].
    pose proof (create_session_run uid draw db) as R.
    destruct (add_days _ 7) as [d|] eqn:A; rewrite R; [|discriminate].
    unfold dict_index. rewrite U.
    destruct (dict_get u "email") as [e|]; [|discriminate].
    destruct (dict_get u "name") as [n|]; discriminate.
  - unfold user_by_email, login, bind, find_one_user_by, read. cbn [fst snd].
    intros ->. reflexivity.
  - unfold user_by_email, login, bind, find_one_user_by, read. cbn [fst snd].
    intros u h -> P N C.
    destruct u as [|kv u']; [discriminate|].
    rewrite P. unfold dict_index. rewrite P. unfold ret. cbn [fst snd].
    destruct h as [|c h]; [congruence|]. cbn [value_truthy Py.truthy negb].
    rewrite C. reflexivity.
Qed.
(* ===================================================================== *)
(** ** Registration *)
(* ===================================================================== *)

Lemma seeded_names uid hex clock :
  map Category.name (seeded uid hex clock) = (DEFAULT_CATEGORIES ++ DEFAULT_CATEGORIES)%list.
Proof. reflexivity. Qed.

Lemma seeded_sections uid hex clock :
  map Category.section (seeded uid hex clock)
  = (repeat "personal" 14 ++ repeat "business" 14)%list.
Proof. reflexivity. Qed.

Lemma seeded_owned uid hex clock :
  Forall (fun c => Category.user_id c = uid /\ Category.is_default c = true)
         (seeded uid hex clock).
Proof. unfold seeded. cbn. repeat constructor. Qed.

Lemma seed_default_categories_run uid hex clock db :
  seed_default_categories uid hex clock db
  = (inr tt, with_categories db (Db.categories db ++ seeded uid hex clock)).
Proof. reflexivity. Qed.


(** What [register] does, case by case. *)
Lemma register_run lower hashpw data draw db :
  register lower hashpw data draw db
  = match user_by_email lower db (UserRegister.email data) with
    | Some (_ :: _) => (inl (HTTPException 400 "Email already registered"), db)
    | _ =>
        match hashpw (UserRegister.password data) (RegisterDraw.salt draw) with
        | None => (inl (PyException "ValueError"), db)
        | Some hashed =>
            let user :=
              [("user_id", VStr (new_user_id draw));
               ("email", VStr (lower (UserRegister.email data)));
               ("name", VStr (UserRegister.name data));
               ("password_hash", VStr hashed);
               ("auth_provider", VStr "email");
               ("picture", VStr "");
               ("currency", VStr "CAD");
               ("theme", VStr "dark");
               ("created_at",
                VStr (isoformat (datetime_now_utc (RegisterDraw.user_clock draw))))] in
            match create_session (new_user_id draw) (RegisterDraw.session draw)
                    (with_account db user draw) with
            | (inl e, db') => (inl e, db')
            | (inr token, db') =>
                (inr (AuthResponse.mk token
                        [("user_id", VStr (new_user_id draw));
                         ("email", VStr (lower (UserRegister.email data)));
                         ("name", VStr (UserRegister.name data));
                         ("picture", VStr ""); ("currency", VStr "CAD");
                         ("theme", VStr "dark")]), db')
            end
        end
    end.
Proof.
  unfold register, bind, find_one_user_by, read, user_by_email. cbn [fst snd].
  destruct (find _ (Db.users db)) as [[|kv u']|];
    destruct (hashpw (UserRegister.password data) (RegisterDraw.salt draw)) as [h|];
    reflexivity.
Qed.

Lemma find_exists {A} (f : A -> bool) l a :
  In a l -> f a = true -> exists b, find f l = Some b /\ f b = true.
Proof.
  intros I F. destruct (find f l) as [b|] eqn:E.
  - exists b. split; [reflexivity|]. apply find_some in E. tauto.
  - eapply find_none in E; [|exact I]. congruence.
Qed.

Lemma field_matches_str key s u :
  field_matches key (VStr s) u = true <-> dict_get u key = Some (VStr s).
Proof.
  unfold field_matches. destruct (dict_get u key) as [[| x | f | b]|]; simpl;
    try (split; congruence).
  rewrite String.eqb_eq. split; congruence.
Qed.

Lemma user_by_email_nonempty lower db e u : user_by_email lower db e = Some u -> u <> [].
Proof.
  unfold user_by_email. intros F ->. apply find_some in F. destruct F as [_ F].
  discriminate F.
Qed.

(** X5.  An address is registered once, whatever its letter case: when a
    user document holds the lower-cased address, [register] answers 400 and
    writes nothing. *)
Theorem register_rejects_registered_email lower hashpw data draw db u e :
  In u (Db.users db) ->
  dict_get u "email" = Some (VStr (lower e)) ->
  lower e = lower (UserRegister.email data) ->
  register lower hashpw data draw db
  = (inl (HTTPException 400 "Email already registered"), db).
Proof.
  intros I E L. rewrite register_run. rewrite L in E.
  destruct (find_exists (field_matches "email" (VStr (lower (UserRegister.email data))))
              (Db.users db) u I (proj2 (field_matches_str _ _ _) E)) as [b [F _]].
  fold (user_by_email lower db (UserRegister.email data)) in F. rewrite F.
  destruct b; [|reflexivity].
  apply user_by_email_nonempty in F. congruence.
Qed.

(** X4.  A registration that returns has added one user document with the
    address as [str.lower] returns it ([lower] stands for that function),
    the fourteen default categories under [personal] and again under
    [business], and one session for the token it returns; nothing that was
    stored is changed, and the user it returns carries no password hash. *)
Theorem register_creates_account lower hashpw data draw db resp :
  fst (register lower hashpw data draw db) = inr resp ->
  let db' := snd (register lower hashpw data draw db) in
  let uid := new_user_id draw in
  exists user categories session,
    Db.users db' = (Db.users db ++ [user])%list
    /\ Db.categories db' = (Db.categories db ++ categories)%list
    /\ Db.user_sessions db' = (Db.user_sessions db ++ [session])%list
    /\ Db.receipts db' = Db.receipts db
    /\ dict_get user "user_id" = Some (VStr uid)
    /\ dict_get user "email" = Some (VStr (lower (UserRegister.email data)))
    /\ map Category.name categories = (DEFAULT_CATEGORIES ++ DEFAULT_CATEGORIES)%list
    /\ map Category.section categories
       = (repeat "personal" 14 ++ repeat "business" 14)%list
    /\ Forall (fun c => Category.user_id c = uid /\ Category.is_default c = true)
              categories
    /\ Session.session_token session = AuthResponse.token resp
    /\ Session.user_id session = uid
    /\ dict_get (AuthResponse.user resp) "user_id" = Some (VStr uid)
    /\ dict_keys (AuthResponse.user resp)
       = ["user_id"; "email"; "name"; "picture"; "currency"; "theme"].
Proof.
  rewrite register_run.
  destruct (user_by_email lower db (UserRegister.email data)) as [[|kv u']|];
    try discriminate;
    (destruct (hashpw _ _) as [h|]; [|discriminate]);
    cbv zeta;
    match goal with
    | |- context [create_session ?uid ?draw ?db] =>
        pose proof (create_session_run uid draw db) as R
    end;
    (destruct (add_days _ 7) as [d|]; rewrite R; [|discriminate]);
    cbn [fst snd]; intros H; injection H as <-;
    do 3 eexists;
    cbn [Db.users Db.categories Db.user_sessions Db.receipts with_sessions with_account
         with_categories with_users AuthResponse.token AuthResponse.user
         Session.session_token Session.user_id];
    (repeat split; try reflexivity; apply seeded_owned).
Qed.

(** X6.  After a registration, logging in with the same password and the
    address in any letter case succeeds and returns the same account,
    provided the hash that [hashpw] makes of a password is not empty and
    checks against that password. *)
Theorem register_then_login lower hashpw checkpw data draw db resp e sdraw :
  (forall p s h, hashpw p s = Some h -> h <> "" /\ checkpw p h = Some true) ->
  fst (register lower hashpw data draw db) = inr resp ->
  lower e = lower (UserRegister.email data) ->
  add_days (datetime_now_utc (SessionDraw.expiry_clock sdraw)) 7 <> None ->
  exists resp',
    fst (login lower checkpw (UserLogin.mk e (UserRegister.password data)) sdraw
           (snd (register lower hashpw data draw db))) = inr resp'
    /\ AuthResponse.user resp' = AuthResponse.user resp
    /\ AuthResponse.token resp' = "sess_" ++ SessionDraw.hex sdraw.
Proof.
  intros B. rewrite register_run.
  assert (N : user_by_email lower db (UserRegister.email data) = None
              \/ exists kv u', user_by_email lower db (UserRegister.email data) = Some (kv :: u')).
  { destruct (user_by_email lower db (UserRegister.email data)) as [[|kv u']|] eqn:F; eauto.
    apply user_by_email_nonempty in F. congruence. }
  destruct N as [N|[kv [u' N]]]; rewrite N; [|discriminate].
  destruct (hashpw _ _) as [h|] eqn:Hh; [|discriminate].
  cbv zeta.
  match goal with
  | |- context [create_session ?uid ?draw ?db] =>
      pose proof (create_session_run uid draw db) as R
  end.
  destruct (add_days _ 7) as [d|]; rewrite R; [|discriminate].
  cbn [fst snd]. intros H L A. injection H as <-.
  unfold login, bind, find_one_user_by, read. cbn [fst snd UserLogin.email UserLogin.password].
  cbn [Db.users with_sessions with_account with_categories with_users].
  rewrite L. unfold user_by_email in N. rewrite (find_app_none _ _ _ N).
  cbn [find]. unfold field_matches at 1. cbn [dict_get String.eqb Ascii.eqb Bool.eqb].
  cbn [Mongo.value_eqb]. rewrite String.eqb_refl.
  cbn [dict_get String.eqb Ascii.eqb Bool.eqb value_truthy].
  destruct (B _ _ _ Hh) as [Ne C].
  destruct h as [|c h]; [congruence|]. cbn [Py.truthy negb].
  unfold dict_index at 1. cbn [dict_get String.eqb Ascii.eqb Bool.eqb].
  unfold ret at 1. cbn [fst snd]. unfold ret at 1. rewrite C.
  unfold dict_index at 1. cbn [dict_get String.eqb Ascii.eqb Bool.eqb].
  unfold ret at 1. cbn [create_session_for].
  match goal with
  | |- context [create_session ?uid ?draw ?db] =>
      pose proof (create_session_run uid draw db) as R'
  end.
  destruct (add_days (datetime_now_utc (SessionDraw.expiry_clock sdraw)) 7) as [d'|];
    [|congruence].
  rewrite R'. unfold dict_index. cbn [dict_get String.eqb Ascii.eqb Bool.eqb].
  unfold ret. cbn [fst snd]. eexists. split; [reflexivity|].
  split; reflexivity.
Qed.
(* ===================================================================== *)
(** ** Signing in with Google *)
(* ===================================================================== *)


(** What [google_session] does for a reply with status 200 whose body
    holds an address that no user document carries. *)
Lemma google_session_new lower google_data draw db e :
  dict_get google_data "email" = Some (VStr e) ->
  user_by_email lower db e = None ->
  let user :=
    [("user_id", VStr (new_user_id draw));
     ("email", VStr (lower e));
     ("name", dict_get_default google_data "name" (VStr ""));
     ("password_hash", VStr "");
     ("auth_provider", VStr "google");
     ("picture", dict_get_default google_data "picture" (VStr ""));
     ("currency", VStr "CAD");
     ("theme", VStr "dark");
     ("created_at", VStr (isoformat (datetime_now_utc (RegisterDraw.user_clock draw))))] in
  google_session lower (Reply 200 (Some google_data)) draw db
  = match create_session (new_user_id draw) (RegisterDraw.session draw)
            (with_account db user draw) with
    | (inl err, db') => (inl err, db')
    | (inr token, db') =>
        (inr (GoogleResponse.mk token
                (option_map (dict_without "password_hash")
                   (find (user_matches (VStr (new_user_id draw))) (Db.users db')))), db')
    end.
Proof.
  intros E N user.
  unfold google_session, bind, find_one_user_by, find_one_user, read, dict_index, value_lower.
  cbn [Z.eqb Pos.eqb negb]. unfold ret at 1. cbn [fst snd]. rewrite E.
  unfold ret at 1. cbn [fst snd]. unfold ret at 1. cbn [fst snd].
  unfold user_by_email in N. rewrite N.
  unfold write at 1. cbn [fst snd].
  rewrite seed_default_categories_run. cbn [fst snd]. unfold ret at 1. cbn [fst snd].
  cbn [create_session_for].
  change (with_categories _ _) with (with_account db user draw).
  destruct (create_session _ _ _) as [[err|token] db']; reflexivity.
Qed.

(** X8.  An account that a Google sign-in created has no password: a login
    with its address, in any letter case and with any password, is refused
    and changes nothing. *)
Theorem google_account_has_no_password lower checkpw google_data draw db resp e e' password sdraw :
  dict_get google_data "email" = Some (VStr e) ->
  user_by_email lower db e = None ->
  fst (google_session lower (Reply 200 (Some google_data)) draw db) = inr resp ->
  lower e' = lower e ->
  let db' := snd (google_session lower (Reply 200 (Some google_data)) draw db) in
  login lower checkpw (UserLogin.mk e' password) sdraw db'
  = (inl (HTTPException 401 "Please use Google Sign-In for this account"), db').
Proof.
  intros E N. rewrite (google_session_new lower google_data draw db e E N). cbv zeta.
  match goal with
  | |- context [create_session ?uid ?draw ?db] =>
      pose proof (create_session_run uid draw db) as R
  end.
  destruct (add_days _ 7) as [d|]; rewrite R; [|discriminate].
  cbn [fst snd]. intros _ L.
  unfold login, bind, find_one_user_by, read. cbn [fst snd UserLogin.email UserLogin.password].
  cbn [Db.users with_sessions with_account with_categories with_users].
  rewrite L. unfold user_by_email in N. rewrite (find_app_none _ _ _ N).
  cbn [find]. unfold field_matches at 1. cbn [dict_get String.eqb Ascii.eqb Bool.eqb].
  cbn [Mongo.value_eqb]. rewrite String.eqb_refl.
  reflexivity.
Qed.







(* ===================================================================== *)
(** ** Handlers behind the gate *)
(* ===================================================================== *)

Section Behind.
Variable fromisoformat : string -> option datetime.

(** What a handler learns when the caller is known. *)
Lemma caller_some request clock db uid :
  caller fromisoformat request clock db = Some uid ->
  exists user,
    get_current_user fromisoformat request clock db = (inr user, db)
    /\ dict_get user "user_id" = Some (VStr uid).
Proof.
  unfold caller.
  destruct (fst (get_current_user fromisoformat request clock db)) as [e|user] eqn:G;
    [discriminate|].
  destruct (dict_get user "user_id") as [[|x| |]|] eqn:U; try discriminate.
  intros H. injection H as <-. exists user. split; [|exact U].
  apply get_current_user_ok in G. tauto.
Qed.

(** The gate reads the users and the sessions only. *)
Lemma gate_reads db1 db2 request clock :
  Db.users db1 = Db.users db2 ->
  Db.user_sessions db1 = Db.user_sessions db2 ->
  fst (get_current_user fromisoformat request clock db1)
  = fst (get_current_user fromisoformat request clock db2).
Proof.
  intros U S. destruct (bearer_token request) as [token|] eqn:B.
  - rewrite !(get_current_user_token fromisoformat _ clock _ _ B).
    unfold lookup_session. rewrite U, S. reflexivity.
  - rewrite !(get_current_user_no_token fromisoformat _ clock _ B). reflexivity.
Qed.

Lemma caller_reads db1 db2 request clock :
  Db.users db1 = Db.users db2 ->
  Db.user_sessions db1 = Db.user_sessions db2 ->
  caller fromisoformat request clock db1 = caller fromisoformat request clock db2.
Proof.
  intros U S. unfold caller. rewrite (gate_reads db1 db2 request clock U S). reflexivity.
Qed.

End Behind.

(* ===================================================================== *)
(** ** One document of a collection *)
(* ===================================================================== *)

Lemma find_ext_eq {A} (f g : A -> bool) l : (forall a, f a = g a) -> find f l = find g l.
Proof.
  intros X. induction l as [|a l IH]; [reflexivity|]. cbn [find]. rewrite X, IH. reflexivity.
Qed.

Lemma existsb_ext_eq {A} (f g : A -> bool) l :
  (forall a, f a = g a) -> existsb f l = existsb g l.
Proof.
  intros X. induction l as [|a l IH]; [reflexivity|]. cbn [existsb]. rewrite X, IH. reflexivity.
Qed.

Lemma replace_first_ext {A} (f g : A -> bool) set l :
  (forall a, f a = g a) -> Store.replace_first f set l = Store.replace_first g set l.
Proof.
  intros X. induction l as [|a l IH]; [reflexivity|]. cbn [Store.replace_first].
  rewrite X, IH. reflexivity.
Qed.

Lemma delete_first_ext {A} (f g : A -> bool) l :
  (forall a, f a = g a) -> Store.delete_first f l = Store.delete_first g l.
Proof.
  intros X. induction l as [|a l IH]; [reflexivity|]. cbn [Store.delete_first].
  rewrite X, IH. reflexivity.
Qed.

(** The first document that [f] selects, with what is before and after. *)
Lemma first_match {A} (f : A -> bool) l :
  existsb f l = true ->
  exists l1 a l2,
    l = (l1 ++ a :: l2)%list /\ f a = true /\ existsb f l1 = false
    /\ find f l = Some a
    /\ (forall set, Store.replace_first f set l = (l1 ++ set a :: l2)%list)
    /\ Store.delete_first f l = (l1 ++ l2)%list.
Proof.
  induction l as [|x l IH]; [discriminate|]. cbn [existsb find Store.replace_first
      Store.delete_first].
  destruct (f x) eqn:E.
  - intros _. exists [], x, l. repeat split; auto.
  - cbn [orb]. intros H. destruct (IH H) as (l1 & a & l2 & -> & Fa & N & Fi & U & D).
    exists (x :: l1), a, l2. cbn [existsb app]. rewrite E, N, D.
    repeat split; auto. intros set. rewrite U. reflexivity.
Qed.

Lemma no_match {A} (f : A -> bool) l :
  existsb f l = false ->
  find f l = None
  /\ (forall set, Store.replace_first f set l = l)
  /\ Store.delete_first f l = l.
Proof.
  induction l as [|x l IH]; [auto|]. cbn [existsb find Store.replace_first Store.delete_first].
  destruct (f x); [discriminate|]. cbn [orb]. intros H.
  destruct (IH H) as (F & U & D). rewrite F, D. repeat split; auto.
  intros set. rewrite U. reflexivity.
Qed.

(** The queries of the handlers, as tests on a document. *)
Lemma owned_category regex id uid :
  exists f, Mongo.compile regex Category.field (owned "category_id" id (VStr uid)) = inr f
            /\ forall c, f c = is_category id uid c.
Proof.
  eexists. split; [reflexivity|]. intros c. cbn. unfold is_category.
  rewrite andb_true_r. reflexivity.
Qed.

Lemma owned_receipt regex id uid :
  exists f, Mongo.compile regex Receipt.field (owned "receipt_id" id (VStr uid)) = inr f
            /\ forall r, f r = is_receipt id uid r.
Proof.
  eexists. split; [reflexivity|]. intros r. cbn. unfold is_receipt.
  rewrite andb_true_r. reflexivity.
Qed.

Lemma owned_use regex id uid :
  exists f, Mongo.compile regex Receipt.field (owned "category_id" id (VStr uid)) = inr f
            /\ forall r, f r = uses_category id uid r.
Proof.
  eexists. split; [reflexivity|]. intros r. cbn. unfold uses_category.
  rewrite andb_true_r. f_equal. apply nullable_eqb.
Qed.

Lemma own_categories regex uid :
  exists f, Mongo.compile regex Category.field [("user_id", Mongo.Is (VStr uid))] = inr f
            /\ forall c, f c = String.eqb (Category.user_id c) uid.
Proof.
  eexists. split; [reflexivity|]. intros c. cbn. apply andb_true_r.
Qed.
(* ===================================================================== *)
(** ** Categories *)
(* ===================================================================== *)

Section CategoryRuns.
Variable regex : Regex.engine.
Variable fromisoformat : string -> option datetime.

Lemma get_categories_run request clock db uid :
  caller fromisoformat request clock db = Some uid ->
  get_categories regex fromisoformat request clock db
  = (inr (firstn 500 (categories_of uid db)), db).
Proof.
  intros C. destruct (caller_some _ _ _ _ _ C) as (user & G & U).
  unfold get_categories, bind. rewrite G. unfold dict_index. rewrite U.
  unfold ret, query_db. cbn [fst snd].
  destruct (own_categories regex uid) as (f & Cf & Hf).
  unfold Mongo.to_list, Mongo.run, Mongo.find. cbn [Mongo.c_filter Mongo.c_sort Mongo.c_skip
    Mongo.c_limit Mongo.c_projection Z.ltb Z.compare Z.eqb Mongo.sort_by Z.to_nat skipn].
  rewrite Cf. cbn [Mongo.sort_by]. rewrite map_id.
  unfold categories_of. rewrite (filter_ext _ _ Hf).
  assert (S : forall l : list Category.t, Mongo.sort_by Category.field [] l = l).
  { induction l as [|a l IH]; [reflexivity|]. cbn [Mongo.sort_by]. rewrite IH.
    destruct l; reflexivity. }
  rewrite S. reflexivity.
Qed.

Lemma create_category_run data request clock hex now db uid :
  caller fromisoformat request clock db = Some uid ->
  let cat :=
    Category.mk ("cat_" ++ Str.take 12 hex) uid (CategoryCreate.name data)
                (CategoryCreate.section data) false (isoformat (datetime_now_utc now)) in
  create_category fromisoformat data request clock hex now db
  = (inr cat, with_categories db (Db.categories db ++ [cat])).
Proof.
  intros C. destruct (caller_some _ _ _ _ _ C) as (user & G & U).
  unfold create_category, bind. rewrite G. unfold dict_index. rewrite U. reflexivity.
Qed.

Lemma update_category_run id data request clock db uid :
  caller fromisoformat request clock db = Some uid ->
  update_category regex fromisoformat id data request clock db
  = if existsb (is_category id uid) (Db.categories db)
    then (inr "Category updated",
          with_categories db
            (Store.replace_first (is_category id uid) (set_name (CategoryUpdate.name data))
               (Db.categories db)))
    else (inl (HTTPException 404 "Category not found"),
          with_categories db
            (Store.replace_first (is_category id uid) (set_name (CategoryUpdate.name data))
               (Db.categories db))).
Proof.
  intros C. destruct (caller_some _ _ _ _ _ C) as (user & G & U).
  unfold update_category, bind. rewrite G. unfold dict_index. rewrite U.
  unfold ret at 1. cbn [fst snd].
  destruct (owned_category regex id uid) as (f & Cf & Hf).
  unfold modify, Store.update_one. rewrite Cf.
  rewrite (existsb_ext_eq _ _ _ Hf), (replace_first_ext _ _ _ _ Hf).
  destruct (existsb _ _); reflexivity.
Qed.

Lemma delete_category_run id request clock db uid :
  caller fromisoformat request clock db = Some uid ->
  let n := Z.of_nat (List.length (filter (uses_category id uid) (Db.receipts db))) in
  delete_category regex fromisoformat id request clock db
  = if 0 <? n
    then (inr (CategoryDeletion.mk
                 ("Warning: " ++ Format.decimal n ++ " receipts use this category")
                 (Some n) false), db)
    else if existsb (is_category id uid) (Db.categories db)
    then (inr (CategoryDeletion.mk "Category deleted" None true),
          with_categories db
            (Store.delete_first (is_category id uid) (Db.categories db)))
    else (inl (HTTPException 404 "Category not found"),
          with_categories db
            (Store.delete_first (is_category id uid) (Db.categories db))).
Proof.
  intros C n. destruct (caller_some _ _ _ _ _ C) as (user & G & U).
  unfold delete_category, bind. rewrite G. unfold dict_index. rewrite U.
  unfold ret at 1. cbn [fst snd]. unfold query_db. cbn [fst snd].
  destruct (owned_use regex id uid) as (g & Cg & Hg).
  unfold Mongo.count_documents. rewrite Cg. rewrite (filter_ext _ _ Hg). fold n.
  destruct (0 <? n); [reflexivity|].
  unfold ret at 1. cbn [fst snd].
  destruct (owned_category regex id uid) as (f & Cf & Hf).
  unfold modify, Store.delete_one. rewrite Cf.
  rewrite (existsb_ext_eq _ _ _ Hf), (delete_first_ext _ _ _ Hf).
  destruct (existsb _ _); reflexivity.
Qed.

End CategoryRuns.

Lemma with_categories_same db : with_categories db (Db.categories db) = db.
Proof. destruct db; reflexivity. Qed.

Lemma with_receipts_same db : with_receipts db (Db.receipts db) = db.
Proof. destruct db; reflexivity. Qed.

Lemma filter_app_one {A} (f : A -> bool) l a :
  filter f (l ++ [a]) = (filter f l ++ (if f a then [a] else []))%list.
Proof. rewrite filter_app. reflexivity. Qed.

Section CategoryProperties.
Variable regex : Regex.engine.
Variable fromisoformat : string -> option datetime.

(** X13.  The category list of an account holds the categories of that
    account and no other, in the order they were stored, and at most 500 of
    them; listing them changes nothing. *)
Theorem get_categories_lists_own request clock db uid :
  caller fromisoformat request clock db = Some uid ->
  exists cats,
    get_categories regex fromisoformat request clock db = (inr cats, db)
    /\ cats = firstn 500 (categories_of uid db)
    /\ Forall (fun c => Category.user_id c = uid /\ In c (Db.categories db)) cats
    /\ (List.length cats <= 500)%nat.
Proof.
  intros C. eexists. split; [apply (get_categories_run regex fromisoformat _ _ _ _ C)|].
  split; [reflexivity|]. split.
  - apply Forall_forall. intros c I. apply in_firstn in I.
    unfold categories_of in I. apply filter_In in I. destruct I as [I E].
    apply String.eqb_eq in E. tauto.
  - apply firstn_le_length.
Qed.

(** X14.  A category that is created is stored last, under the caller and
    not as a default.  The caller's list shows it when the caller had fewer
    than 500 categories; from 500 on the list stays as it was. *)
Theorem create_category_then_list data request clock hex now db uid :
  caller fromisoformat request clock db = Some uid ->
  let db' := snd (create_category fromisoformat data request clock hex now db) in
  exists cat,
    fst (create_category fromisoformat data request clock hex now db) = inr cat
    /\ Db.categories db' = (Db.categories db ++ [cat])%list
    /\ Category.user_id cat = uid
    /\ Category.name cat = CategoryCreate.name data
    /\ Category.section cat = CategoryCreate.section data
    /\ Category.is_default cat = false
    /\ ((List.length (categories_of uid db) < 500)%nat ->
        fst (get_categories regex fromisoformat request clock db')
        = inr (categories_of uid db ++ [cat])%list)
    /\ ((500 <= List.length (categories_of uid db))%nat ->
        fst (get_categories regex fromisoformat request clock db')
        = fst (get_categories regex fromisoformat request clock db)).
Proof.
  intros C db'. subst db'.
  pose proof (create_category_run fromisoformat data request clock hex now db uid C) as R.
  cbv zeta in R. rewrite R. cbn [fst snd].
  eexists. split; [reflexivity|]. split; [reflexivity|].
  cbn [Category.user_id Category.name Category.section Category.is_default].
  do 4 (split; [reflexivity|]).
  match goal with |- context [with_categories db ?cs] => set (db1 := with_categories db cs) end.
  assert (C1 : caller fromisoformat request clock db1 = Some uid).
  { rewrite <- C. apply caller_reads; reflexivity. }
  rewrite (get_categories_run regex fromisoformat _ _ _ _ C1),
          (get_categories_run regex fromisoformat _ _ _ _ C).
  cbn [fst]. unfold categories_of, db1. cbn [Db.categories with_categories].
  rewrite filter_app_one. cbn [Category.user_id]. rewrite String.eqb_refl.
  split; intros L.
  - rewrite firstn_all2; [reflexivity|]. rewrite length_app. cbn [List.length]. lia.
  - rewrite firstn_app. replace (500 - _)%nat with 0%nat by lia.
    cbn [firstn]. rewrite app_nil_r. reflexivity.
Qed.

(** X15.  Renaming a category answers 404, and changes nothing, exactly when
    the caller has no category with the identifier; otherwise the first such
    category gets the new name and nothing else changes.  A category of
    another account is never renamed. *)
Theorem update_category_outcome id data request clock db uid :
  caller fromisoformat request clock db = Some uid ->
  let r := fst (update_category regex fromisoformat id data request clock db) in
  let db' := snd (update_category regex fromisoformat id data request clock db) in
  (existsb (is_category id uid) (Db.categories db) = false ->
   r = inl (HTTPException 404 "Category not found") /\ db' = db)
  /\ (existsb (is_category id uid) (Db.categories db) = true ->
      r = inr "Category updated"
      /\ exists before c after,
           Db.categories db = (before ++ c :: after)%list
           /\ is_category id uid c = true
           /\ existsb (is_category id uid) before = false
           /\ db' = with_categories db
                      (before ++ set_name (CategoryUpdate.name data) c :: after))
  /\ filter (fun c => negb (String.eqb (Category.user_id c) uid)) (Db.categories db')
     = filter (fun c => negb (String.eqb (Category.user_id c) uid)) (Db.categories db).
Proof.
  intros C r db'. subst r db'.
  rewrite (update_category_run regex fromisoformat id data request clock db uid C).
  destruct (existsb (is_category id uid) (Db.categories db)) eqn:E; cbn [fst snd].
  - destruct (first_match _ _ E) as (l1 & c & l2 & L & Fc & N & _ & U & _).
    rewrite U. split; [discriminate|]. split.
    + intros _. split; [reflexivity|]. exists l1, c, l2. auto.
    + cbn [Db.categories with_categories]. rewrite L, !filter_app. cbn [filter].
      cbn [set_name Category.user_id].
      unfold is_category in Fc. apply andb_prop in Fc. destruct Fc as [_ Fc].
      rewrite Fc. reflexivity.
  - destruct (no_match _ _ E) as (_ & U & _). rewrite U, with_categories_same.
    split; [auto|]. split; [discriminate | reflexivity].
Qed.

(** X16.  Deleting a category has three outcomes.  While receipts of the
    caller use it, the answer is a warning with their number and nothing is
    deleted; otherwise the answer is 404 when the caller has no such
    category; otherwise the first such category is removed and nothing else.
    So after a deletion no receipt of the caller uses the identifier of the
    deleted category. *)
Theorem delete_category_outcome id request clock db uid :
  caller fromisoformat request clock db = Some uid ->
  let r := fst (delete_category regex fromisoformat id request clock db) in
  let db' := snd (delete_category regex fromisoformat id request clock db) in
  let users := filter (uses_category id uid) (Db.receipts db) in
  (users <> [] ->
   r = inr (CategoryDeletion.mk
              ("Warning: " ++ Format.decimal (Z.of_nat (List.length users))
               ++ " receipts use this category")
              (Some (Z.of_nat (List.length users))) false)
   /\ db' = db)
  /\ (users = [] -> existsb (is_category id uid) (Db.categories db) = false ->
      r = inl (HTTPException 404 "Category not found") /\ db' = db)
  /\ (users = [] -> existsb (is_category id uid) (Db.categories db) = true ->
      r = inr (CategoryDeletion.mk "Category deleted" None true)
      /\ exists before c after,
           Db.categories db = (before ++ c :: after)%list
           /\ is_category id uid c = true
           /\ existsb (is_category id uid) before = false
           /\ db' = with_categories db (before ++ after))
  /\ (forall d, r = inr d -> CategoryDeletion.deleted d = true ->
      forall x, In x (Db.receipts db') -> Receipt.user_id x = uid ->
                Receipt.category_id x <> Some id).
Proof.
  intros C r db' users. subst r db'.
  pose proof (delete_category_run regex fromisoformat id request clock db uid C) as R.
  cbv zeta in R. rewrite R. clear R. fold users.
  destruct users as [|x0 xs] eqn:Us.
  - cbn [List.length Z.of_nat Z.ltb Z.compare].
    split; [congruence|].
    destruct (existsb (is_category id uid) (Db.categories db)) eqn:E; cbn [fst snd].
    + destruct (first_match _ _ E) as (l1 & c & l2 & L & Fc & N & _ & _ & D).
      rewrite D. split; [discriminate|]. split.
      * intros _ _. split; [reflexivity|]. exists l1, c, l2. auto.
      * intros d _ _ x I Ux Cx. cbn [Db.receipts with_categories] in I.
        assert (X : In x users).
        { apply filter_In. split; [exact I|]. unfold uses_category.
          rewrite Cx, Ux. cbn. rewrite !String.eqb_refl. reflexivity. }
        rewrite Us in X. exact X.
    + destruct (no_match _ _ E) as (_ & _ & D). rewrite D, with_categories_same.
      split; [auto|]. split; [discriminate|]. intros d H. discriminate H.
  - assert (P : (0 <? Z.of_nat (List.length (x0 :: xs))) = true)
      by (apply Z.ltb_lt; cbn [List.length]; lia).
    rewrite P. cbn [fst snd].
    split; [auto|]. split; [discriminate|]. split; [discriminate|].
    intros d H. injection H as <-. discriminate.
Qed.

End CategoryProperties.
(* ===================================================================== *)
(** ** Receipts, one at a time *)
(* ===================================================================== *)

Section ReceiptRuns.
Variable regex : Regex.engine.
Variable fromisoformat : string -> option datetime.

Lemma create_receipt_run data request clock hex now db uid :
  caller fromisoformat request clock db = Some uid ->
  let receipt :=
    Receipt.mk ("rcpt_" ++ Str.take 12 hex) uid
      (Some (ReceiptCreate.merchant_name data)) (Some (ReceiptCreate.date data))
      (Some (ReceiptCreate.total data)) (Some (ReceiptCreate.tax data))
      (Some (ReceiptCreate.payment_method data))
      (Some (ReceiptCreate.section data)) (Some (ReceiptCreate.category_id data))
      (Some (ReceiptCreate.notes data)) (Some (ReceiptCreate.image_base64 data))
      (isoformat (datetime_now_utc now)) in
  create_receipt fromisoformat data request clock hex now db
  = (inr (CreatedReceipt.mk (Receipt.without_image receipt)
            (Py.truthy (ReceiptCreate.image_base64 data))),
     with_receipts db (Db.receipts db ++ [receipt])).
Proof.
  intros C. destruct (caller_some _ _ _ _ _ C) as (user & G & U).
  unfold create_receipt, bind. rewrite G. unfold dict_index. rewrite U. reflexivity.
Qed.

Lemma get_receipt_run id request clock db uid :
  caller fromisoformat request clock db = Some uid ->
  get_receipt regex fromisoformat id request clock db
  = (match find (is_receipt id uid) (Db.receipts db) with
     | Some r => inr r
     | None => inl (HTTPException 404 "Receipt not found")
     end, db).
Proof.
  intros C. destruct (caller_some _ _ _ _ _ C) as (user & G & U).
  unfold get_receipt, bind. rewrite G. unfold dict_index. rewrite U.
  unfold ret at 1. cbn [fst snd]. unfold query_db. cbn [fst snd].
  destruct (owned_receipt regex id uid) as (f & Cf & Hf).
  unfold Store.find_one. rewrite Cf. rewrite (find_ext_eq _ _ _ Hf).
  destruct (find _ _); reflexivity.
Qed.

Lemma update_receipt_run id data request clock db uid :
  caller fromisoformat request clock db = Some uid ->
  update_receipt regex fromisoformat id data request clock db
  = if ReceiptUpdate.is_empty data
    then (inl (HTTPException 400 "No fields to update"), db)
    else
      (if existsb (is_receipt id uid) (Db.receipts db)
       then inr "Receipt updated"
       else inl (HTTPException 404 "Receipt not found"),
       with_receipts db
         (Store.replace_first (is_receipt id uid) (ReceiptUpdate.apply data)
            (Db.receipts db))).
Proof.
  intros C. destruct (caller_some _ _ _ _ _ C) as (user & G & U).
  unfold update_receipt, bind. rewrite G.
  destruct (ReceiptUpdate.is_empty data); [reflexivity|].
  unfold dict_index. rewrite U.
  unfold ret at 1. cbn [fst snd].
  destruct (owned_receipt regex id uid) as (f & Cf & Hf).
  unfold modify, Store.update_one. rewrite Cf.
  rewrite (existsb_ext_eq _ _ _ Hf), (replace_first_ext _ _ _ _ Hf).
  destruct (existsb _ _); reflexivity.
Qed.

Lemma delete_receipt_run id request clock db uid :
  caller fromisoformat request clock db = Some uid ->
  delete_receipt regex fromisoformat id request clock db
  = (if existsb (is_receipt id uid) (Db.receipts db)
     then inr "Receipt deleted"
     else inl (HTTPException 404 "Receipt not found"),
     with_receipts db (Store.delete_first (is_receipt id uid) (Db.receipts db))).
Proof.
  intros C. destruct (caller_some _ _ _ _ _ C) as (user & G & U).
  unfold delete_receipt, bind. rewrite G. unfold dict_index. rewrite U.
  unfold ret at 1. cbn [fst snd].
  destruct (owned_receipt regex id uid) as (f & Cf & Hf).
  unfold modify, Store.delete_one. rewrite Cf.
  rewrite (existsb_ext_eq _ _ _ Hf), (delete_first_ext _ _ _ Hf).
  destruct (existsb _ _); reflexivity.
Qed.

End ReceiptRuns.

Lemma existsb_find_none {A} (f : A -> bool) l : existsb f l = false <-> find f l = None.
Proof.
  induction l as [|a l IH]; [tauto|]. cbn [existsb find].
  destruct (f a); cbn [orb]; [split; discriminate | exact IH].
Qed.

Section ReceiptProperties.
Variable regex : Regex.engine.
Variable fromisoformat : string -> option datetime.

(** X17.  A receipt that is created can be read back: when the identifier
    drawn for it is not in use for the caller, [get_receipt] with that
    identifier returns what was sent, image included, while the answer of
    [create_receipt] itself leaves the image out and says whether there is
    one. *)
Theorem create_then_get_receipt data request clock hex now db uid clock' :
  caller fromisoformat request clock db = Some uid ->
  caller fromisoformat request clock' db = Some uid ->
  let id := "rcpt_" ++ Str.take 12 hex in
  existsb (is_receipt id uid) (Db.receipts db) = false ->
  let db' := snd (create_receipt fromisoformat data request clock hex now db) in
  exists created stored,
    fst (create_receipt fromisoformat data request clock hex now db) = inr created
    /\ get_receipt regex fromisoformat id request clock' db' = (inr stored, db')
    /\ Db.receipts db' = (Db.receipts db ++ [stored])%list
    /\ CreatedReceipt.receipt created = Receipt.without_image stored
    /\ CreatedReceipt.has_image created
       = negb (String.eqb (ReceiptCreate.image_base64 data) "")
    /\ stored
       = Receipt.mk id uid
           (Some (ReceiptCreate.merchant_name data)) (Some (ReceiptCreate.date data))
           (Some (ReceiptCreate.total data)) (Some (ReceiptCreate.tax data))
           (Some (ReceiptCreate.payment_method data))
           (Some (ReceiptCreate.section data)) (Some (ReceiptCreate.category_id data))
           (Some (ReceiptCreate.notes data)) (Some (ReceiptCreate.image_base64 data))
           (isoformat (datetime_now_utc now)).
Proof.
  intros C C' id N db'. subst db'.
  pose proof (create_receipt_run fromisoformat data request clock hex now db uid C) as R.
  cbv zeta in R. rewrite R. cbn [fst snd].
  match goal with |- context [with_receipts db ?rs] => set (db1 := with_receipts db rs) end.
  assert (C1 : caller fromisoformat request clock' db1 = Some uid).
  { rewrite <- C'. apply caller_reads; reflexivity. }
  rewrite (get_receipt_run regex fromisoformat _ _ _ _ _ C1).
  unfold db1. cbn [Db.receipts with_receipts].
  apply existsb_find_none in N. rewrite (find_app_none _ _ _ N).
  cbn [find]. unfold is_receipt at 1. cbn [Receipt.receipt_id Receipt.user_id].
  fold id. rewrite !String.eqb_refl. cbn [andb].
  do 2 eexists. split; [reflexivity|]. split; [reflexivity|]. split; [reflexivity|].
  cbn [CreatedReceipt.receipt CreatedReceipt.has_image].
  split; [reflexivity|]. split; [|reflexivity].
  destruct (ReceiptCreate.image_base64 data); reflexivity.
Qed.

(** X18.  A receipt of another account is out of reach: when the caller has
    no receipt with the identifier, reading, changing and deleting it all
    answer 404, as for an identifier that does not exist, and change
    nothing. *)
Theorem foreign_receipt_not_found id data request clock db uid :
  caller fromisoformat request clock db = Some uid ->
  existsb (is_receipt id uid) (Db.receipts db) = false ->
  ReceiptUpdate.is_empty data = false ->
  get_receipt regex fromisoformat id request clock db
  = (inl (HTTPException 404 "Receipt not found"), db)
  /\ update_receipt regex fromisoformat id data request clock db
     = (inl (HTTPException 404 "Receipt not found"), db)
  /\ delete_receipt regex fromisoformat id request clock db
     = (inl (HTTPException 404 "Receipt not found"), db).
Proof.
  intros C N E.
  rewrite (get_receipt_run regex fromisoformat _ _ _ _ _ C),
          (update_receipt_run regex fromisoformat _ _ _ _ _ _ C),
          (delete_receipt_run regex fromisoformat _ _ _ _ _ C).
  rewrite E, N. destruct (no_match _ _ N) as (F & U & D).
  rewrite F, U, D, with_receipts_same. auto.
Qed.

(** X19.  An update without fields is refused with 400 whether the receipt
    exists or not.  An update with fields of a receipt of the caller changes
    the first receipt with the identifier and no other: every field the
    body carries is replaced by what was sent for it, an explicit null
    leaving the field null, whichever field it is; a field the body does
    not carry, the identifier, the owner, the image and the creation time
    stay; and [get_receipt] then returns the updated receipt. *)
Theorem update_receipt_outcome id data request clock db uid :
  caller fromisoformat request clock db = Some uid ->
  let r := fst (update_receipt regex fromisoformat id data request clock db) in
  let db' := snd (update_receipt regex fromisoformat id data request clock db) in
  (ReceiptUpdate.is_empty data = true ->
   r = inl (HTTPException 400 "No fields to update") /\ db' = db)
  /\ (ReceiptUpdate.is_empty data = false ->
      existsb (is_receipt id uid) (Db.receipts db) = true ->
      r = inr "Receipt updated"
      /\ exists before old new after,
           Db.receipts db = (before ++ old :: after)%list
           /\ is_receipt id uid old = true
           /\ existsb (is_receipt id uid) before = false
           /\ db' = with_receipts db (before ++ new :: after)
           /\ get_receipt regex fromisoformat id request clock db' = (inr new, db')
           /\ after_update (ReceiptUpdate.merchant_name data)
                (Receipt.merchant_name old) (Receipt.merchant_name new)
           /\ after_update (ReceiptUpdate.date data) (Receipt.date old) (Receipt.date new)
           /\ after_update (ReceiptUpdate.total data) (Receipt.total old)
                (Receipt.total new)
           /\ after_update (ReceiptUpdate.tax data) (Receipt.tax old) (Receipt.tax new)
           /\ after_update (ReceiptUpdate.payment_method data)
                (Receipt.payment_method old) (Receipt.payment_method new)
           /\ after_update (ReceiptUpdate.section data) (Receipt.section old)
                (Receipt.section new)
           /\ after_update (ReceiptUpdate.category_id data) (Receipt.category_id old)
                (Receipt.category_id new)
           /\ after_update (ReceiptUpdate.notes data) (Receipt.notes old)
                (Receipt.notes new)
           /\ Receipt.receipt_id new = Receipt.receipt_id old
           /\ Receipt.user_id new = Receipt.user_id old
           /\ Receipt.image_base64 new = Receipt.image_base64 old
           /\ Receipt.created_at new = Receipt.created_at old).
Proof.
  intros C r db'. subst r db'.
  rewrite (update_receipt_run regex fromisoformat _ _ _ _ _ _ C).
  destruct (ReceiptUpdate.is_empty data); cbn [fst snd].
  - split; [auto | discriminate].
  - split; [discriminate|]. intros _ E. rewrite E.
    destruct (first_match _ _ E) as (l1 & old & l2 & L & Fo & N & _ & U & _).
    rewrite U. split; [reflexivity|].
    exists l1, old, (ReceiptUpdate.apply data old), l2.
    do 4 (split; [auto|]). split.
    + match goal with
      | |- context [with_receipts db ?rs] => set (db1 := with_receipts db rs)
      end.
      assert (C1 : caller fromisoformat request clock db1 = Some uid).
      { rewrite <- C. apply caller_reads; reflexivity. }
      rewrite (get_receipt_run regex fromisoformat _ _ _ _ _ C1).
      unfold db1. cbn [Db.receipts with_receipts].
      apply existsb_find_none in N. rewrite (find_app_none _ _ _ N).
      cbn [find]. unfold is_receipt in *.
      cbn [ReceiptUpdate.apply Receipt.receipt_id Receipt.user_id].
      rewrite Fo. reflexivity.
    + cbn [ReceiptUpdate.apply Receipt.merchant_name Receipt.date Receipt.total
           Receipt.tax Receipt.payment_method Receipt.section Receipt.category_id
           Receipt.notes Receipt.receipt_id Receipt.user_id Receipt.image_base64
           Receipt.created_at].
      repeat split;
        match goal with
        | |- after_update ?p _ _ => destruct p; reflexivity
        end.
Qed.

(** X20.  Deleting a receipt of the caller removes the first receipt with
    the identifier and nothing else. *)
Theorem delete_receipt_outcome id request clock db uid :
  caller fromisoformat request clock db = Some uid ->
  existsb (is_receipt id uid) (Db.receipts db) = true ->
  let db' := snd (delete_receipt regex fromisoformat id request clock db) in
  fst (delete_receipt regex fromisoformat id request clock db) = inr "Receipt deleted"
  /\ exists before old after,
       Db.receipts db = (before ++ old :: after)%list
       /\ is_receipt id uid old = true
       /\ existsb (is_receipt id uid) before = false
       /\ db' = with_receipts db (before ++ after)
       /\ List.length (receipts_of uid db') = Nat.pred (List.length (receipts_of uid db))
       /\ (forall other, other <> uid -> receipts_of other db' = receipts_of other db)
       /\ (NoDup (map Receipt.receipt_id (receipts_of uid db)) ->
           get_receipt regex fromisoformat id request clock db'
           = (inl (HTTPException 404 "Receipt not found"), db')).
Proof.
  intros C E db'. subst db'.
  rewrite (delete_receipt_run regex fromisoformat _ _ _ _ _ C). rewrite E. cbn [fst snd].
  destruct (first_match _ _ E) as (l1 & old & l2 & L & Fo & N & _ & _ & D).
  rewrite D. split; [reflexivity|]. exists l1, old, l2.
  do 4 (split; [auto|]).
  pose proof Fo as Fo'. unfold is_receipt in Fo'. apply andb_prop in Fo'.
  destruct Fo' as [Fi Fu]. apply String.eqb_eq in Fi, Fu.
  unfold receipts_of. cbn [Db.receipts with_receipts]. rewrite L.
  split; [|split].
  - rewrite !filter_app. cbn [filter].
    rewrite Fu, String.eqb_refl, !length_app. cbn [List.length]. lia.
  - intros other O. rewrite !filter_app. cbn [filter]. rewrite Fu.
    destruct (String.eqb_spec uid other); [congruence|reflexivity].
  - intros ND.
    match goal with |- context [with_receipts db ?rs] => set (db1 := with_receipts db rs) end.
    assert (C1 : caller fromisoformat request clock db1 = Some uid).
    { rewrite <- C. apply caller_reads; reflexivity. }
    rewrite (get_receipt_run regex fromisoformat _ _ _ _ _ C1).
    unfold db1. cbn [Db.receipts with_receipts].
    replace (find (is_receipt id uid) (l1 ++ l2)) with (@None Receipt.t); [reflexivity|].
    symmetry. apply existsb_find_none. rewrite existsb_app, N. cbn [orb].
    destruct (existsb (is_receipt id uid) l2) eqn:X; [|reflexivity]. exfalso.
    apply existsb_exists in X. destruct X as (x & Ix & Fx).
    unfold is_receipt in Fx. apply andb_prop in Fx. destruct Fx as [Xi Xu].
    apply String.eqb_eq in Xi, Xu.
    rewrite filter_app in ND. cbn [filter] in ND.
    rewrite Fu, String.eqb_refl in ND. rewrite map_app in ND. cbn [map] in ND.
    apply NoDup_remove_2 in ND. apply ND. apply in_or_app. right.
    rewrite Fi, <- Xi. apply in_map. apply filter_In. split; [exact Ix|].
    rewrite Xu. apply String.eqb_refl.
Qed.

End ReceiptProperties.

(* ===================================================================== *)
(** ** What the gate protects *)
(* ===================================================================== *)

Lemma reads_only_ret {A} (a : A) : reads_only (ret a).
Proof. intros db. reflexivity. Qed.

Lemma reads_only_raise {A} e : reads_only (@raise A e).
Proof. intros db. reflexivity. Qed.

Lemma reads_only_query {A} (f : Db.t -> error + A) : reads_only (query_db f).
Proof. intros db. reflexivity. Qed.

Lemma reads_only_lift {A} (r : error + A) : reads_only (lift r).
Proof. intros db. reflexivity. Qed.

Lemma reads_only_bind {A B} (m : App A) (k : A -> App B) :
  reads_only m -> (forall a, reads_only (k a)) -> reads_only (bind m k).
Proof.
  intros Hm Hk db. unfold bind. specialize (Hm db).
  destruct (m db) as [[e|a] db1]; cbn [snd] in *; subst db1; [reflexivity | apply Hk].
Qed.

Lemma reads_only_index {V} (d : pydict V) k : reads_only (dict_index d k).
Proof. unfold dict_index. destruct (dict_get d k); intros db; reflexivity. Qed.

Ltac reads :=
  repeat first
    [ assumption | apply reads_only_ret | apply reads_only_raise | apply reads_only_query
    | apply reads_only_lift | apply reads_only_index
    | apply reads_only_bind; [|intros ?]
    | match goal with
      | |- reads_only (match ?x with _ => _ end) => destruct x
      | |- reads_only (if ?x then _ else _) => destruct x
      end ].

Section Protected.
Variable regex : Regex.engine.
Variable fromisoformat : string -> option datetime.
Variable title : string -> string.

Lemma reads_only_gate request clock :
  reads_only (get_current_user fromisoformat request clock).
Proof. intros db. apply get_current_user_state. Qed.

(** X12.  The handlers that only report: whatever the request and whatever
    they answer, the store afterwards is the store before. *)
Theorem readers_change_nothing request clock :
  reads_only (get_me fromisoformat request clock)
  /\ reads_only (get_categories regex fromisoformat request clock)
  /\ (forall p, reads_only (get_receipts regex fromisoformat request clock p))
  /\ (forall id, reads_only (get_receipt regex fromisoformat id request clock))
  /\ (forall now, reads_only (get_dashboard_summary regex fromisoformat request clock now))
  /\ (forall date_from date_to section,
        reads_only (get_tax_summary regex fromisoformat request clock date_from date_to section))
  /\ (forall date_from date_to section,
        reads_only (export_csv regex fromisoformat title request clock date_from date_to section)).
Proof.
  pose proof (reads_only_gate request clock) as G.
  repeat split; intros.
  - unfold get_me. reads.
  - unfold get_categories. reads.
  - unfold get_receipts. reads.
  - unfold get_receipt. reads.
  - unfold get_dashboard_summary. reads.
  - unfold get_tax_summary. reads.
  - unfold export_csv. reads.
Qed.

(** X11.  No handler behind the gate does anything for a request that the
    gate refuses: it ends with the refusal of the gate and the store is
    untouched. *)
Theorem refused_requests_reach_nothing request clock db e :
  fst (get_current_user fromisoformat request clock db) = inl e ->
  get_me fromisoformat request clock db = (inl e, db)
  /\ (forall data, update_settings fromisoformat data request clock db = (inl e, db))
  /\ get_categories regex fromisoformat request clock db = (inl e, db)
  /\ (forall data hex now,
        create_category fromisoformat data request clock hex now db = (inl e, db))
  /\ (forall id data, update_category regex fromisoformat id data request clock db = (inl e, db))
  /\ (forall id, delete_category regex fromisoformat id request clock db = (inl e, db))
  /\ (forall p, get_receipts regex fromisoformat request clock p db = (inl e, db))
  /\ (forall data hex now,
        create_receipt fromisoformat data request clock hex now db = (inl e, db))
  /\ (forall id, get_receipt regex fromisoformat id request clock db = (inl e, db))
  /\ (forall id data, update_receipt regex fromisoformat id data request clock db = (inl e, db))
  /\ (forall id, delete_receipt regex fromisoformat id request clock db = (inl e, db))
  /\ (forall now, get_dashboard_summary regex fromisoformat request clock now db = (inl e, db))
  /\ (forall date_from date_to section,
        get_tax_summary regex fromisoformat request clock date_from date_to section db
        = (inl e, db))
  /\ (forall date_from date_to section,
        export_csv regex fromisoformat title request clock date_from date_to section db = (inl e,
            db)).
Proof.
  intros H.
  assert (G : get_current_user fromisoformat request clock db = (inl e, db)).
  { pose proof (get_current_user_state fromisoformat request clock db) as S.
    destruct (get_current_user fromisoformat request clock db) as [r db1].
    cbn [fst snd] in *. congruence. }
  repeat split; intros;
    unfold get_me, update_settings, get_categories, create_category, update_category,
      delete_category, get_receipts, create_receipt, get_receipt, update_receipt,
      delete_receipt, get_dashboard_summary, get_tax_summary, export_csv, bind;
    rewrite G; reflexivity.
Qed.

End Protected.

Section Refusals.
Variable fromisoformat : string -> option datetime.

(** X10.  The gate refuses with 401 and one of its four reasons, or, when
    the expiry of the session is stored as a string that does not parse,
    with the [ValueError] of the parser; it raises nothing else. *)
Theorem gate_refusals request clock db e :
  fst (get_current_user fromisoformat request clock db) = inl e ->
  (exists detail,
     e = HTTPException 401 detail
     /\ In detail ["Not authenticated"; "Invalid session"; "Session expired";
                   "User not found"])
  \/ (e = PyException "ValueError"
      /\ exists token s text,
           bearer_token request = Some token
           /\ lookup_session db token = Some s
           /\ Session.expires_at s = TStr text
           /\ fromisoformat text = None).
Proof.
  destruct (bearer_token request) as [token|] eqn:B.
  - rewrite (get_current_user_token fromisoformat _ clock _ _ B).
    destruct (lookup_session db token) as [s|] eqn:L.
    + unfold session_expiry.
      destruct (Session.expires_at s) as [text|d] eqn:X.
      * destruct (fromisoformat text) as [d|] eqn:P.
        -- destruct (instant d <? _).
           ++ intros H. injection H as <-. left. eexists. split; [reflexivity|]. cbn. tauto.
           ++ destruct (find _ _); [discriminate|].
              intros H. injection H as <-. left. eexists. split; [reflexivity|]. cbn. tauto.
        -- intros H. injection H as <-. right. split; [reflexivity|].
           exists token, s, text. auto.
      * destruct (instant d <? _).
        -- intros H. injection H as <-. left. eexists. split; [reflexivity|]. cbn. tauto.
        -- destruct (find _ _); [discriminate|].
           intros H. injection H as <-. left. eexists. split; [reflexivity|]. cbn. tauto.
    + intros H. injection H as <-. left. eexists. split; [reflexivity|]. cbn. tauto.
  - rewrite (get_current_user_no_token fromisoformat _ clock _ B).
    intros H. injection H as <-. left. eexists. split; [reflexivity|]. cbn. tauto.
Qed.

End Refusals.
(* ===================================================================== *)
(** ** Writes seen through the listing *)
(* ===================================================================== *)

Section ListingAfterWrites.
Variable regex : Regex.engine.
Variable fromisoformat : string -> option datetime.

(** The outcome of a listing on any store with the same users and
    sessions: the same failure, or the count of what is selected there. *)
Lemma listing_total_on request clock db db1 uid p :
  caller fromisoformat request clock db = Some uid ->
  Db.users db1 = Db.users db ->
  Db.user_sessions db1 = Db.user_sessions db ->
  match fst (get_receipts regex fromisoformat request clock p db) with
  | inr l =>
      listing_total l
      = Z.of_nat (List.length (filter (selected regex uid p) (Db.receipts db)))
      /\ exists l1,
           fst (get_receipts regex fromisoformat request clock p db1) = inr l1
           /\ listing_total l1
              = Z.of_nat (List.length (filter (selected regex uid p) (Db.receipts db1)))
  | inl e => fst (get_receipts regex fromisoformat request clock p db1) = inl e
  end.
Proof.
  intros C Us Ss.
  destruct (caller_some _ _ _ _ _ C) as (user & G & U).
  assert (G0 : fst (get_current_user fromisoformat request clock db) = inr user)
    by (rewrite G; reflexivity).
  assert (G1 : fst (get_current_user fromisoformat request clock db1) = inr user).
  { rewrite <- G0. apply gate_reads; assumption. }
  rewrite (get_receipts_run regex fromisoformat request clock p db user uid G0 U).
  rewrite (get_receipts_run regex fromisoformat request clock p db1 user uid G1 U).
  cbv zeta.
  destruct (_ <? 0); [reflexivity|]. destruct (_ <? 0); [reflexivity|].
  destruct (_ || _); [reflexivity|].
  destruct (search_accepted regex (search p)); [|reflexivity].
  cbn [listing_total]. split; [reflexivity|].
  eexists. split; reflexivity.
Qed.

(** X21.  The total of a listing follows the writes.  A listing that
    fails (a negative or too large [skip] or [limit], a search pattern that
    the server refuses) fails in the same way after a receipt is created or
    deleted.  A listing that returns still returns: after a receipt is
    created it counts one more exactly when the new receipt passes its
    filters, and after a receipt is deleted it counts one less exactly when
    the deleted receipt passed them, the search filter being the match of
    the server's own library. *)
Theorem listing_total_follows_writes request clock db uid p :
  caller fromisoformat request clock db = Some uid ->
  (forall data hex now,
     let db' := snd (create_receipt fromisoformat data request clock hex now db) in
     exists stored,
       Db.receipts db' = (Db.receipts db ++ [stored])%list
       /\ match fst (get_receipts regex fromisoformat request clock p db) with
          | inr l =>
              exists l',
                fst (get_receipts regex fromisoformat request clock p db') = inr l'
                /\ listing_total l'
                   = listing_total l + (if selected regex uid p stored then 1 else 0)
          | inl e => fst (get_receipts regex fromisoformat request clock p db') = inl e
          end)
  /\ (forall id old,
        find (is_receipt id uid) (Db.receipts db) = Some old ->
        let db' := snd (delete_receipt regex fromisoformat id request clock db) in
        match fst (get_receipts regex fromisoformat request clock p db) with
        | inr l =>
            exists l',
              fst (get_receipts regex fromisoformat request clock p db') = inr l'
              /\ listing_total l'
                 = listing_total l - (if selected regex uid p old then 1 else 0)
        | inl e => fst (get_receipts regex fromisoformat request clock p db') = inl e
        end).
Proof.
  intros C. split.
  - intros data hex now db'. subst db'.
    pose proof (create_receipt_run fromisoformat data request clock hex now db uid C) as R.
    cbv zeta in R. rewrite R. cbn [snd].
    match goal with |- context [with_receipts db ?rs] => set (db1 := with_receipts db rs) end.
    eexists. split; [reflexivity|].
    pose proof (listing_total_on request clock db db1 uid p C eq_refl eq_refl) as T.
    destruct (fst (get_receipts regex fromisoformat request clock p db)) as [e|l];
      [exact T|].
    destruct T as (T & l1 & L1 & T1).
    exists l1. split; [exact L1|].
    rewrite T1, T. unfold db1. cbn [Db.receipts with_receipts].
    rewrite filter_app_one, length_app.
    destruct (selected regex uid p _); cbn [List.length]; lia.
  - intros id old F db'. subst db'.
    rewrite (delete_receipt_run regex fromisoformat _ _ _ _ _ C). cbn [snd].
    match goal with |- context [with_receipts db ?rs] => set (db1 := with_receipts db rs) end.
    pose proof (listing_total_on request clock db db1 uid p C eq_refl eq_refl) as T.
    destruct (fst (get_receipts regex fromisoformat request clock p db)) as [e|l];
      [exact T|].
    destruct T as (T & l1 & L1 & T1).
    exists l1. split; [exact L1|].
    rewrite T1, T. unfold db1. cbn [Db.receipts with_receipts].
    assert (E : existsb (is_receipt id uid) (Db.receipts db) = true).
    { destruct (existsb _ _) eqn:X; [reflexivity|].
      apply existsb_find_none in X. congruence. }
    destruct (first_match _ _ E) as (l1' & a & l2 & Lr & _ & _ & Fa & _ & D).
    rewrite D, Lr. rewrite F in Fa. injection Fa as <-.
    rewrite !filter_app, !length_app. cbn [filter].
    destruct (selected regex uid p old); cbn [List.length]; lia.
Qed.

End ListingAfterWrites.

(* ===================================================================== *)
(** ** Settings *)
(* ===================================================================== *)

Section Settings.
Variable fromisoformat : string -> option datetime.


End Settings.

Section SettingsProperties.
Variable fromisoformat : string -> option datetime.




End SettingsProperties.

(* ===================================================================== *)
(** ** The rest of the dashboard *)
(* ===================================================================== *)

Lemma sort_by_nil {D} (field : D -> string -> option value) l :
  Mongo.sort_by field [] l = l.
Proof.
  induction l as [|a l IH]; [reflexivity|]. cbn [Mongo.sort_by]. rewrite IH.
  destruct l; reflexivity.
Qed.

Lemma fold_dict_get {V} (l : list (string * V)) : forall acc k v,
  dict_get (fold_left (fun m c => dict_set m (fst c) (snd c)) l acc) k = Some v ->
  In (k, v) l \/ dict_get acc k = Some v.
Proof.
  induction l as [|[k0 v0] l IH]; intros acc k v H; [right; exact H|].
  cbn [fold_left fst snd] in H. apply IH in H. destruct H as [H|H].
  - left. right. exact H.
  - destruct (String.eqb_spec k0 k) as [->|N].
    + rewrite dict_get_set_same in H. injection H as <-. left. left. reflexivity.
    + rewrite dict_get_set_other in H by exact N. right. exact H.
Qed.

(** A name that [resolve_names] gives for an identifier is the name of a
    category document with that identifier. *)
Lemma resolve_names_sound regex ids n coll m k name :
  resolve_names regex ids n coll = inr m ->
  dict_get m k = Some name ->
  exists c, In c coll /\ Category.category_id c = k /\ Category.name c = name.
Proof.
  unfold resolve_names, Mongo.to_list, Mongo.run, Mongo.find.
  destruct (n <? 0); [discriminate|].
  cbn [Mongo.c_filter Mongo.c_projection Mongo.c_sort Mongo.c_skip Mongo.c_limit
       Mongo.compile Mongo.compile_cond Mongo.compile_ops Mongo.compile_op
       String.eqb Ascii.eqb Bool.eqb Z.eqb Z.to_nat skipn].
  rewrite sort_by_nil. intros H. injection H as <-. intros G.
  apply fold_dict_get in G. destruct G as [G|G]; [|discriminate].
  apply in_firstn, in_map_iff in G. destruct G as (c & E & I).
  apply filter_In in I. destruct I as [I _]. injection E as <- <-.
  exists c. auto.
Qed.

Lemma truthy_ids_nil l :
  truthy_ids l = [] <-> Forall (fun o => Py.truthy_opt o = false) l.
Proof.
  induction l as [|o l IH]; cbn [truthy_ids flat_map]; [split; auto|].
  fold (truthy_ids l).
  destruct o as [s|]; cbn [Py.truthy_opt].
  - destruct (Py.truthy s) eqn:T; cbn [app].
    + split; [discriminate|]. intros H. inversion H as [|? ? H1 H2]. cbn in H1. congruence.
    + rewrite IH. split; [constructor; auto | intros H; inversion H; auto].
  - cbn [app]. rewrite IH. split; [constructor; auto | intros H; inversion H; auto].
Qed.

Lemma distinct_nil {K} (eqb : K -> K -> bool) l : Mongo.distinct eqb l = [] <-> l = [].
Proof. destruct l; cbn; split; congruence. Qed.

Lemma before_created_desc a b :
  Mongo.before Receipt.field [("created_at", -1)] a b = true <-> created_descending a b.
Proof.
  unfold created_descending. cbn.
  destruct (String.leb (Receipt.created_at b) (Receipt.created_at a)); [|split; discriminate].
  destruct (String.leb (Receipt.created_at a) (Receipt.created_at b)); tauto.
Qed.

Lemma recent_run regex uid coll :
  Mongo.to_list regex Receipt.field coll
    (Mongo.limit
       (Mongo.sort (Mongo.find [("user_id", Mongo.Is (VStr uid))] Receipt.without_image)
                   "created_at" (-1)) 10) 10
  = inr (map Receipt.without_image
           (firstn 10 (Mongo.sort_by Receipt.field [("created_at", -1)]
                         (filter (fun r => String.eqb (Receipt.user_id r) uid) coll)))).
Proof.
  unfold Mongo.to_list, Mongo.run, Mongo.find, Mongo.sort, Mongo.limit.
  cbn [Mongo.c_filter Mongo.c_projection Mongo.c_sort Mongo.c_skip Mongo.c_limit
       Z.ltb Z.compare Z.eqb Z.abs Z.to_nat skipn].
  destruct (owner_denotes regex uid) as (f & Cf & Hf). rewrite Cf.
  change ((Mongo.max_int64 <? 0) || (Mongo.max_int64 <? 10)) with false. cbv iota.
  rewrite (filter_ext _ _ Hf).
  change (Pos.to_nat 10) with 10%nat.
  rewrite <- firstn_map, firstn_firstn. reflexivity.
Qed.

(** The section breakdown that the loop over the rows builds. *)
Lemma section_fold rows : forall acc,
  NoDup (map (@GroupRow._id _) rows) ->
  (forall s k, In s rows -> GroupRow._id s = Some k -> ~ In k (map fst acc)) ->
  fold_left
    (fun d (s : GroupRow.t (option string)) =>
       match GroupRow._id s with
       | Some k => if Py.truthy k
                   then dict_set d k (GroupRow.total s, GroupRow.count s)
                   else d
       | None => d
       end) rows acc
  = (acc ++ flat_map section_entry rows)%list.
Proof.
  assert (A : forall (d : pydict (num * Z)) k v,
            ~ In k (map fst d) -> dict_set d k v = (d ++ [(k, v)])%list).
  { induction d as [|[k0 v0] d IH]; intros k v N; [reflexivity|].
    cbn [dict_set app]. destruct (String.eqb_spec k0 k) as [->|Ne].
    - exfalso. apply N. left. reflexivity.
    - rewrite IH; [reflexivity|]. intros I. apply N. right. exact I. }
  induction rows as [|s rows IH]; intros acc ND F.
  - cbn. rewrite app_nil_r. reflexivity.
  - cbn [fold_left flat_map map] in *. apply NoDup_cons_iff in ND. destruct ND as [N1 N2].
    unfold section_entry at 1.
    destruct (GroupRow._id s) as [k|] eqn:I.
    + destruct (Py.truthy k).
      * rewrite IH; [|exact N2|].
        -- rewrite A by (eapply F; [left; reflexivity | exact I]).
           rewrite <- app_assoc. reflexivity.
        -- intros s' k' Is' I'. rewrite A by (eapply F; [left; reflexivity | exact I]).
           rewrite map_app, in_app_iff. cbn. intros [X|[X|[]]].
           ++ eapply F; [right; exact Is' | exact I' | exact X].
           ++ subst k'. apply N1. rewrite <- I'. apply in_map, Is'.
      * rewrite IH; [reflexivity | exact N2|]. intros s' k' Is'. apply F. right. exact Is'.
    + rewrite IH; [reflexivity | exact N2|]. intros s' k' Is'. apply F. right. exact Is'.
Qed.

Section DashboardParts.
Variable regex : Regex.engine.
Variable fromisoformat : string -> option datetime.

Lemma get_dashboard_summary_parts request auth_clock clock db uid :
  caller fromisoformat request auth_clock db = Some uid ->
  let recent := map Receipt.without_image (firstn 10 (newest_first uid db)) in
  exists monthly yearly categories,
    fst (get_dashboard_summary regex fromisoformat request auth_clock clock db)
    = match Mongo.distinct String.eqb (truthy_ids (map Receipt.category_id recent)) with
      | [] =>
          inr (Dashboard.mk monthly yearly
                 (flat_map section_entry (section_rows uid clock db)) categories
                 (map (fun r => (r, None)) recent))
      | ids =>
          match resolve_names regex ids 100 (Db.categories db) with
          | inl e => inl e
          | inr recent_cat_map =>
              inr (Dashboard.mk monthly yearly
                     (flat_map section_entry (section_rows uid clock db)) categories
                     (map (fun r =>
                             (r, Some match Receipt.category_id r with
                                      | Some k => dict_get_default recent_cat_map k ""
                                      | None => ""
                                      end)) recent))
          end
      end.
Proof.
  intros C recent. destruct (caller_some _ _ _ _ _ C) as (user & G & U).
  unfold get_dashboard_summary, bind. rewrite G. unfold dict_index. rewrite U.
  unfold ret, query_db. cbn [fst snd].
  fold (today clock) (month_start clock) (year_start clock).
  rewrite !window_pipeline_run, !grouped_pipeline_run.
  fold (year_to_date uid clock db).
  unfold Mongo.limit_stage, Mongo.rows_to_list.
  match goal with |- context [resolve_names regex ?ids 100 ?c] =>
    destruct (resolve_names_ok regex ids 100 c) as [cat_map ->]; [lia|] end.
  rewrite recent_run. fold (receipts_of uid db). fold (newest_first uid db). fold recent.
  change (Z.to_nat 10) with 10%nat. fold (section_rows uid clock db).
  rewrite section_fold.
  2:{ unfold section_rows. rewrite <- firstn_map.
      match goal with |- NoDup (firstn 10 ?l) =>
        assert (N : NoDup l); [|rewrite <- (firstn_skipn 10 l) in N;
                                 apply NoDup_app_remove_r in N; exact N] end.
      rewrite map_map.
      change (fun x : option string * list Receipt.t =>
                GroupRow._id (GroupRow.mk (fst x) (Mongo.sum (map Receipt.total (snd x)))
                                (Mongo.count (snd x))))
        with (fun x : option string * list Receipt.t => fst x).
      rewrite group_keys. apply distinct_NoDup, option_string_eqb_eq. }
  2:{ intros s k _ _ []. }
  cbn [app]. eexists _, _, _.
  destruct (Mongo.distinct String.eqb (truthy_ids (map Receipt.category_id recent)))
    as [|i ids].
  - cbn [fst snd]. reflexivity.
  - destruct (resolve_names regex _ 100 (Db.categories db)) as [e|m];
      cbn [fst snd]; reflexivity.
Qed.

End DashboardParts.

Lemma section_entry_In s kv :
  In kv (section_entry s)
  <-> GroupRow._id s = Some (fst kv) /\ fst kv <> ""
      /\ snd kv = (GroupRow.total s, GroupRow.count s).
Proof.
  unfold section_entry. destruct (GroupRow._id s) as [k|].
  - destruct (Py.truthy k) eqn:T.
    + cbn [In]. split.
      * intros [<-|[]]. cbn [fst snd]. repeat split. apply truthy_nonempty, T.
      * intros (E & _ & V). left. injection E as ->. destruct kv; cbn in *; congruence.
    + split; [intros []|]. intros (E & N & _). injection E as ->.
      apply truthy_nonempty in N. congruence.
  - split; [intros [] | intros (E & _); discriminate].
Qed.

Lemma section_rows_In uid clock db s :
  In s (section_rows uid clock db) ->
  let ytd := year_to_date uid clock db in
  In (GroupRow._id s) (map Receipt.section ytd)
  /\ GroupRow.total s = Mongo.sum (map Receipt.total (of_section (GroupRow._id s) ytd))
  /\ GroupRow.count s = Z.of_nat (List.length (of_section (GroupRow._id s) ytd)).
Proof.
  intros I. cbv zeta. set (ytd := year_to_date uid clock db).
  unfold section_rows in I. fold ytd in I. apply in_firstn, in_map_iff in I.
  destruct I as (b & <- & Hb).
  apply (group_In _ _ option_string_eqb_eq) in Hb. destruct Hb as [Hk Hs].
  cbn [GroupRow._id GroupRow.total GroupRow.count]. rewrite Hs.
  unfold of_section, Mongo.count. auto.
Qed.

Lemma NoDup_flat_map_keys (rows : list (GroupRow.t (option string))) :
  NoDup (map (@GroupRow._id _) rows) ->
  NoDup (map fst (flat_map section_entry rows)).
Proof.
  induction rows as [|s rows IH]; intros N; [constructor|].
  cbn [map flat_map] in *. apply NoDup_cons_iff in N. destruct N as [N1 N2].
  rewrite map_app. unfold section_entry at 1.
  destruct (GroupRow._id s) as [k|] eqn:I; [|apply IH, N2].
  destruct (Py.truthy k); [|apply IH, N2].
  cbn [map app fst]. constructor; [|apply IH, N2].
  intros X. apply in_map_iff in X. destruct X as (kv & E & X).
  apply in_flat_map in X. destruct X as (s' & Is' & X).
  apply section_entry_In in X. destruct X as (I' & _).
  apply N1. rewrite <- E, <- I'. apply in_map, Is'.
Qed.

Section DashboardProperties.
Variable regex : Regex.engine.
Variable fromisoformat : string -> option datetime.

(** X23.  The section breakdown of the dashboard has one entry per section
    name, neither null nor empty, among the first ten section groups of the
    year-to-date receipts, with the sum of the totals and the number of the
    receipts of that section; the names are pairwise distinct, and when the
    year-to-date receipts fall into at most ten section groups every section
    that a receipt names has its entry. *)
Theorem dashboard_sections request auth_clock clock db uid :
  caller fromisoformat request auth_clock db = Some uid ->
  exists d,
    fst (get_dashboard_summary regex fromisoformat request auth_clock clock db) = inr d
    /\ let ytd := year_to_date uid clock db in
       let sections := Dashboard.sections d in
       Forall (fun kv =>
                 let members := of_section (Some (fst kv)) ytd in
                 fst kv <> ""
                 /\ members <> []
                 /\ fst (snd kv) = Mongo.sum (map Receipt.total members)
                 /\ snd (snd kv) = Z.of_nat (List.length members)) sections
       /\ NoDup (map fst sections)
       /\ ((List.length (Mongo.distinct option_string_eqb (map Receipt.section ytd))
            <= 10)%nat ->
           forall r k, In r ytd -> Receipt.section r = Some k -> k <> "" ->
                       In k (map fst sections)).
Proof.
  intros C.
  destruct (get_dashboard_summary_parts regex fromisoformat request auth_clock clock db uid C)
    as (monthly & yearly & categories & R).
  cbv zeta in R.
  assert (D : exists recent,
            fst (get_dashboard_summary regex fromisoformat request auth_clock clock db)
            = inr (Dashboard.mk monthly yearly
                     (flat_map section_entry (section_rows uid clock db))
                     categories recent)).
  { rewrite R. destruct (Mongo.distinct _ _) as [|i ids]; [eauto|].
    destruct (resolve_names_ok regex (i :: ids) 100 (Db.categories db)) as [m ->]; [lia|].
    eauto. }
  destruct D as (recent & D). eexists. split; [exact D|].
  cbn [Dashboard.sections]. set (ytd := year_to_date uid clock db).
  assert (ND : NoDup (map (@GroupRow._id _) (section_rows uid clock db))).
  { unfold section_rows. rewrite <- firstn_map.
    match goal with |- NoDup (firstn 10 ?l) =>
      assert (N : NoDup l); [|rewrite <- (firstn_skipn 10 l) in N;
                               apply NoDup_app_remove_r in N; exact N] end.
    rewrite map_map.
    change (fun x : option string * list Receipt.t =>
              GroupRow._id (GroupRow.mk (fst x) (Mongo.sum (map Receipt.total (snd x)))
                              (Mongo.count (snd x))))
      with (fun x : option string * list Receipt.t => fst x).
    rewrite group_keys. apply distinct_NoDup, option_string_eqb_eq. }
  split; [|split].
  - apply Forall_forall. intros kv I. apply in_flat_map in I.
    destruct I as (s & Is & I). apply section_entry_In in I. destruct I as (E & N & V).
    apply section_rows_In in Is. cbv zeta in Is. fold ytd in Is. rewrite E in Is.
    destruct Is as (Ik & Et & Ec). rewrite V. cbn [fst snd].
    repeat split; auto.
    apply in_map_iff in Ik. destruct Ik as (r & Er & Ir). intros Z.
    assert (X : In r (of_section (Some (fst kv)) ytd)).
    { apply filter_In. split; [exact Ir | apply option_string_eqb_eq, Er]. }
    rewrite Z in X. exact X.
  - apply NoDup_flat_map_keys, ND.
  - intros L r k Ir Er Nk.
    set (s := GroupRow.mk (Some k) (Mongo.sum (map Receipt.total (of_section (Some k) ytd)))
                (Mongo.count (of_section (Some k) ytd))).
    assert (Is : In s (section_rows uid clock db)).
    { unfold section_rows. rewrite firstn_all2.
      - apply in_map_iff. exists (Some k, of_section (Some k) ytd). split; [reflexivity|].
        apply (group_In _ _ option_string_eqb_eq). cbn [fst snd]. split; [|reflexivity].
        rewrite <- Er. apply in_map, Ir.
      - rewrite length_map.
        rewrite <- (length_map fst), group_keys. exact L. }
    apply in_map_iff. exists (k, (GroupRow.total s, GroupRow.count s)).
    split; [reflexivity|]. apply in_flat_map. exists s. split; [exact Is|].
    apply section_entry_In. cbn [fst snd]. auto.
Qed.

(** X24.  The recent receipts of the dashboard are the ten receipts of the
    caller that were created last, newest first, without their images.  When
    none of them names a category they carry no category name; otherwise
    each carries one, which is empty or the name of a category document with
    the identifier that the receipt names. *)
Theorem dashboard_recent_receipts request auth_clock clock db uid :
  caller fromisoformat request auth_clock db = Some uid ->
  exists d newest,
    fst (get_dashboard_summary regex fromisoformat request auth_clock clock db) = inr d
    /\ Permutation newest (receipts_of uid db)
    /\ StronglySorted created_descending newest
    /\ map fst (Dashboard.recent_receipts d)
       = map Receipt.without_image (firstn 10 newest)
    /\ (existsb has_category (firstn 10 newest) = false ->
        Forall (fun rn => snd rn = None) (Dashboard.recent_receipts d))
    /\ (existsb has_category (firstn 10 newest) = true ->
        Forall (fun rn =>
                  exists name,
                    snd rn = Some name
                    /\ (name = ""
                        \/ exists c,
                             In c (Db.categories db)
                             /\ Receipt.category_id (fst rn) = Some (Category.category_id c)
                             /\ Category.name c = name))
               (Dashboard.recent_receipts d)).
Proof.
  intros C.
  destruct (get_dashboard_summary_parts regex fromisoformat request auth_clock clock db uid C)
    as (monthly & yearly & categories & R).
  cbv zeta in R.
  set (newest := newest_first uid db) in *.
  set (recent := map Receipt.without_image (firstn 10 newest)) in *.
  assert (Ids : map Receipt.category_id recent
                = map Receipt.category_id (firstn 10 newest)).
  { unfold recent. rewrite map_map. reflexivity. }
  assert (Nil : Mongo.distinct String.eqb (truthy_ids (map Receipt.category_id recent)) = []
                <-> existsb has_category (firstn 10 newest) = false).
  { rewrite distinct_nil, truthy_ids_nil, Ids, Forall_map.
    unfold has_category. clear. induction (firstn 10 newest) as [|r l IH].
    - split; [reflexivity | constructor].
    - cbn [existsb]. rewrite orb_false_iff, <- IH. split.
      + intros H. inversion H. auto.
      + intros [H1 H2]. constructor; auto. }
  assert (P : Permutation newest (receipts_of uid db)) by apply sort_by_perm.
  assert (S : StronglySorted created_descending newest).
  { eapply StronglySorted_impl; [|apply sort_by_sorted].
    intros a b. apply before_created_desc. }
  destruct (Mongo.distinct String.eqb (truthy_ids (map Receipt.category_id recent)))
    as [|i ids] eqn:E.
  - eexists. exists newest. split; [exact R|]. cbn [Dashboard.recent_receipts].
    do 2 (split; [assumption|]).
    split; [rewrite map_map; cbn [fst]; apply map_id|].
    split.
    + intros _. apply Forall_forall. intros rn I. apply in_map_iff in I.
      destruct I as (r & <- & _). reflexivity.
    + intros X. apply proj1 in Nil. rewrite (Nil eq_refl) in X. discriminate.
  - destruct (resolve_names_ok regex (i :: ids) 100 (Db.categories db)) as [m Rm]; [lia|].
    rewrite Rm in R.
    eexists. exists newest. split; [exact R|]. cbn [Dashboard.recent_receipts].
    do 2 (split; [assumption|]).
    split; [rewrite map_map; cbn [fst]; apply map_id|].
    split.
    + intros X. apply Nil in X. discriminate.
    + intros _. apply Forall_forall. intros rn I. apply in_map_iff in I.
      destruct I as (r & <- & _). cbn [fst snd]. eexists. split; [reflexivity|].
      destruct (Receipt.category_id r) as [k|]; [|left; reflexivity].
      unfold dict_get_default. destruct (dict_get m k) as [name|] eqn:G; [|left; reflexivity].
      right. destruct (resolve_names_sound _ _ _ _ _ _ _ Rm G) as (c & Ic & Ek & En).
      exists c. rewrite Ek. auto.
Qed.

End DashboardProperties.
(* ===================================================================== *)
(** ** The text of an OCR response *)
(* ===================================================================== *)

Lemma rev_string_acc s : forall acc, Py.rev_string acc s = Py.rev_string "" s ++ acc.
Proof.
  induction s as [|c s IH]; intros acc; [reflexivity|]. cbn [Py.rev_string].
  rewrite (IH (String c acc)), (IH (String c "")), append_assoc. reflexivity.
Qed.

Lemma reverse_cons c s : Str.reverse (String c s) = Str.reverse s ++ String c "".
Proof. unfold Str.reverse. cbn [Py.rev_string]. apply rev_string_acc. Qed.

Lemma reverse_app a b : Str.reverse (a ++ b) = Str.reverse b ++ Str.reverse a.
Proof.
  induction a as [|c a IH]; cbn [append].
  - rewrite append_nil_r. reflexivity.
  - rewrite !reverse_cons, IH, append_assoc. reflexivity.
Qed.

Lemma reverse_involutive s : Str.reverse (Str.reverse s) = s.
Proof.
  induction s as [|c s IH]; [reflexivity|].
  rewrite reverse_cons, reverse_app, IH. reflexivity.
Qed.

Lemma lstrip_by_length two three n : forall s,
  (String.length s <= n)%nat ->
  (String.length (Str.lstrip_by two three s) <= String.length s)%nat.
Proof.
  induction n as [|n IH]; intros s L.
  - destruct s; [reflexivity | cbn in L; lia].
  - destruct s as [|a [|b [|c s]]]; cbn [Str.lstrip_by String.length] in *.
    + lia.
    + destruct (Str.is_space a); cbn [String.length]; lia.
    + destruct (Str.is_space a).
      * specialize (IH (String b "")). cbn [Str.lstrip_by String.length] in IH. lia.
      * destruct (two a b); cbn [String.length]; lia.
    + destruct (Str.is_space a).
      * specialize (IH (String b (String c s))). cbn [Str.lstrip_by String.length] in IH. lia.
      * destruct (two a b).
        -- specialize (IH (String c s)). cbn [Str.lstrip_by String.length] in IH. lia.
        -- destruct (three a b c); cbn [String.length]; [|lia].
           specialize (IH s). lia.
Qed.

Lemma lstrip_length s : (String.length (Str.lstrip s) <= String.length s)%nat.
Proof. apply (lstrip_by_length _ _ (String.length s)). lia. Qed.

(** A string that [lstrip] leaves alone does not start with white space,
    and still does not with a line feed after it. *)
Lemma lstrip_fixed s :
  s <> "" -> Str.lstrip s = s -> Str.lstrip (s ++ String Regex.newline "") = s
                                 ++ String Regex.newline "".
Proof.
  intros N H. destruct s as [|a s]; [congruence|]. clear N.
  unfold Str.lstrip in *. cbn [Str.lstrip_by append] in *.
  destruct (Str.is_space a).
  { pose proof (lstrip_length s) as L. unfold Str.lstrip in L. rewrite H in L.
    cbn in L. lia. }
  destruct s as [|b s]; cbn [append].
  { replace (Str.is_space2 a Regex.newline) with false; [reflexivity|].
    unfold Str.is_space2. cbn. rewrite andb_false_r. reflexivity. }
  destruct (Str.is_space2 a b).
  { pose proof (lstrip_length s) as L. unfold Str.lstrip in L. rewrite H in L.
    cbn in L. lia. }
  destruct s as [|c s]; cbn [append].
  { replace (Str.is_space3 a b Regex.newline) with false; [reflexivity|].
    unfold Str.is_space3. cbn. rewrite !andb_false_r. reflexivity. }
  destruct (Str.is_space3 a b c); [|reflexivity].
  pose proof (lstrip_length s) as L. unfold Str.lstrip in L. rewrite H in L.
  cbn in L. lia.
Qed.

Lemma contains_char_app c a b :
  Py.contains_char c (a ++ b) = Py.contains_char c a || Py.contains_char c b.
Proof.
  induction a as [|x a IH]; [reflexivity|]. cbn [append Py.contains_char].
  rewrite IH, orb_assoc. reflexivity.
Qed.

Lemma split_once_first c pre post : forall cur,
  Py.contains_char c pre = false ->
  Str.split_once_aux c cur (pre ++ String c post) = [Str.reverse cur ++ pre; post].
Proof.
  induction pre as [|x pre IH]; intros cur N.
  - cbn [append Str.split_once_aux]. rewrite Ascii.eqb_refl, append_nil_r. reflexivity.
  - cbn [Py.contains_char] in N. apply orb_false_elim in N. destruct N as [N1 N2].
    cbn [append Str.split_once_aux]. rewrite Ascii.eqb_sym, N1.
    rewrite (IH _ N2), reverse_cons, append_assoc. reflexivity.
Qed.

Lemma split_once_has_two c s : forall cur,
  Py.contains_char c s = true ->
  exists x, nth_error (Str.split_once_aux c cur s) 1 = Some x.
Proof.
  induction s as [|x s IH]; intros cur H; [discriminate|].
  cbn [Py.contains_char] in H. cbn [Str.split_once_aux].
  rewrite Ascii.eqb_sym. destruct (Ascii.eqb c x); [eexists; reflexivity|].
  apply IH, H.
Qed.

Lemma take_app a b : Str.take (String.length a) (a ++ b) = a.
Proof. induction a as [|x a IH]; [destruct b; reflexivity|]. cbn. rewrite IH. reflexivity. Qed.

Lemma rstrip_fence a : Str.rstrip (a ++ fence) = a ++ fence.
Proof.
  unfold Str.rstrip. rewrite reverse_app. change (Str.reverse fence) with fence.
  cbn [fence append Str.lstrip_by].
  change (Str.is_space "`") with false. change (Str.is_space2 "`" "`") with false.
  change (Str.is_space3 "`" "`" "`") with false. cbn iota.
  change (String "`" (String "`" (String "`" (Str.reverse a))))
    with (fence ++ Str.reverse a).
  rewrite reverse_app, reverse_involutive. reflexivity.
Qed.

(** A line feed at the end goes with the white space that [rstrip]
    removes. *)
Lemma rstrip_newline s : Str.rstrip (s ++ String Regex.newline "") = Str.rstrip s.
Proof.
  unfold Str.rstrip. rewrite reverse_app.
  change (Str.reverse (String Regex.newline "")) with (String Regex.newline "").
  cbn [append Str.lstrip_by]. change (Str.is_space Regex.newline) with true.
  reflexivity.
Qed.

(** X25.  The clean-up of an OCR response never fails.  A response that does
    not open with a code fence is only stripped of surrounding white space;
    a response that is a fenced block, with or without a language tag on the
    fence line, is reduced to the text inside the fence.  White space is
    what [str.strip] removes, the characters beyond ASCII among it. *)
Theorem ocr_fenced_response response :
  (exists text, ocr_response_text response = inr text)
  /\ (Py.startswith fence (Str.strip response) = false ->
      ocr_response_text response = inr (Str.strip response))
  /\ (forall tag body,
        Py.contains_char Regex.newline tag = false ->
        Str.lstrip body = body -> Str.rstrip body = body ->
        response = fence ++ tag ++ String Regex.newline body
                   ++ String Regex.newline fence ->
        ocr_response_text response = inr body).
Proof.
  split; [|split].
  - unfold ocr_response_text.
    destruct (Py.startswith fence (Str.strip response)); [|eauto].
    destruct (Py.contains_char Regex.newline (Str.strip response)) eqn:N; [|eauto].
    destruct (split_once_has_two _ _ "" N) as [x X].
    unfold Str.split_once. rewrite X. eauto.
  - unfold ocr_response_text. intros ->. reflexivity.
  - intros tag body Nt L R ->.
    set (s := fence ++ tag ++ String Regex.newline body ++ String Regex.newline fence).
    assert (St : Str.strip s = s).
    { unfold Str.strip. assert (E : Str.lstrip s = s) by reflexivity. rewrite E.
      replace s with ((fence ++ tag ++ String Regex.newline body
                       ++ String Regex.newline "") ++ fence)
        by (unfold s; rewrite !append_assoc; reflexivity).
      apply rstrip_fence. }
    unfold ocr_response_text. rewrite St.
    assert (F : Py.startswith fence s = true) by reflexivity. rewrite F.
    assert (N : Py.contains_char Regex.newline s = true).
    { unfold s. rewrite !contains_char_app. cbn [Py.contains_char].
      rewrite Ascii.eqb_refl. cbn. rewrite !orb_true_r. reflexivity. }
    rewrite N. unfold Str.split_once.
    change s with ((fence ++ tag)
                   ++ String Regex.newline (body ++ String Regex.newline fence)).
    rewrite split_once_first.
    2:{ rewrite contains_char_app, Nt. reflexivity. }
    cbn [nth_error].
    assert (E : Str.endswith fence (body ++ String Regex.newline fence) = true).
    { unfold Str.endswith. rewrite reverse_app. reflexivity. }
    rewrite E. unfold Str.drop_last.
    replace (body ++ String Regex.newline fence)
      with ((body ++ String Regex.newline "") ++ fence)
      by (rewrite append_assoc; reflexivity).
    rewrite append_length.
    replace (String.length (body ++ String Regex.newline "") + String.length fence - 3)%nat
      with (String.length (body ++ String Regex.newline "")) by (cbn; lia).
    rewrite take_app. f_equal.
    destruct body as [|c b]; [reflexivity|].
    unfold Str.strip.
    rewrite (lstrip_fixed (String c b)) by (discriminate || exact L).
    rewrite rstrip_newline. exact R.
Qed.

(* ===================================================================== *)
(** ** A new account, end to end *)
(* ===================================================================== *)

Lemma filter_all {A} (f : A -> bool) l : Forall (fun a => f a = true) l -> filter f l = l.
Proof.
  induction 1 as [|a l H _ IH]; [reflexivity|]. cbn [filter]. rewrite H, IH. reflexivity.
Qed.

(** What a registration that returns has stored. *)
Lemma register_ok lower hashpw data draw db resp :
  fst (register lower hashpw data draw db) = inr resp ->
  exists hashed d,
    hashpw (UserRegister.password data) (RegisterDraw.salt draw) = Some hashed
    /\ add_days (datetime_now_utc (SessionDraw.expiry_clock (RegisterDraw.session draw))) 7
       = Some d
    /\ AuthResponse.token resp = "sess_" ++ SessionDraw.hex (RegisterDraw.session draw)
    /\ snd (register lower hashpw data draw db)
       = snd (create_session (new_user_id draw) (RegisterDraw.session draw)
                (with_account db (registered_user lower data draw hashed) draw)).
Proof.
  rewrite register_run.
  destruct (user_by_email lower db (UserRegister.email data)) as [[|kv u']|];
    try discriminate;
    (destruct (hashpw _ _) as [h|]; [|discriminate]);
    cbv zeta; fold (registered_user lower data draw h);
    pose proof (create_session_run (new_user_id draw) (RegisterDraw.session draw)
                  (with_account db (registered_user lower data draw h) draw)) as R;
    (destruct (add_days _ 7) as [d|]; rewrite R; [|discriminate]);
    cbn [fst snd]; intros H; injection H as <-;
    exists h, d; repeat split; try reflexivity; rewrite R; reflexivity.
Qed.

(** X7.  The token of a registration opens the new account: until its
    deadline the gate returns the account under its address as [str.lower]
    returns it ([lower] stands for that function) and without the password
    hash, and the category list of the account is the fourteen default
    names under [personal] followed by the same under [business].  This
    holds when the token and the identifier drawn for the account are new to
    the store. *)
Theorem register_token_lists_defaults regex lower fromisoformat hashpw data draw db resp
    clock :
  fst (register lower hashpw data draw db) = inr resp ->
  Str.is_hex (SessionDraw.hex (RegisterDraw.session draw)) = true ->
  lookup_session db (AuthResponse.token resp) = None ->
  find (user_matches (VStr (new_user_id draw))) (Db.users db) = None ->
  categories_of (new_user_id draw) db = [] ->
  instant (datetime_now_utc clock)
  <= session_deadline (SessionDraw.expiry_clock (RegisterDraw.session draw)) ->
  let db' := snd (register lower hashpw data draw db) in
  let request := bearer (AuthResponse.token resp) in
  caller fromisoformat request clock db' = Some (new_user_id draw)
  /\ (exists user,
        fst (get_me fromisoformat request clock db') = inr user
        /\ dict_get user "email" = Some (VStr (lower (UserRegister.email data)))
        /\ dict_get user "password_hash" = None)
  /\ exists cats,
       fst (get_categories regex fromisoformat request clock db') = inr cats
       /\ map Category.name cats = (DEFAULT_CATEGORIES ++ DEFAULT_CATEGORIES)%list
       /\ map Category.section cats
          = (repeat "personal" 14 ++ repeat "business" 14)%list
       /\ Forall (fun c => Category.is_default c = true) cats.
Proof.
  intros Rg X N F K I db' request. subst db' request.
  destruct (register_ok _ _ _ _ _ _ Rg) as (h & d & Hh & A & T & S).
  rewrite S, T in *. clear S T.
  set (db1 := with_account db (registered_user lower data draw h) draw).
  assert (N1 : lookup_session db1 ("sess_" ++ SessionDraw.hex (RegisterDraw.session draw))
               = None) by exact N.
  pose proof (validate_new_session fromisoformat (new_user_id draw)
                (RegisterDraw.session draw) d db1 clock A N1 X) as V.
  destruct (Z.leb_spec (instant (datetime_now_utc clock))
              (session_deadline (SessionDraw.expiry_clock (RegisterDraw.session draw))));
    [|lia].
  unfold db1 at 2 in V. cbn [Db.users with_account with_categories with_users] in V.
  rewrite (find_app_none _ _ _ F) in V. cbn [find] in V.
  unfold user_matches at 1 in V.
  cbn [registered_user dict_get String.eqb Ascii.eqb Bool.eqb] in V.
  cbn [Mongo.value_eqb] in V. rewrite String.eqb_refl in V.
  set (db' := snd (create_session (new_user_id draw) (RegisterDraw.session draw) db1)) in *.
  set (request := bearer ("sess_" ++ SessionDraw.hex (RegisterDraw.session draw))) in *.
  assert (C : caller fromisoformat request clock db' = Some (new_user_id draw)).
  { unfold caller. rewrite V. reflexivity. }
  split; [exact C|]. split.
  - eexists. split.
    + unfold get_me, bind.
      pose proof (get_current_user_state fromisoformat request clock db') as St.
      destruct (get_current_user fromisoformat request clock db') as [r db2].
      cbn [fst snd] in *. subst r. reflexivity.
    + split; reflexivity.
  - rewrite (get_categories_run regex fromisoformat _ _ _ _ C). cbn [fst].
    assert (E : categories_of (new_user_id draw) db'
                = seeded (new_user_id draw) (RegisterDraw.category_hex draw)
                    (RegisterDraw.category_clock draw)).
    { unfold db'. pose proof (create_session_run (new_user_id draw)
                                (RegisterDraw.session draw) db1) as R.
      rewrite A in R. rewrite R. unfold categories_of in *. unfold db1.
      cbn [snd Db.categories with_sessions with_account with_categories with_users].
      rewrite filter_app, K. cbn [app]. apply filter_all.
      eapply Forall_impl; [|apply seeded_owned]. intros c [U _]. cbn beta.
      rewrite U. apply String.eqb_refl. }
    rewrite E, firstn_all2.
    + eexists. split; [reflexivity|]. split; [apply seeded_names|].
      split; [apply seeded_sections|].
      eapply Forall_impl; [|apply seeded_owned]. intros c [_ D]. exact D.
    + rewrite <- (length_map Category.name), seeded_names. cbn. lia.
Qed.

(* ===================================================================== *)
(** ** Category names in the reports *)
(* ===================================================================== *)

Lemma fold_dict_keys {V} (l : list (string * V)) : forall acc k,
  In k (map fst l) \/ dict_get acc k <> None ->
  dict_get (fold_left (fun m c => dict_set m (fst c) (snd c)) l acc) k <> None.
Proof.
  induction l as [|[k0 v0] l IH]; intros acc k H.
  - destruct H as [[]|H]. exact H.
  - cbn [fold_left fst snd]. apply IH. cbn [map fst] in H.
    destruct (String.eqb_spec k0 k) as [->|N].
    + right. rewrite dict_get_set_same. discriminate.
    + destruct H as [[H|H]|H]; [congruence | left; exact H |].
      right. rewrite dict_get_set_other by exact N. exact H.
Qed.

(** The names that [resolve_names] finds: an identifier that was asked for
    has a name when a category document carries it, provided the collection
    is no longer than the limit of the query. *)
Lemma resolve_names_complete regex ids n coll m c :
  resolve_names regex ids n coll = inr m ->
  In (Category.category_id c) ids ->
  In c coll ->
  Z.of_nat (List.length coll) <= n ->
  dict_get m (Category.category_id c) <> None.
Proof.
  unfold resolve_names, Mongo.to_list, Mongo.run, Mongo.find.
  destruct (Z.ltb_spec n 0) as [L|L]; [discriminate|].
  cbn [Mongo.c_filter Mongo.c_projection Mongo.c_sort Mongo.c_skip Mongo.c_limit
       Mongo.compile Mongo.compile_cond Mongo.compile_ops Mongo.compile_op
       String.eqb Ascii.eqb Bool.eqb Z.eqb Z.to_nat skipn].
  rewrite sort_by_nil. intros H I Ic Len. injection H as <-.
  apply fold_dict_keys. left.
  rewrite firstn_all2.
  - rewrite map_map. cbn [fst]. apply in_map_iff. exists c. split; [reflexivity|].
    apply filter_In. split; [exact Ic|].
    cbn. rewrite andb_true_r, andb_true_r. apply existsb_exists.
    exists (VStr (Category.category_id c)). split.
    + apply in_map, I.
    + cbn. apply String.eqb_refl.
  - rewrite length_map.
    match goal with |- (List.length (filter ?f coll) <= _)%nat =>
      pose proof (filter_length_le f coll) end.
    lia.
Qed.

Lemma truthy_ids_In l k : In k (truthy_ids l) <-> In (Some k) l /\ k <> "".
Proof.
  induction l as [|o l IH]; cbn [truthy_ids flat_map]; [cbn; tauto|].
  fold (truthy_ids l). rewrite in_app_iff, IH. cbn [In].
  destruct o as [s|].
  - destruct s as [|a s]; cbn [Py.truthy In].
    + split.
      * intros [[]|H]; tauto.
      * intros [[H|H] N]; [congruence | tauto].
    + split.
      * intros [[<-|[]]|H]; [split; [auto | discriminate] | tauto].
      * intros [[H|H] N]; [injection H as <-; auto | tauto].
  - cbn [In]. split.
    + intros [[]|H]; tauto.
    + intros [[H|H] N]; [discriminate | tauto].
Qed.

(** What the name looked up for [k] is, given the identifiers that were
    asked for. *)
Lemma resolve_names_resolved regex db ids n m default k :
  resolve_names regex ids n (Db.categories db) = inr m ->
  (forall x, x <> "" -> k = Some x -> In x ids) ->
  resolved db n default k
    (match k with Some x => dict_get_default m x default | None => default end).
Proof.
  intros R I. destruct k as [x|]; [|reflexivity]. split.
  - unfold dict_get_default. destruct (dict_get m x) as [name|] eqn:G; [|left; reflexivity].
    right. apply (resolve_names_sound _ _ _ _ _ _ _ R G).
  - intros N Len (c & Ic & E). subst x.
    pose proof (resolve_names_complete _ _ _ _ _ c R (I _ N eq_refl) Ic Len) as G.
    unfold dict_get_default.
    destruct (dict_get m (Category.category_id c)) as [name|] eqn:G'; [|congruence].
    apply (resolve_names_sound _ _ _ _ _ _ _ R G').
Qed.

Section ReportNames.
Variable regex : Regex.engine.
Variable fromisoformat : string -> option datetime.
Variable title : string -> string.

Lemma export_csv_names request clock db uid df dt sec :
  caller fromisoformat request clock db = Some uid ->
  let receipts := map Receipt.without_image (exported uid df dt sec db) in
  exists cat_map,
    resolve_names regex (Mongo.distinct String.eqb (truthy_ids (map Receipt.category_id receipts)))
      500 (Db.categories db) = inr cat_map
    /\ fst (export_csv regex fromisoformat title request clock df dt sec db)
       = match write_rows title cat_map receipts with
         | inl e => inl e
         | inr rows => inr (csv_header :: rows)
         end.
Proof.
  intros C receipts. apply caller_some in C. destruct C as (user & G & U).
  unfold export_csv, bind. rewrite G. unfold dict_index. rewrite U.
  unfold ret, query_db, lift. cbn [fst snd].
  unfold Mongo.to_list, Mongo.run, Mongo.sort, Mongo.find.
  cbn [Mongo.c_filter Mongo.c_sort Mongo.c_skip Mongo.c_limit Mongo.c_projection].
  change ((Mongo.max_int64 <? 0) || (Mongo.max_int64 <? Z.abs 0)) with false. cbv iota.
  destruct (report_query_denotes regex uid df dt sec) as [f [Cq Hf]]. rewrite Cq.
  rewrite (filter_ext _ _ Hf).
  change (10000 <? 0) with false. change (0 =? 0) with true. cbv iota.
  change (Z.to_nat 0) with 0%nat. rewrite skipn_0, firstn_map.
  fold (exported uid df dt sec db). fold receipts.
  cbn [fst snd].
  match goal with |- context [resolve_names regex ?ids 500 ?c] =>
    destruct (resolve_names_ok regex ids 500 c) as [cat_map R]; [lia|] end.
  exists cat_map. split; [exact R|]. rewrite R. cbn [fst snd].
  destruct (write_rows title cat_map _); reflexivity.
Qed.

Lemma get_tax_summary_names request clock db uid df dt sec :
  caller fromisoformat request clock db = Some uid ->
  let results :=
    firstn 200 (tax_rows (filter (reported uid df dt sec) (Db.receipts db))) in
  exists cat_map,
    resolve_names regex
      (Mongo.distinct String.eqb (truthy_ids (map (fun r => snd (TaxRow._id r)) results)))
      200 (Db.categories db) = inr cat_map
    /\ fst (get_tax_summary regex fromisoformat request clock df dt sec db)
       = inr (TaxSummary.mk
                [("personal", map (summary_entry cat_map) (rows_of "personal" results));
                 ("business", map (summary_entry cat_map) (rows_of "business" results))]
                [("personal", fold_left add_row (rows_of "personal" results)
                                (Totals.mk (NInt 0) (NInt 0) 0));
                 ("business", fold_left add_row (rows_of "business" results)
                                (Totals.mk (NInt 0) (NInt 0) 0))]).
Proof.
  intros C results. apply caller_some in C. destruct C as (user & G & U).
  unfold get_tax_summary, bind. rewrite G. unfold dict_index. rewrite U.
  unfold ret, query_db. cbn [fst snd].
  rewrite (match_stage_denotes _ _ _ _ _ (report_query_denotes regex uid df dt sec)).
  fold (tax_rows (filter (reported uid df dt sec) (Db.receipts db))).
  unfold Mongo.rows_to_list. change (Z.to_nat 200) with 200%nat. fold results.
  match goal with |- context [resolve_names regex ?ids 200 ?c] =>
    destruct (resolve_names_ok regex ids 200 c) as [cat_map R]; [lia|] end.
  exists cat_map. split; [exact R|]. rewrite R. rewrite tax_summary_fold. reflexivity.
Qed.

(** X26.  The Category column of an exported row is empty when the receipt
    has no category, and otherwise empty or the name of a category document
    with the identifier of the receipt, of whichever account.  It is such a
    name whenever the identifier is not empty, a category document carries
    it and the collection holds at most 500 categories. *)
Theorem export_category_column request clock df dt sec db uid rows :
  caller fromisoformat request clock db = Some uid ->
  fst (export_csv regex fromisoformat title request clock df dt sec db) = inr rows ->
  exists body,
    rows = csv_header :: body
    /\ Forall2 (fun r row => resolved db 500 "" (Receipt.category_id r) (nth 3 row ""))
               (exported uid df dt sec db) body.
Proof.
  intros C E.
  destruct (export_csv_names request clock db uid df dt sec C) as (cat_map & R & X).
  cbv zeta in R, X. rewrite X in E. clear X.
  set (receipts := map Receipt.without_image (exported uid df dt sec db)) in *.
  pose proof (write_rows_spec title cat_map receipts) as W.
  destruct (write_rows title cat_map receipts) as [e|body]; [discriminate|].
  injection E as <-. exists body. split; [reflexivity|].
  unfold receipts in W. apply Forall2_map_l in W.
  assert (I : forall r, In r (exported uid df dt sec db) ->
              forall x, x <> "" -> Receipt.category_id r = Some x ->
              In x (Mongo.distinct String.eqb (truthy_ids (map Receipt.category_id receipts)))).
  { intros r Ir x N Ex. apply distinct_In; [apply String.eqb_eq|].
    apply truthy_ids_In. split; [|exact N]. unfold receipts. rewrite map_map.
    rewrite <- Ex. apply (in_map (fun r => Receipt.category_id (Receipt.without_image r))), Ir. }
  set (ids := Mongo.distinct String.eqb (truthy_ids (map Receipt.category_id receipts))) in *.
  clearbody ids. clear receipts. revert body W I.
  induction (exported uid df dt sec db) as [|r l IH]; intros body W I;
    inversion W as [|? row ? body' Hr Hl]; subst; constructor.
  - pose proof (csv_row_outcome title cat_map (Receipt.without_image r)) as O.
    rewrite Hr in O. destruct O as (s & t & x & _ & _ & _ & ->).
    cbn [nth Receipt.without_image Receipt.category_id].
    apply (resolve_names_resolved regex db _ _ _ "" _ R). apply I. left. reflexivity.
  - apply IH; [exact Hl|]. intros r' Ir'. apply I. right. exact Ir'.
Qed.

(** X27.  The category name of an entry of the tax summary is [Unknown] for
    the group without a category, and otherwise [Unknown] or the name of a
    category document with the identifier of the group, of whichever
    account.  It is such a name whenever the identifier is not empty, a
    category document carries it and the collection holds at most 200
    categories. *)
Theorem tax_summary_category_names request clock df dt sec db uid :
  caller fromisoformat request clock db = Some uid ->
  exists t,
    fst (get_tax_summary regex fromisoformat request clock df dt sec db) = inr t
    /\ forall s entries,
         In (s, entries) (TaxSummary.summary t) ->
         Forall (fun e => resolved db 200 "Unknown" (SummaryEntry.category_id e)
                            (SummaryEntry.category_name e))
                entries.
Proof.
  intros C.
  destruct (get_tax_summary_names request clock db uid df dt sec C) as (cat_map & R & X).
  cbv zeta in R, X. eexists. split; [exact X|].
  set (results := firstn 200 (tax_rows (filter (reported uid df dt sec) (Db.receipts db)))) in *.
  assert (A : forall s, Forall (fun e => resolved db 200 "Unknown" (SummaryEntry.category_id e)
                                           (SummaryEntry.category_name e))
                          (map (summary_entry cat_map) (rows_of s results))).
  { intros s. apply Forall_forall. intros e Ie. apply in_map_iff in Ie.
    destruct Ie as (r & <- & Ir). apply filter_In in Ir. destruct Ir as [Ir _].
    cbn [summary_entry SummaryEntry.category_id SummaryEntry.category_name].
    apply (resolve_names_resolved regex db _ _ _ "Unknown" _ R).
    intros x N Ex. apply distinct_In; [apply String.eqb_eq|].
    apply truthy_ids_In. split; [|exact N]. rewrite <- Ex.
    apply (in_map (fun r => snd (TaxRow._id r))), Ir. }
  intros s entries I. cbn [TaxSummary.summary In] in I.
  destruct I as [I|[I|[]]]; injection I as <- <-; apply A.
Qed.

End ReportNames.

(* ===================================================================== *)
(** ** The properties on the sample store *)
(* ===================================================================== *)

(** X1, on sample data.  Alice logs in at noon on 15 June 2025: her token is
    accepted six days later and refused eight days later. *)
Lemma login_token_authenticates_witness :
  (exists user,
     fst (get_current_user Sample.no_parse
            (bearer "sess_feedfacefeedfacefeedfacefeedface") Fixture.after_six_days
            (snd (login Py.lower Fixture.checkpw Fixture.alice_login Fixture.session_draw
                Sample.db0)))
     = inr user
     /\ dict_get user "user_id" = Some (VStr "user_a"))
  /\ fst (get_current_user Sample.no_parse
            (bearer "sess_feedfacefeedfacefeedfacefeedface") Fixture.after_eight_days
            (snd (login Py.lower Fixture.checkpw Fixture.alice_login Fixture.session_draw
                Sample.db0)))
     = inl (HTTPException 401 "Session expired").
Proof.
  pose (resp := AuthResponse.mk "sess_feedfacefeedfacefeedfacefeedface"
                  [("user_id", VStr "user_a"); ("email", VStr "a@x.io");
                   ("name", VStr "Alice"); ("picture", VStr "");
                   ("currency", VStr "CAD"); ("theme", VStr "dark")]).
  split.
  - destruct (proj1 (login_token_authenticates Py.lower Sample.no_parse Fixture.checkpw
                       Fixture.alice_login Fixture.session_draw Sample.db0 resp
                       Fixture.after_six_days eq_refl eq_refl eq_refl))
      as (user & G & U & _).
    + vm_compute. discriminate.
    + exists user. split; [exact G | exact U].
  - apply (proj2 (login_token_authenticates Py.lower Sample.no_parse Fixture.checkpw
                    Fixture.alice_login Fixture.session_draw Sample.db0 resp
                    Fixture.after_eight_days eq_refl eq_refl eq_refl)).
    vm_compute. reflexivity.
Defined.

(** X2, on sample data.  Alice logs out of the sample store: her token is
    then refused. *)
Lemma logout_ends_session_witness :
  fst (logout Sample.req0 Sample.db0) = inr "Logged out"
  /\ fst (get_current_user Sample.no_parse Sample.req0 Sample.clock0
            (snd (logout Sample.req0 Sample.db0)))
     = inl (HTTPException 401 "Invalid session").
Proof.
  destruct (logout_ends_session Sample.no_parse Sample.req0 Sample.clock0 Sample.db0)
    as [R M].
  split; [exact R|].
  change (bearer_token Sample.req0) with (Some "sess_1") in M.
  destruct M as (_ & _ & _ & _ & M). apply M.
  repeat constructor. intros [].
Defined.

(** X3, on sample data.  Nobody is registered as [bob@x.io] in the sample
    store: the login is refused. *)
Lemma login_refusals_witness :
  login Py.lower Fixture.checkpw (UserLogin.mk "bob@x.io" "hunter2") Fixture.session_draw Sample.db0
  = (inl (HTTPException 401 "Invalid email or password"), Sample.db0).
Proof.
  exact (proj1 (proj2 (login_refusals Py.lower Fixture.checkpw (UserLogin.mk "bob@x.io" "hunter2")
                         Fixture.session_draw Sample.db0)) eq_refl).
Defined.

(** X5, on sample data.  Alice's address in capitals cannot be registered
    again. *)
Lemma register_rejects_registered_email_witness :
  register Py.lower Fixture.hashpw (UserRegister.mk "A@X.IO" "pw" "Al") Fixture.draw Sample.db0
  = (inl (HTTPException 400 "Email already registered"), Sample.db0).
Proof.
  apply (register_rejects_registered_email Py.lower Fixture.hashpw
           (UserRegister.mk "A@X.IO" "pw" "Al") Fixture.draw Sample.db0 Sample.alice "a@x.io").
  - left. reflexivity.
  - reflexivity.
  - reflexivity.
Defined.

(** X4, on sample data.  Bob registers in the sample store. *)
Lemma register_creates_account_witness :
  List.length (Db.users (snd (register Py.lower Fixture.hashpw Fixture.bob Fixture.draw
      Sample.db0)))
  = 2%nat
  /\ List.length
       (Db.categories (snd (register Py.lower Fixture.hashpw Fixture.bob Fixture.draw Sample.db0)))
     = 29%nat.
Proof.
  pose (resp := AuthResponse.mk "sess_feedfacefeedfacefeedfacefeedface"
                  [("user_id", VStr "user_0123456789ab"); ("email", VStr "bob@x.io");
                   ("name", VStr "Bob"); ("picture", VStr "");
                   ("currency", VStr "CAD"); ("theme", VStr "dark")]).
  destruct (register_creates_account Py.lower Fixture.hashpw Fixture.bob Fixture.draw Sample.db0
              resp eq_refl)
    as (user & categories & session & U & C & _ & _ & _ & _ & N & _).
  split.
  - rewrite U, length_app. reflexivity.
  - rewrite C, length_app, <- (length_map Category.name categories), N. reflexivity.
Defined.

(** X6, on sample data.  Bob registers and then logs in with his address in
    lower case. *)
Lemma register_then_login_witness :
  exists resp,
    fst (login Py.lower Fixture.checkpw (UserLogin.mk "bob@x.io" "hunter2") Fixture.session_draw
           (snd (register Py.lower Fixture.hashpw Fixture.bob Fixture.draw Sample.db0))) = inr resp
    /\ dict_get (AuthResponse.user resp) "email" = Some (VStr "bob@x.io").
Proof.
  pose (resp := AuthResponse.mk "sess_feedfacefeedfacefeedfacefeedface"
                  [("user_id", VStr "user_0123456789ab"); ("email", VStr "bob@x.io");
                   ("name", VStr "Bob"); ("picture", VStr "");
                   ("currency", VStr "CAD"); ("theme", VStr "dark")]).
  destruct (register_then_login Py.lower Fixture.hashpw Fixture.checkpw Fixture.bob Fixture.draw
              Sample.db0 resp "bob@x.io" Fixture.session_draw) as (resp' & L & E & _).
  - intros p s h H. injection H as <-. split; [discriminate|].
    unfold Fixture.checkpw. rewrite String.eqb_refl. reflexivity.
  - reflexivity.
  - reflexivity.
  - vm_compute. discriminate.
  - exists resp'. split; [exact L|]. rewrite E. reflexivity.
Defined.

(** X8, on sample data.  Carol signs in with Google and then tries a
    password. *)
Lemma google_account_has_no_password_witness :
  fst (login Py.lower Fixture.checkpw (UserLogin.mk "carol@x.io" "guess") Fixture.session_draw
         (snd (google_session Py.lower (Reply 200 (Some Fixture.google_carol)) Fixture.draw
                 Sample.db0)))
  = inl (HTTPException 401 "Please use Google Sign-In for this account").
Proof.
  pose (resp := GoogleResponse.mk "sess_feedfacefeedfacefeedfacefeedface"
                  (Some [("user_id", VStr "user_0123456789ab");
                         ("email", VStr "carol@x.io"); ("name", VStr "Carol");
                         ("auth_provider", VStr "google"); ("picture", VStr "");
                         ("currency", VStr "CAD"); ("theme", VStr "dark");
                         ("created_at", VStr "2025-06-15T12:00:00+00:00")])).
  rewrite (google_account_has_no_password Py.lower Fixture.checkpw Fixture.google_carol Fixture.draw
             Sample.db0 resp "Carol@x.io" "carol@x.io" "guess" Fixture.session_draw
             eq_refl eq_refl eq_refl eq_refl).
  reflexivity.
Defined.


(** X13, on sample data.  Alice lists her categories in the sample store. *)
Lemma get_categories_lists_own_witness :
  caller Sample.no_parse Sample.req0 Sample.clock0 Sample.db0 = Some "user_a"
  /\ exists cats,
       get_categories Sample.regex Sample.no_parse Sample.req0 Sample.clock0 Sample.db0
       = (inr cats, Sample.db0)
       /\ List.length cats = 1%nat.
Proof.
  split; [reflexivity|].
  destruct (get_categories_lists_own Sample.regex Sample.no_parse Sample.req0 Sample.clock0
      Sample.db0
              "user_a" eq_refl) as (cats & G & E & _).
  exists cats. split; [exact G|]. rewrite E. reflexivity.
Defined.

(** X14, on sample data.  Alice adds a category and lists two. *)
Lemma create_category_then_list_witness :
  exists cat,
    fst (create_category Sample.no_parse (CategoryCreate.mk "Pets" "personal") Sample.req0
           Sample.clock0 Fixture.hex32 Sample.clock0 Sample.db0) = inr cat
    /\ Category.category_id cat = "cat_0123456789ab"
    /\ fst (get_categories Sample.regex Sample.no_parse Sample.req0 Sample.clock0
              (snd (create_category Sample.no_parse (CategoryCreate.mk "Pets" "personal")
                      Sample.req0 Sample.clock0 Fixture.hex32 Sample.clock0 Sample.db0)))
       = inr (categories_of "user_a" Sample.db0 ++ [cat])%list.
Proof.
  destruct (create_category_then_list Sample.regex Sample.no_parse (CategoryCreate.mk "Pets"
      "personal")
              Sample.req0 Sample.clock0 Fixture.hex32 Sample.clock0 Sample.db0 "user_a"
              eq_refl) as (cat & R & _ & _ & _ & _ & _ & L & _).
  exists cat. split; [exact R|]. split.
  - vm_compute in R. injection R as <-. reflexivity.
  - apply L. vm_compute. lia.
Defined.

(** X15, on sample data.  Alice renames her category; nobody has a category
    [cat_none]. *)
Lemma update_category_outcome_witness :
  fst (update_category Sample.regex Sample.no_parse "cat_food" (CategoryUpdate.mk "Groceries")
         Sample.req0 Sample.clock0 Sample.db0) = inr "Category updated"
  /\ update_category Sample.regex Sample.no_parse "cat_none" (CategoryUpdate.mk "Groceries")
       Sample.req0 Sample.clock0 Sample.db0
     = (inl (HTTPException 404 "Category not found"), Sample.db0).
Proof.
  split.
  - apply (proj1 (proj2 (update_category_outcome Sample.regex Sample.no_parse "cat_food"
                           (CategoryUpdate.mk "Groceries") Sample.req0 Sample.clock0
                           Sample.db0 "user_a" eq_refl)) eq_refl).
  - destruct (proj1 (update_category_outcome Sample.regex Sample.no_parse "cat_none"
                       (CategoryUpdate.mk "Groceries") Sample.req0 Sample.clock0
                       Sample.db0 "user_a" eq_refl) eq_refl) as [R S].
    destruct (update_category _ _ _ _ _ _) as [r db']. cbn [fst snd] in *. congruence.
Defined.

(** X16, on sample data.  Alice's category is used by one receipt and is not
    deleted. *)
Lemma delete_category_outcome_witness :
  delete_category Sample.regex Sample.no_parse "cat_food" Sample.req0 Sample.clock0 Sample.db0
  = (inr (CategoryDeletion.mk "Warning: 1 receipts use this category" (Some 1) false),
     Sample.db0).
Proof.
  destruct (proj1 (delete_category_outcome Sample.regex Sample.no_parse "cat_food" Sample.req0
                     Sample.clock0 Sample.db0 "user_a" eq_refl)) as [R S].
  - vm_compute. discriminate.
  - destruct (delete_category _ _ _ _ _) as [r db']. cbn [fst snd] in *.
    rewrite R, S. reflexivity.
Defined.

(** X17, on sample data.  Alice stores a lunch receipt and reads it back. *)
Lemma create_then_get_receipt_witness :
  exists stored,
    get_receipt Sample.regex Sample.no_parse "rcpt_0123456789ab" Sample.req0 Sample.clock0
      (snd (create_receipt Sample.no_parse Fixture.lunch Sample.req0 Sample.clock0
              Fixture.hex32 Sample.clock0 Sample.db0))
    = (inr stored,
       snd (create_receipt Sample.no_parse Fixture.lunch Sample.req0 Sample.clock0
              Fixture.hex32 Sample.clock0 Sample.db0))
    /\ Receipt.merchant_name stored = Some "Diner"
    /\ Receipt.user_id stored = "user_a".
Proof.
  destruct (create_then_get_receipt Sample.regex Sample.no_parse Fixture.lunch Sample.req0
      Sample.clock0
              Fixture.hex32 Sample.clock0 Sample.db0 "user_a" Sample.clock0
              eq_refl eq_refl eq_refl) as (created & stored & _ & G & _ & _ & _ & E).
  exists stored. split; [exact G|]. rewrite E. split; reflexivity.
Defined.

(** X18, on sample data.  Dave's receipt [r9] is out of Alice's reach. *)
Lemma foreign_receipt_not_found_witness :
  In Fixture.dave_receipt (Db.receipts Fixture.db_two_accounts)
  /\ get_receipt Sample.regex Sample.no_parse "r9" Sample.req0 Sample.clock0 Fixture.db_two_accounts
     = (inl (HTTPException 404 "Receipt not found"), Fixture.db_two_accounts)
  /\ delete_receipt Sample.regex Sample.no_parse "r9" Sample.req0 Sample.clock0
      Fixture.db_two_accounts
     = (inl (HTTPException 404 "Receipt not found"), Fixture.db_two_accounts).
Proof.
  split; [cbn; tauto|].
  destruct (foreign_receipt_not_found Sample.regex Sample.no_parse "r9" Fixture.rename_merchant
              Sample.req0 Sample.clock0 Fixture.db_two_accounts "user_a"
              eq_refl eq_refl eq_refl) as (G & _ & D).
  split; [exact G | exact D].
Defined.

(** X19, on sample data.  Alice renames the merchant of [r1] and clears its
    category; an update without fields is refused. *)
Lemma update_receipt_outcome_witness :
  fst (update_receipt Sample.regex Sample.no_parse "r1" Fixture.no_change Sample.req0 Sample.clock0
         Sample.db0) = inl (HTTPException 400 "No fields to update")
  /\ exists r,
       fst (get_receipt Sample.regex Sample.no_parse "r1" Sample.req0 Sample.clock0
              (snd (update_receipt Sample.regex Sample.no_parse "r1" Fixture.rename_merchant
                  Sample.req0
                      Sample.clock0 Sample.db0))) = inr r
       /\ Receipt.merchant_name r = Some "Walmart Supercentre"
       /\ Receipt.category_id r = None.
Proof.
  split.
  - apply (proj1 (update_receipt_outcome Sample.regex Sample.no_parse "r1" Fixture.no_change
      Sample.req0
                    Sample.clock0 Sample.db0 "user_a" eq_refl) eq_refl).
  - destruct (proj2 (update_receipt_outcome Sample.regex Sample.no_parse "r1"
      Fixture.rename_merchant
                       Sample.req0 Sample.clock0 Sample.db0 "user_a" eq_refl)
                eq_refl eq_refl)
      as (_ & before & old & new & after & _ & _ & _ & _ & G & Am & _ & _ & _ & _ & _
          & Ac & _).
    rewrite G. cbn [fst]. exists new. split; [reflexivity|].
    split; [exact Am | exact Ac].
Defined.

(** X20, on sample data.  Alice deletes [r2]; two of her three receipts are
    left. *)
Lemma delete_receipt_outcome_witness :
  fst (delete_receipt Sample.regex Sample.no_parse "r2" Sample.req0 Sample.clock0 Sample.db0)
  = inr "Receipt deleted"
  /\ List.length
       (receipts_of "user_a"
          (snd (delete_receipt Sample.regex Sample.no_parse "r2" Sample.req0 Sample.clock0
              Sample.db0)))
     = 2%nat.
Proof.
  destruct (delete_receipt_outcome Sample.regex Sample.no_parse "r2" Sample.req0 Sample.clock0
      Sample.db0
              "user_a" eq_refl eq_refl)
    as (R & before & old & after & _ & _ & _ & _ & Len & _).
  split; [exact R|]. rewrite Len. reflexivity.
Defined.

(** X11, on sample data.  A request without credentials reaches no handler. *)
Lemma refused_requests_reach_nothing_witness :
  get_receipts Sample.regex Sample.no_parse Fixture.anonymous Sample.clock0 Sample.no_filter
      Sample.db0
  = (inl (HTTPException 401 "Not authenticated"), Sample.db0)
  /\ delete_receipt Sample.regex Sample.no_parse "r1" Fixture.anonymous Sample.clock0 Sample.db0
     = (inl (HTTPException 401 "Not authenticated"), Sample.db0).
Proof.
  pose proof (refused_requests_reach_nothing Sample.regex Sample.no_parse Py.title
      Fixture.anonymous Sample.clock0
                Sample.db0 (HTTPException 401 "Not authenticated") eq_refl) as H.
  split.
  - apply H.
  - apply H.
Defined.

(** X12, on sample data.  The dashboard leaves the sample store as it is. *)
Lemma readers_change_nothing_witness :
  snd (get_dashboard_summary Sample.regex Sample.no_parse Sample.req0 Sample.clock0 Sample.clock0
         Sample.db0) = Sample.db0.
Proof.
  apply (readers_change_nothing Sample.regex Sample.no_parse Py.title Sample.req0 Sample.clock0).
Defined.

(** X10, on sample data.  The refusal of a request without credentials. *)
Lemma gate_refusals_witness :
  fst (get_current_user Sample.no_parse Fixture.anonymous Sample.clock0 Sample.db0)
  = inl (HTTPException 401 "Not authenticated")
  /\ ((exists detail,
         HTTPException 401 "Not authenticated" = HTTPException 401 detail
         /\ In detail ["Not authenticated"; "Invalid session"; "Session expired";
                       "User not found"])
      \/ (HTTPException 401 "Not authenticated" = PyException "ValueError"
          /\ exists token s text,
               bearer_token Fixture.anonymous = Some token
               /\ lookup_session Sample.db0 token = Some s
               /\ Session.expires_at s = TStr text
               /\ Sample.no_parse text = None)).
Proof.
  split; [reflexivity|].
  exact (gate_refusals Sample.no_parse Fixture.anonymous Sample.clock0 Sample.db0
           (HTTPException 401 "Not authenticated") eq_refl).
Defined.

(** X21, on sample data.  Alice's listing counts three receipts, four after
    the lunch receipt is stored and two after [r2] is deleted. *)
Lemma listing_total_follows_writes_witness :
  (exists l,
     fst (get_receipts Sample.regex Sample.no_parse Sample.req0 Sample.clock0 Sample.no_filter
            (snd (create_receipt Sample.no_parse Fixture.lunch Sample.req0 Sample.clock0
                    Fixture.hex32 Sample.clock0 Sample.db0))) = inr l
     /\ listing_total l = 4)
  /\ (exists l,
        fst (get_receipts Sample.regex Sample.no_parse Sample.req0 Sample.clock0 Sample.no_filter
               (snd (delete_receipt Sample.regex Sample.no_parse "r2" Sample.req0 Sample.clock0
                       Sample.db0))) = inr l
        /\ listing_total l = 2).
Proof.
  pose (l0 := mk_listing
                (map Receipt.without_image
                   (Mongo.sort_by Receipt.field [("date", -1)] (Db.receipts Sample.db0))) 3).
  assert (L0 : fst (get_receipts Sample.regex Sample.no_parse Sample.req0 Sample.clock0
                      Sample.no_filter Sample.db0) = inr l0) by (vm_compute; reflexivity).
  destruct (listing_total_follows_writes Sample.regex Sample.no_parse Sample.req0
              Sample.clock0 Sample.db0 "user_a" Sample.no_filter eq_refl) as [Cr De].
  split.
  - destruct (Cr Fixture.lunch Fixture.hex32 Sample.clock0) as (stored & E & M).
    rewrite L0 in M. destruct M as (l & L & T).
    exists l. split; [exact L|]. rewrite T.
    vm_compute in E. injection E as <-. reflexivity.
  - pose proof (De "r2" (Sample.stored "r2" "A.B Store" "2025-06-02" 500 0 (Some "business")
                           (Some "cat_x")) eq_refl) as M.
    cbv zeta in M. rewrite L0 in M. destruct M as (l & L & T).
    exists l. split; [exact L|]. rewrite T. reflexivity.
Defined.

(** X24, on sample data.  The recent receipts of Alice's dashboard are her
    three receipts. *)
Lemma dashboard_recent_receipts_witness :
  exists d,
    fst (get_dashboard_summary Sample.regex Sample.no_parse Sample.req0 Sample.clock0 Sample.clock0
           Sample.db0) = inr d
    /\ List.length (Dashboard.recent_receipts d) = 3%nat.
Proof.
  destruct (dashboard_recent_receipts Sample.regex Sample.no_parse Sample.req0 Sample.clock0
      Sample.clock0
              Sample.db0 "user_a" eq_refl) as (d & newest & R & P & _ & M & _).
  exists d. split; [exact R|].
  rewrite <- (length_map fst), M, length_map, length_firstn.
  rewrite (Permutation_length P). reflexivity.
Defined.

(** X23, on sample data.  The section breakdown of Alice's dashboard has
    both sections. *)
Lemma dashboard_sections_witness :
  exists d,
    fst (get_dashboard_summary Sample.regex Sample.no_parse Sample.req0 Sample.clock0 Sample.clock0
           Sample.db0) = inr d
    /\ In "personal" (map fst (Dashboard.sections d))
    /\ In "business" (map fst (Dashboard.sections d)).
Proof.
  destruct (dashboard_sections Sample.regex Sample.no_parse Sample.req0 Sample.clock0 Sample.clock0
              Sample.db0 "user_a" eq_refl) as (d & R & _ & _ & A).
  exists d. split; [exact R|].
  assert (L : (List.length
                 (Mongo.distinct option_string_eqb
                    (map Receipt.section (year_to_date "user_a" Sample.clock0 Sample.db0)))
               <= 10)%nat) by (vm_compute; lia).
  split.
  - apply (A L (Sample.stored "r1" "Walmart" "2025-03-01" 9999 1299 (Some "personal")
                  (Some "cat_food")) "personal");
      [vm_compute; tauto | reflexivity | discriminate].
  - apply (A L (Sample.stored "r2" "A.B Store" "2025-06-02" 500 0 (Some "business")
                  (Some "cat_x")) "business");
      [vm_compute; tauto | reflexivity | discriminate].
Defined.


(** X25, on sample data.  A fenced response with the tag [json]. *)
Lemma ocr_fenced_response_witness :
  ocr_response_text (fence ++ "json" ++ String Regex.newline "{}"
                     ++ String Regex.newline fence) = inr "{}".
Proof.
  apply (proj2 (proj2 (ocr_fenced_response _)) "json" "{}"); reflexivity.
Defined.

(** X7, on sample data.  Bob registers in the sample store and, six days
    later, lists his categories with the token he was given. *)
Lemma register_token_lists_defaults_witness :
  exists cats,
    fst (get_categories Sample.regex Sample.no_parse (bearer
        "sess_feedfacefeedfacefeedfacefeedface")
           Fixture.after_six_days
           (snd (register Py.lower Fixture.hashpw Fixture.bob Fixture.draw Sample.db0))) = inr cats
    /\ List.length cats = 28%nat.
Proof.
  pose (resp := AuthResponse.mk "sess_feedfacefeedfacefeedfacefeedface"
                  [("user_id", VStr "user_0123456789ab"); ("email", VStr "bob@x.io");
                   ("name", VStr "Bob"); ("picture", VStr "");
                   ("currency", VStr "CAD"); ("theme", VStr "dark")]).
  destruct (register_token_lists_defaults Sample.regex Py.lower Sample.no_parse Fixture.hashpw
      Fixture.bob
              Fixture.draw Sample.db0 resp Fixture.after_six_days
              eq_refl eq_refl eq_refl eq_refl eq_refl)
    as (_ & _ & cats & G & N & _).
  - vm_compute. discriminate.
  - exists cats. split; [exact G|].
    rewrite <- (length_map Category.name cats), N. reflexivity.
Defined.

(** X26, on sample data.  Alice exports her receipts of 2025: the one in a
    category that no document carries has an empty Category column, the
    other the name of its category. *)
Lemma export_category_column_witness :
  exists body,
    fst (export_csv Sample.regex Sample.no_parse Py.title Sample.req0 Sample.clock0 (Some
        "2025-01-01") None None
           Sample.db0) = inr (csv_header :: body)
    /\ map (fun row => nth 3 row "") body = [""; "Food & Dining"].
Proof.
  assert (E : exists rows,
            fst (export_csv Sample.regex Sample.no_parse Py.title Sample.req0 Sample.clock0 (Some
                "2025-01-01")
                   None None Sample.db0) = inr rows)
    by (vm_compute; eexists; reflexivity).
  destruct E as [rows E].
  destruct (export_category_column Sample.regex Sample.no_parse Py.title Sample.req0 Sample.clock0
              (Some "2025-01-01") None None Sample.db0 "user_a" rows eq_refl E)
    as (body & -> & F).
  exists body. split; [exact E|].
  set (l := exported "user_a" (Some "2025-01-01") None None Sample.db0) in F.
  vm_compute in l. subst l.
  inversion F as [|r2 row2 ? body2 H2 F2]; subst.
  inversion F2 as [|r1 row1 ? body1 H1 F1]; subst.
  inversion F1; subst. clear F F2 F1.
  cbn [map]. f_equal; [|f_equal].
  - cbn in H2. destruct H2 as [[H|(c & [<-|[]] & K & _)] _]; [exact H | discriminate K].
  - cbn in H1. destruct H1 as [_ H].
    destruct H as (c & [<-|[]] & _ & N).
    + discriminate.
    + cbn; lia.
    + eexists. split; [left; reflexivity | reflexivity].
    + symmetry. exact N.
Defined.

(** X27, on sample data.  Alice's tax summary: the personal group is named
    after its category, the business group, whose category no document
    carries, is unknown. *)
Lemma tax_summary_category_names_witness :
  exists t,
    fst (get_tax_summary Sample.regex Sample.no_parse Sample.req0 Sample.clock0 None None None
        Sample.db0)
    = inr t
    /\ map (fun se => (fst se, map SummaryEntry.category_name (snd se))) (TaxSummary.summary t)
       = [("personal", ["Food & Dining"]); ("business", ["Unknown"])].
Proof.
  destruct (tax_summary_category_names Sample.regex Sample.no_parse Sample.req0 Sample.clock0 None
      None None
              Sample.db0 "user_a" eq_refl) as (t & E & _).
  exists t. split; [exact E|].
  assert (I : inr t = fst (get_tax_summary Sample.regex Sample.no_parse Sample.req0 Sample.clock0
      None None
                             None Sample.db0)) by (symmetry; exact E).
  vm_compute in I. injection I as ->. reflexivity.
Defined.

